(** * Customer segmentation pipeline: job orchestration, preprocessing, profiles

    A shallow embedding of [backend/spark_job.py] (the PySpark pipeline) and of
    the job driver of [backend/app.py] ([update_job_status],
    [run_spark_job_async], the status write of [run_job]).

    - Python [float] and Spark [double] values are IEEE binary64 numbers:
      Rocq's primitive [float].
    - Python [str] values are [string]s; column names are taken to be ASCII.
    - A table is its column names and its rows of cells.  A column is looked
      up by its exact name, the names of a table read from a CSV file being
      distinct whatever their case.  Spark compares names without regard to
      case: the two agree on tables whose names are in lower case, which is
      what the pipeline works on once the names are normalised; a statement
      about other tables says so.
    - A function that may raise returns an [outcome]; code that also writes
      files runs in the monad [M], which threads the [World] (status files,
      result files, the in-memory [jobs] dictionary) and keeps the writes made
      before an exception was raised.
    - Calls into the JVM side of PySpark, into pandas and into the file system
      are operations of the class [Platform]; the theorems hold for every
      platform unless a hypothesis says otherwise.  The module [Reference]
      gives a stand-in for PySpark as the source calls it: its evaluator
      rejects the fitted model it is handed, as [ClusteringEvaluator.evaluate]
      does, so that no pipeline run on it completes.
    - A file exists once it has been written: the removal of files by the
      [cleanup] route is not modelled.
    - [print] calls, [time.sleep] and the [timestamp] / [generatedAt] fields
      (wall-clock time) are left out; the status writes of one job are taken
      in the order of its own thread. *)

From Stdlib Require Import ZArith List String Ascii Bool Lia Permutation Sorted.
From Stdlib Require Import PrimFloat Uint63 DecimalString.
Import ListNotations.

Local Open Scope string_scope.
Local Open Scope Z_scope.
Local Open Scope list_scope.

Declare Scope py_scope.
Delimit Scope py_scope with py.
Infix "+++" := String.append (right associativity, at level 60) : py_scope.
Local Open Scope py_scope.

(* ===================================================================== *)
(** ** Python strings *)
(* ===================================================================== *)

Module Py.

(** [str.isspace] on an ASCII character: TAB, LF, VT, FF, CR, the four
    separators 0x1c-0x1f and the space. *)
Definition isspace (c : ascii) : bool :=
  let n := nat_of_ascii c in
  ((9 <=? n) && (n <=? 13))%nat || ((28 <=? n) && (n <=? 32))%nat.

Fixpoint lstrip (s : string) : string :=
  match s with
  | EmptyString => EmptyString
  | String c s' => if isspace c then lstrip s' else s
  end.

Fixpoint rstrip (s : string) : string :=
  match s with
  | EmptyString => EmptyString
  | String c s' =>
      match rstrip s' with
      | EmptyString => if isspace c then EmptyString else String c EmptyString
      | r => String c r
      end
  end.

(** [s.strip()] *)
Definition strip (s : string) : string := rstrip (lstrip s).

Definition lower_ascii (c : ascii) : ascii :=
  let n := nat_of_ascii c in
  if ((65 <=? n) && (n <=? 90))%nat then ascii_of_nat (n + 32) else c.

(** [s.lower()] *)
Fixpoint lower (s : string) : string :=
  match s with
  | EmptyString => EmptyString
  | String c s' => String (lower_ascii c) (lower s')
  end.

(** [x in xs] on a list of strings *)
Definition mem (x : string) (xs : list string) : bool :=
  existsb (String.eqb x) xs.

(** [", ".join(xs)] *)
Fixpoint join_comma (xs : list string) : string :=
  match xs with
  | [] => EmptyString
  | [x] => x
  | x :: rest => x +++ ", " +++ join_comma rest
  end.

(** [repr] of a string without quotes or escapes in it, as the names of the
    required columns are. *)
Definition repr_str (s : string) : string := "'" +++ s +++ "'".

(** [repr] of a list of such strings, which is what an f-string prints. *)
Definition repr_list (xs : list string) : string :=
  "[" +++ join_comma (map repr_str xs) +++ "]".

(** [sub in s] *)
Fixpoint contains (sub s : string) : bool :=
  String.prefix sub s ||
  match s with
  | EmptyString => false
  | String _ s' => contains sub s'
  end.

(** [str(n)] for an integer *)
Definition str_int (z : Z) : string := NilZero.string_of_int (Z.to_int z).

End Py.

(* ===================================================================== *)
(** ** Exceptions and outcomes *)
(* ===================================================================== *)

(** A raised exception: its class and [str(e)]. *)
Record exn := Exception { exn_class : string; exn_msg : string }.

Definition ValueError (msg : string) : exn := Exception "ValueError" msg.
Definition TypeError (msg : string) : exn := Exception "TypeError" msg.
Definition AnalysisException (msg : string) : exn :=
  Exception "AnalysisException" msg.

Inductive outcome (A : Type) : Type :=
| Ok (a : A)
| Raise (e : exn).
Arguments Ok {A} a.
Arguments Raise {A} e.

Definition obind {A B} (o : outcome A) (f : A -> outcome B) : outcome B :=
  match o with
  | Ok a => f a
  | Raise e => Raise e
  end.

Notation "x <-? c1 ;; c2" := (obind c1 (fun x => c2))
  (at level 61, c1 at next level, right associativity) : py_scope.

(* ===================================================================== *)
(** ** Tables *)
(* ===================================================================== *)

(** A value of a Spark row.  An integer-typed CSV column is represented by
    the doubles it casts to; [Int] is the type of derived integer columns
    ([age_group], the [cluster] prediction), [Vec] of assembled features. *)
Inductive cell :=
| Null
| Num (x : float)
| Int (z : Z)
| Text (s : string)
| Vec (v : list float).

Record DataFrame := mkDataFrame {
  columns : list string;
  rows : list (list cell)
}.

(** Positions at which [name] occurs in a column list. *)
Fixpoint positions_from (i : nat) (name : string) (cols : list string) : list nat :=
  match cols with
  | [] => []
  | c :: cs =>
      if String.eqb c name then i :: positions_from (S i) name cs
      else positions_from (S i) name cs
  end.

(** Resolution of a column reference: unknown and ambiguous names are
    analysis errors.  Names are compared exactly (see the head of the
    file). *)
Definition resolve (cols : list string) (name : string) : outcome nat :=
  match positions_from 0 name cols with
  | [i] => Ok i
  | [] => Raise (AnalysisException ("cannot resolve column " +++ name))
  | _ => Raise (AnalysisException ("ambiguous reference " +++ name))
  end.

Definition get (i : nat) (row : list cell) : cell := nth i row Null.

Definition column_values (i : nat) (df : DataFrame) : list cell :=
  map (get i) (rows df).

Fixpoint set_nth (i : nat) (v : cell) (row : list cell) : list cell :=
  match i, row with
  | _, [] => []
  | O, _ :: xs => v :: xs
  | S i', x :: xs => x :: set_nth i' v xs
  end.

(** [df.withColumnRenamed(existing, new)]: no-op when [existing] is absent. *)
Definition withColumnRenamed (existing new : string) (df : DataFrame) : DataFrame :=
  mkDataFrame
    (map (fun c => if String.eqb c existing then new else c) (columns df))
    (rows df).

(* ===================================================================== *)
(** ** Column names and schema validation *)
(* ===================================================================== *)

(** [get_column_names]: [[col.strip().lower() for col in df.columns]] *)
Definition get_column_names (df : DataFrame) : list string :=
  map (fun col => Py.lower (Py.strip col)) (columns df).

(** [normalize_dataframe] *)
Definition normalize_dataframe (df : DataFrame) : DataFrame :=
  fold_left
    (fun df_normalized col_name =>
       let normalized_name := Py.lower (Py.strip col_name) in
       if negb (String.eqb col_name normalized_name)
       then withColumnRenamed col_name normalized_name df_normalized
       else df_normalized)
    (columns df) df.

Definition required : list string := ["age"; "spend"; "recency"; "frequency"].

(** [[col for col in required if col not in cols]] *)
Definition missing_columns (df : DataFrame) : list string :=
  let cols := get_column_names df in
  filter (fun col => negb (Py.mem col cols)) required.

(** [validate_required_columns] *)
Definition validate_required_columns (df : DataFrame) : outcome bool :=
  let missing := missing_columns df in
  match missing with
  | _ :: _ => Raise (ValueError ("Missing required columns: " +++ Py.repr_list missing))
  | [] => Ok true
  end.

(* ===================================================================== *)
(** ** Cluster labels *)
(* ===================================================================== *)

(** The aggregate row of one cluster, as [groupBy('cluster').agg(...)]
    returns it; an average, minimum or maximum over no value is null. *)
Record StatsRow := mkStatsRow {
  r_cluster : cell;
  r_size : Z;
  r_avg_age : option float;
  r_avg_spend : option float;
  r_avg_recency : option float;
  r_avg_frequency : option float;
  r_min_spend : option float;
  r_max_spend : option float
}.

(** [float(x)] of a double or of [None] *)
Definition py_float (x : option float) : outcome float :=
  match x with
  | Some v => Ok v
  | None =>
      Raise (TypeError "float() argument must be a string or a real number, not 'NoneType'")
  end.

(** The label rule of [get_cluster_description] on the three means. *)
Definition describe (avg_spend avg_age avg_frequency : float) : string :=
  if PrimFloat.ltb 1500 avg_spend then
    if PrimFloat.ltb 55 avg_age then "Luxury Segment" else "Premium Customers"
  else if PrimFloat.ltb 900 avg_spend then "Regular Shoppers"
  else if PrimFloat.ltb avg_frequency 3 then "Budget Conscious"
  else "Emerging Customers".

(** [get_cluster_description] *)
Definition get_cluster_description (row : StatsRow) : outcome string :=
  avg_spend <-? py_float (r_avg_spend row) ;;
  avg_age <-? py_float (r_avg_age row) ;;
  avg_frequency <-? py_float (r_avg_frequency row) ;;
  Ok (describe avg_spend avg_age avg_frequency).

(* ===================================================================== *)
(** ** Status records, result artifacts and the world *)
(* ===================================================================== *)

(** The [status_data] dictionary of [log_progress] and [update_job_status]. *)
Record StatusRecord := mkStatus {
  job_id : string;
  stage : string;
  progress : Z;
  message : string
}.

(** One entry of the [clusters] list of [segment_profiles.json]. *)
Record ClusterInfo := mkClusterInfo {
  id : Z;
  size : Z;
  avgAge : float;
  avgSpend : float;
  avgRecency : float;
  avgFrequency : float;
  minSpend : float;
  maxSpend : float;
  topCategory : string;
  description : string
}.

(** The [segment_profiles] dictionary. *)
Record SegmentProfiles := mkSegmentProfiles {
  numClusters : Z;
  totalCustomers : Z;
  clusters : list ClusterInfo;
  silhouetteScore : float
}.

(** The [chart_data] dictionary. *)
Record ChartData := mkChartData {
  clusterCounts : list (string * Z);
  scatterPlot : list (float * float * Z);
  lineChart : list (string * float);
  radarChart : list (Z * float * float * float * float)
}.

Inductive artifact :=
| ProfilesJson (p : SegmentProfiles)
| ChartJson (c : ChartData)
| CsvOutput (d : DataFrame).

(** Files are addressed by directory and name.  [status_files] and
    [result_files] list every completed write, oldest first: the content of a
    file is its latest entry.  [jobs] is the dictionary of [app.py]. *)
Record World := mkWorld {
  status_files : list (string * string * StatusRecord);
  result_files : list (string * string * artifact);
  jobs : list (string * StatusRecord)
}.

Definition write_status (dir name : string) (r : StatusRecord) (w : World) : World :=
  mkWorld (status_files w ++ [(dir, name, r)]) (result_files w) (jobs w).

Definition write_result (dir name : string) (a : artifact) (w : World) : World :=
  mkWorld (status_files w) (result_files w ++ [(dir, name, a)]) (jobs w).

(** [jobs[job_id] = status_data] *)
Fixpoint dict_set (k : string) (v : StatusRecord) (d : list (string * StatusRecord))
  : list (string * StatusRecord) :=
  match d with
  | [] => [(k, v)]
  | (k', v') :: rest =>
      if String.eqb k' k then (k, v) :: rest else (k', v') :: dict_set k v rest
  end.

Definition set_job (k : string) (v : StatusRecord) (w : World) : World :=
  mkWorld (status_files w) (result_files w) (dict_set k v (jobs w)).

(* ===================================================================== *)
(** ** The monad of file-writing code *)
(* ===================================================================== *)

Definition M (A : Type) : Type := World -> outcome A * World.

Definition ret {A} (a : A) : M A := fun w => (Ok a, w).

Definition bind {A B} (m : M A) (f : A -> M B) : M B :=
  fun w =>
    match m w with
    | (Ok a, w') => f a w'
    | (Raise e, w') => (Raise e, w')
    end.

(** A call that raises or returns without touching the files. *)
Definition lift {A} (o : outcome A) : M A := fun w => (o, w).

(** [try: body  except Exception as e: handler e] *)
Definition try_except {A} (body : M A) (handler : exn -> M A) : M A :=
  fun w =>
    match body w with
    | (Ok a, w') => (Ok a, w')
    | (Raise e, w') => handler e w'
    end.

Notation "x <- c1 ;; c2" := (bind c1 (fun x => c2))
  (at level 61, c1 at next level, right associativity) : py_scope.
Notation "c1 ;; c2" := (bind c1 (fun _ => c2))
  (at level 61, right associativity) : py_scope.

(* ===================================================================== *)
(** ** The platform: PySpark, pandas, the file system *)
(* ===================================================================== *)

(** A fitted [KMeansModel]. *)
Record KMeansModel := mkModel { clusterCenters : list (list float) }.

Class Platform := {
  (** [STATUS_DIR] and [RESULTS_DIR] of [app.py] *)
  STATUS_DIR : string;
  RESULTS_DIR : string;
  (** [open(Path(dir) / name, 'w')]: the exception it raises, if any *)
  open_w : string -> string -> option exn;
  (** [SparkSession.builder...getOrCreate()] and [spark.stop()] *)
  getOrCreate : outcome unit;
  spark_stop : outcome unit;
  (** [spark.read.csv(filepath, header=True, inferSchema=True)] *)
  read_csv : string -> outcome DataFrame;
  (** the [median] and [stddev] aggregates over the values of a column;
      [None] is SQL null *)
  agg_median : list cell -> option float;
  agg_stddev : list cell -> option float;
  (** casts of a string to [double] and of a double to [int] *)
  cast_text_double : string -> option float;
  cast_double_int : float -> Z;
  (** [VectorAssembler(inputCols, outputCol).transform(df)], forced by the
      [show] that follows it *)
  assemble : list string -> string -> DataFrame -> outcome DataFrame;
  (** [StandardScaler(...).fit(df).transform(df)] *)
  standard_scale : string -> string -> DataFrame -> outcome DataFrame;
  (** [KMeans(k, seed=42, maxIter=20, ...).fit(df)] and [model.transform(df)] *)
  kmeans_fit : Z -> DataFrame -> outcome KMeansModel;
  kmeans_transform : KMeansModel -> DataFrame -> outcome DataFrame;
  (** [ClusteringEvaluator(...).evaluate(x)], which the source applies to the
      fitted model *)
  evaluate : KMeansModel -> outcome float;
  (** [round(x, ndigits)] and the format [{x:.4f}] *)
  py_round : float -> Z -> float;
  format_4f : float -> string;
  (** the chart series of [generate_chart_data] (group counts, the pandas
      sample, bracket averages, radar rows) *)
  chart_series : DataFrame -> outcome ChartData;
  (** [df.coalesce(1).write.mode('overwrite').csv(path, header=True)] *)
  write_csv : string -> string -> DataFrame -> option exn
}.

(** [float(n)] for an integer *)
Definition float_of_Z (z : Z) : float :=
  if z <? 0 then PrimFloat.opp (PrimFloat.of_uint63 (Uint63.of_Z (- z)))
  else PrimFloat.of_uint63 (Uint63.of_Z z).

(** Two's-complement wrap-around of Spark's 32-bit [int]. *)
Definition wrap32 (z : Z) : Z := (z + 2 ^ 31) mod 2 ^ 32 - 2 ^ 31.

Section Pipeline.

Context {platform : Platform}.

(* ===================================================================== *)
(** ** Column expressions and table operations *)
(* ===================================================================== *)

Inductive dtype := DoubleType | IntegerType.

(** The column expressions the pipeline builds. *)
Inductive Column :=
| col (name : string)
| lit (z : Z)
| cast (c : Column) (t : dtype)
| c_div (a b : Column)
| c_add (a b : Column)
| c_mul (a b : Column).

Definition as_double (c : cell) : option float :=
  match c with
  | Num x => Some x
  | Int z => Some (float_of_Z z)
  | Text s => cast_text_double s
  | Null | Vec _ => None
  end.

(** [cast]: a value that does not convert becomes null. *)
Definition cast_cell (t : dtype) (c : cell) : cell :=
  match t with
  | DoubleType =>
      match as_double c with
      | Some x => Num x
      | None => Null
      end
  | IntegerType =>
      match c with
      | Int z => Int z
      | _ =>
          match as_double c with
          | Some x => Int (cast_double_int x)
          | None => Null
          end
      end
  end.

(** [a / b] is a double and is null when the divisor is zero. *)
Definition div_cell (a b : cell) : cell :=
  match as_double a, as_double b with
  | Some x, Some y => if PrimFloat.eqb y 0 then Null else Num (PrimFloat.div x y)
  | _, _ => Null
  end.

Definition arith_cell (fz : Z -> Z -> Z) (ff : float -> float -> float)
  (a b : cell) : cell :=
  match a, b with
  | Int x, Int y => Int (wrap32 (fz x y))
  | _, _ =>
      match as_double a, as_double b with
      | Some x, Some y => Num (ff x y)
      | _, _ => Null
      end
  end.

(** Analysis of an expression against a schema, then its value on a row. *)
Fixpoint bind_column (cols : list string) (c : Column) : outcome (list cell -> cell) :=
  match c with
  | col name => i <-? resolve cols name ;; Ok (get i)
  | lit z => Ok (fun _ => Int z)
  | cast c' t => f <-? bind_column cols c' ;; Ok (fun r => cast_cell t (f r))
  | c_div a b =>
      f <-? bind_column cols a ;; g <-? bind_column cols b ;;
      Ok (fun r => div_cell (f r) (g r))
  | c_add a b =>
      f <-? bind_column cols a ;; g <-? bind_column cols b ;;
      Ok (fun r => arith_cell Z.add PrimFloat.add (f r) (g r))
  | c_mul a b =>
      f <-? bind_column cols a ;; g <-? bind_column cols b ;;
      Ok (fun r => arith_cell Z.mul PrimFloat.mul (f r) (g r))
  end.

Fixpoint replace_named (name : string) (v : cell) (cols : list string)
  (row : list cell) : list cell :=
  match cols, row with
  | c :: cs, x :: xs =>
      (if String.eqb c name then v else x) :: replace_named name v cs xs
  | _, _ => row
  end.

(** [df.withColumn(name, c)]: replaces the column of that name, or appends. *)
Definition withColumn (name : string) (c : Column) (df : DataFrame) : outcome DataFrame :=
  f <-? bind_column (columns df) c ;;
  if Py.mem name (columns df)
  then Ok (mkDataFrame (columns df)
             (map (fun r => replace_named name (f r) (columns df) r) (rows df)))
  else Ok (mkDataFrame (columns df ++ [name])
             (map (fun r => r ++ [f r]) (rows df))).

(** What [fillna] fills and [dropna] drops: null, and NaN in a double. *)
Definition is_missing (c : cell) : bool :=
  match c with
  | Null => true
  | Num x => PrimFloat.is_nan x
  | _ => false
  end.

(** [df.fillna({name: value})] *)
Definition fillna (name : string) (value : float) (df : DataFrame) : outcome DataFrame :=
  i <-? resolve (columns df) name ;;
  Ok (mkDataFrame (columns df)
        (map (fun r => if is_missing (get i r) then set_nth i (Num value) r else r)
           (rows df))).

Fixpoint resolve_all (cols : list string) (names : list string) : outcome (list nat) :=
  match names with
  | [] => Ok []
  | n :: rest =>
      i <-? resolve cols n ;; idxs <-? resolve_all cols rest ;; Ok (i :: idxs)
  end.

(** [df.dropna(subset=names)] *)
Definition dropna (subset : list string) (df : DataFrame) : outcome DataFrame :=
  idxs <-? resolve_all (columns df) subset ;;
  Ok (mkDataFrame (columns df)
        (filter (fun r => forallb (fun i => negb (is_missing (get i r))) idxs) (rows df))).

(** [df.agg({name: f}).collect()[0][0]] *)
Definition agg (f : list cell -> option float) (name : string) (df : DataFrame)
  : outcome (option float) :=
  i <-? resolve (columns df) name ;; Ok (f (column_values i df)).

(** [df.select] on a list of names *)
Definition select (names : list string) (df : DataFrame) : outcome DataFrame :=
  idxs <-? resolve_all (columns df) names ;;
  Ok (mkDataFrame names (map (fun r => map (fun i => get i r) idxs) (rows df))).

(* ===================================================================== *)
(** ** [log_progress] *)
(* ===================================================================== *)

(** [log_progress]: the status file is opened for writing, which may raise,
    and then receives the record. *)
Definition log_progress (job_id status_dir stage : string) (progress : Z)
  (message : string) : M unit :=
  fun w =>
    let status_data := mkStatus job_id stage progress message in
    let status_file := job_id +++ ".json" in
    match open_w status_dir status_file with
    | Some e => (Raise e, w)
    | None => (Ok tt, write_status status_dir status_file status_data w)
    end.

(* ===================================================================== *)
(** ** Stage 2: preprocessing *)
(* ===================================================================== *)

Definition numeric_cols : list string := ["age"; "spend"; "recency"; "frequency"].

(** The loop "Fill missing numeric values with median". *)
Fixpoint fill_with_median (names : list string) (spark_df : DataFrame)
  : outcome DataFrame :=
  match names with
  | [] => Ok spark_df
  | col_name :: rest =>
      if Py.mem col_name (columns spark_df) then
        median_value <-? agg agg_median col_name spark_df ;;
        let median_value :=
          match median_value with
          | None => 0%float
          | Some m => m
          end in
        spark_df <-? fillna col_name median_value spark_df ;;
        fill_with_median rest spark_df
      else fill_with_median rest spark_df
  end.

(** The loop of [withColumn(col_name, col(col_name).cast('double'))]. *)
Fixpoint cast_to_double (names : list string) (spark_df : DataFrame)
  : outcome DataFrame :=
  match names with
  | [] => Ok spark_df
  | col_name :: rest =>
      spark_df <-? withColumn col_name (cast (col col_name) DoubleType) spark_df ;;
      cast_to_double rest spark_df
  end.

(** [preprocess_data] up to and including the cast loop: the table on which
    the spend statistics are then computed. *)
Definition clean_table (spark_df : DataFrame) : outcome DataFrame :=
  let spark_df := normalize_dataframe spark_df in
  _ <-? validate_required_columns spark_df ;;
  spark_df <-? fill_with_median numeric_cols spark_df ;;
  spark_df <-? dropna numeric_cols spark_df ;;
  cast_to_double numeric_cols spark_df.

(** [spend_stats]: a dictionary literal with four times the key ['spend']
    keeps the last entry, so the aggregate is [stddev]. *)
Definition spend_stats (spark_df : DataFrame) : outcome (option float) :=
  agg agg_stddev "spend" spark_df.

(** [preprocess_data] *)
Definition preprocess_data (spark_df : DataFrame) (job_id status_dir : string)
  : M DataFrame :=
  log_progress job_id status_dir "preprocessing" 25
    "Handling missing values and outliers" ;;
  spark_df <- lift (clean_table spark_df) ;;
  _ <- lift (spend_stats spark_df) ;;
  log_progress job_id status_dir "preprocessing" 30 "Removing outliers" ;;
  ret spark_df.

(* ===================================================================== *)
(** ** Stage 3: features, vectors, scaling *)
(* ===================================================================== *)

(** The loop "Ensure numeric types" of [feature_engineering]. *)
Fixpoint ensure_double (names : list string) (spark_df : DataFrame)
  : outcome DataFrame :=
  match names with
  | [] => Ok spark_df
  | col_name :: rest =>
      if Py.mem col_name (columns spark_df) then
        spark_df <-? withColumn col_name (cast (col col_name) DoubleType) spark_df ;;
        ensure_double rest spark_df
      else ensure_double rest spark_df
  end.

(** [feature_engineering] *)
Definition feature_engineering (spark_df : DataFrame) (job_id status_dir : string)
  : M DataFrame :=
  log_progress job_id status_dir "feature_engineering" 40
    "Starting feature engineering" ;;
  spark_df <- lift (ensure_double ["age"; "spend"; "recency"; "frequency"] spark_df) ;;
  spark_df <- lift
    (if negb (Py.mem "age_group" (columns spark_df))
     then withColumn "age_group"
            (c_mul (cast (c_div (col "age") (lit 10)) IntegerType) (lit 10)) spark_df
     else Ok spark_df) ;;
  spark_df <- lift
    (withColumn "rf_ratio"
       (c_div (col "frequency") (c_add (col "recency") (lit 1))) spark_df) ;;
  spark_df <- lift
    (withColumn "spend_per_purchase"
       (c_div (col "spend") (c_add (col "frequency") (lit 1))) spark_df) ;;
  log_progress job_id status_dir "feature_engineering" 50 "Features engineered" ;;
  ret spark_df.

(** [create_feature_vector] *)
Definition create_feature_vector (spark_df : DataFrame) (job_id status_dir : string)
  : M DataFrame :=
  log_progress job_id status_dir "vectorization" 55
    "Assembling features into vectors" ;;
  let feature_cols := ["age"; "spend"; "recency"; "frequency"] in
  spark_df <- lift (assemble feature_cols "features" spark_df) ;;
  log_progress job_id status_dir "vectorization" 60 "Feature vector created" ;;
  ret spark_df.

(** [scale_features] *)
Definition scale_features (spark_df : DataFrame) (job_id status_dir : string)
  : M DataFrame :=
  log_progress job_id status_dir "scaling" 65 "Scaling features" ;;
  spark_df <- lift (standard_scale "features" "scaled_features" spark_df) ;;
  log_progress job_id status_dir "scaling" 70 "Features scaled" ;;
  ret spark_df.

(* ===================================================================== *)
(** ** Stage 4: clustering *)
(* ===================================================================== *)

(** [perform_clustering] *)
Definition perform_clustering (spark_df : DataFrame) (k : Z)
  (job_id status_dir : string) : M (DataFrame * KMeansModel * float) :=
  log_progress job_id status_dir "clustering" 75
    ("Running KMeans with k=" +++ Py.str_int k) ;;
  model <- lift (kmeans_fit k spark_df) ;;
  spark_df <- lift (kmeans_transform model spark_df) ;;
  silhouette_score <- lift (evaluate model) ;;
  log_progress job_id status_dir "clustering" 85
    ("KMeans complete. Silhouette Score: " +++ format_4f silhouette_score) ;;
  ret (spark_df, model, silhouette_score).

(* ===================================================================== *)
(** ** Stage 5: segment profiles, chart data, the segments table *)
(* ===================================================================== *)

(** Equality of grouping keys. *)
Definition cell_eqb (a b : cell) : bool :=
  match a, b with
  | Null, Null => true
  | Int x, Int y => Z.eqb x y
  | Num x, Num y => PrimFloat.eqb x y || (PrimFloat.is_nan x && PrimFloat.is_nan y)
  | Text s, Text t => String.eqb s t
  | _, _ => false
  end.

(** The distinct keys of a column, in order of first occurrence (Spark fixes
    no order of the groups). *)
Fixpoint distinct_keys (seen : list cell) (l : list cell) : list cell :=
  match l with
  | [] => []
  | c :: rest =>
      if existsb (cell_eqb c) seen then distinct_keys seen rest
      else c :: distinct_keys (c :: seen) rest
  end.

(** The non-null doubles of a column. *)
Definition doubles (l : list cell) : list float :=
  flat_map (fun c => match as_double c with Some x => [x] | None => [] end) l.

Definition fsum (l : list float) : float := fold_left PrimFloat.add l 0%float.

(** Spark orders NaN above every other double. *)
Definition fmin (a b : float) : float :=
  if PrimFloat.is_nan a then b
  else if PrimFloat.is_nan b then a
  else if PrimFloat.ltb b a then b else a.

Definition fmax (a b : float) : float :=
  if PrimFloat.is_nan a then a
  else if PrimFloat.is_nan b then b
  else if PrimFloat.ltb a b then b else a.

(** [avg], [min] and [max] over a column: null over no value. *)
Definition agg_avg (l : list cell) : option float :=
  match doubles l with
  | [] => None
  | xs => Some (PrimFloat.div (fsum xs) (float_of_Z (Z.of_nat (List.length xs))))
  end.

Definition agg_min (l : list cell) : option float :=
  match doubles l with
  | [] => None
  | x :: xs => Some (fold_left fmin xs x)
  end.

Definition agg_max (l : list cell) : option float :=
  match doubles l with
  | [] => None
  | x :: xs => Some (fold_left fmax xs x)
  end.

(** [spark_df.groupBy('cluster').agg(count, avg ..., min, max).collect()] *)
Definition cluster_stats_of (spark_df : DataFrame) : outcome (list StatsRow) :=
  let cols := columns spark_df in
  ic <-? resolve cols "cluster" ;;
  ia <-? resolve cols "age" ;;
  isp <-? resolve cols "spend" ;;
  ir <-? resolve cols "recency" ;;
  ifr <-? resolve cols "frequency" ;;
  Ok (map
        (fun key =>
           let group := filter (fun r => cell_eqb (get ic r) key) (rows spark_df) in
           mkStatsRow key (Z.of_nat (List.length group))
             (agg_avg (map (get ia) group))
             (agg_avg (map (get isp) group))
             (agg_avg (map (get ir) group))
             (agg_avg (map (get ifr) group))
             (agg_min (map (get isp) group))
             (agg_max (map (get isp) group)))
        (distinct_keys [] (column_values ic spark_df))).

(** [int(row['cluster'])] on the integer prediction column *)
Definition py_int (c : cell) : outcome Z :=
  match c with
  | Int z => Ok z
  | _ => Raise (TypeError "int() argument must be a string, a bytes-like object or a real number")
  end.

(** The [cluster_info] dictionary of one aggregate row. *)
Definition cluster_info_of (row : StatsRow) : outcome ClusterInfo :=
  cluster_id <-? py_int (r_cluster row) ;;
  let size := r_size row in
  avg_age <-? py_float (r_avg_age row) ;;
  avg_spend <-? py_float (r_avg_spend row) ;;
  avg_recency <-? py_float (r_avg_recency row) ;;
  avg_frequency <-? py_float (r_avg_frequency row) ;;
  min_spend <-? py_float (r_min_spend row) ;;
  max_spend <-? py_float (r_max_spend row) ;;
  description <-? get_cluster_description row ;;
  Ok (mkClusterInfo cluster_id size
        (py_round avg_age 1) (py_round avg_spend 2)
        (py_round avg_recency 1) (py_round avg_frequency 1)
        (py_round min_spend 2) (py_round max_spend 2)
        "Electronics" description).

(** The loop [for row in cluster_stats], from the state
    [(clusters, total_customers)]. *)
Fixpoint collect_clusters (cluster_stats : list StatsRow)
  (clusters : list ClusterInfo) (total_customers : Z)
  : outcome (list ClusterInfo * Z) :=
  match cluster_stats with
  | [] => Ok (clusters, total_customers)
  | row :: rest =>
      let total_customers := total_customers + r_size row in
      cluster_info <-? cluster_info_of row ;;
      collect_clusters rest (clusters ++ [cluster_info]) total_customers
  end.

(** [clusters.sort(key=lambda x: x['size'], reverse=True)]: stable, largest
    first. *)
Fixpoint insert_by_size (x : ClusterInfo) (l : list ClusterInfo) : list ClusterInfo :=
  match l with
  | [] => [x]
  | y :: rest => if size x <? size y then y :: insert_by_size x rest else x :: l
  end.

Definition sort_by_size (l : list ClusterInfo) : list ClusterInfo :=
  fold_right insert_by_size [] l.

(** [with open(Path(dir) / name, 'w') as f: json.dump(a, f)] *)
Definition write_json (dir name : string) (a : artifact) : M unit :=
  fun w =>
    match open_w dir name with
    | Some e => (Raise e, w)
    | None => (Ok tt, write_result dir name a w)
    end.

(** The literal [0.72], that is the double nearest to it. *)
Definition placeholder_score : float := 0x1.70a3d70a3d70ap-1%float.

(** [generate_segment_profiles] *)
Definition generate_segment_profiles (spark_df : DataFrame)
  (results_dir job_id status_dir : string) : M SegmentProfiles :=
  log_progress job_id status_dir "profiling" 90 "Generating segment profiles" ;;
  cluster_stats <- lift (cluster_stats_of spark_df) ;;
  acc <- lift (collect_clusters cluster_stats [] 0) ;;
  let clusters := sort_by_size (fst acc) in
  let total_customers := snd acc in
  let segment_profiles :=
    mkSegmentProfiles (Z.of_nat (List.length clusters)) total_customers clusters
      placeholder_score in
  write_json results_dir "segment_profiles.json" (ProfilesJson segment_profiles) ;;
  ret segment_profiles.

(** [generate_chart_data] *)
Definition generate_chart_data (spark_df : DataFrame)
  (results_dir job_id status_dir : string) : M ChartData :=
  log_progress job_id status_dir "visualization" 95 "Generating visualization data" ;;
  chart_data <- lift (chart_series spark_df) ;;
  write_json results_dir "chart_data.json" (ChartJson chart_data) ;;
  ret chart_data.

(** [save_segmented_customers] *)
Definition save_segmented_customers (spark_df : DataFrame)
  (results_dir job_id status_dir : string) : M unit :=
  log_progress job_id status_dir "saving" 98 "Saving segmented customers" ;;
  let output_cols :=
    [ (if Py.mem "customerid" (columns spark_df) then "customerid" else "id");
      "age"; "spend"; "recency"; "frequency"; "cluster" ] in
  let available_cols := filter (fun c => Py.mem c (columns spark_df)) output_cols in
  output_df <- lift (select available_cols spark_df) ;;
  fun w =>
    match write_csv results_dir "segments.csv" output_df with
    | Some e => (Raise e, w)
    | None => (Ok tt, write_result results_dir "segments.csv" (CsvOutput output_df) w)
    end.

(* ===================================================================== *)
(** ** The pipeline entry point *)
(* ===================================================================== *)

(** The dictionary [run_segmentation_pipeline] returns. *)
Inductive PipelineResult :=
| Completed (job : string) (rows_processed : Z) (k : Z) (silhouette_score : float)
| Failed (job : string) (error : string).

Definition status (r : PipelineResult) : string :=
  match r with
  | Completed _ _ _ _ => "completed"
  | Failed _ _ => "error"
  end.

(** The [try] block of [run_segmentation_pipeline]. *)
Definition pipeline_body (job_id filepath results_dir status_dir : string) (k : Z)
  : M PipelineResult :=
  _ <- lift getOrCreate ;;
  log_progress job_id status_dir "loading" 10 "Loading CSV file" ;;
  spark_df <- lift (read_csv filepath) ;;
  let row_count := Z.of_nat (List.length (rows spark_df)) in
  log_progress job_id status_dir "loading" 20
    ("Loaded " +++ Py.str_int row_count +++ " records") ;;
  spark_df <- preprocess_data spark_df job_id status_dir ;;
  spark_df <- feature_engineering spark_df job_id status_dir ;;
  spark_df <- create_feature_vector spark_df job_id status_dir ;;
  spark_df <- scale_features spark_df job_id status_dir ;;
  clustered <- perform_clustering spark_df k job_id status_dir ;;
  let spark_df := fst (fst clustered) in
  let silhouette_score := snd clustered in
  _ <- generate_segment_profiles spark_df results_dir job_id status_dir ;;
  _ <- generate_chart_data spark_df results_dir job_id status_dir ;;
  save_segmented_customers spark_df results_dir job_id status_dir ;;
  log_progress job_id status_dir "completed" 100
    "Segmentation completed successfully" ;;
  _ <- lift spark_stop ;;
  ret (Completed job_id row_count k silhouette_score).

(** [run_segmentation_pipeline] *)
Definition run_segmentation_pipeline (job_id filepath results_dir status_dir : string)
  (k : Z) : M PipelineResult :=
  try_except (pipeline_body job_id filepath results_dir status_dir k)
    (fun e =>
       let error_msg := exn_msg e in
       log_progress job_id status_dir "error" 0 ("Error: " +++ error_msg) ;;
       ret (Failed job_id error_msg)).

(* ===================================================================== *)
(** ** The job driver of [app.py] *)
(* ===================================================================== *)

(** [update_job_status] *)
Definition update_job_status (job_id stage : string) (progress : Z)
  (message : string) : M unit :=
  fun w =>
    let status_data := mkStatus job_id stage progress message in
    let w := set_job job_id status_data w in
    let status_file := job_id +++ ".json" in
    match open_w STATUS_DIR status_file with
    | Some e => (Raise e, w)
    | None => (Ok tt, write_status STATUS_DIR status_file status_data w)
    end.

(** [run_spark_job_async]; the pipeline runs with its default [k=4]. *)
Definition run_spark_job_async (job_id filepath filename : string) : M unit :=
  try_except
    (update_job_status job_id "initializing" 5 "Starting job..." ;;
     results <- run_segmentation_pipeline job_id filepath RESULTS_DIR STATUS_DIR 4 ;;
     update_job_status job_id "completed" 100 "Job completed successfully")
    (fun e => update_job_status job_id "error" 0 ("Error: " +++ exn_msg e)).

(** [run_job], from the job id on: it writes the [queued] record and starts
    the thread that runs [run_spark_job_async].  The request and the response
    of the route are left out. *)
Definition run_job (job_id filepath filename : string) : M unit :=
  update_job_status job_id "queued" 0 "Job queued for processing" ;;
  run_spark_job_async job_id filepath filename.

End Pipeline.

(* ===================================================================== *)
(** ** A reference platform *)
(* ===================================================================== *)

(** A concrete platform on which the pipeline can be run: a file system with
    the two directories [status] and [results], five uploaded files, and
    stand-ins for the Spark operations.  It serves the closed examples; the
    general theorems do not depend on it. *)
Module Reference.

Definition FileNotFoundError (dir name : string) : exn :=
  Exception "FileNotFoundError"
    ("[Errno 2] No such file or directory: '" +++ dir +++ "/" +++ name +++ "'").

Definition ref_open_w (dir name : string) : option exn :=
  if Py.mem dir ["status"; "results"] then None
  else Some (FileNotFoundError dir name).

(** The two-customer scenario of the specification. *)
Definition customers : DataFrame :=
  mkDataFrame [" Age"; "Spend"; "Recency"; "Frequency "]
    [ [Num 25; Num 500; Num 10; Num 5];
      [Num 60; Num 2000; Num 2; Num 20] ].

(** The same table without its [recency] column. *)
Definition no_recency : DataFrame :=
  mkDataFrame ["age"; "spend"; "frequency"]
    [ [Num 25; Num 500; Num 5];
      [Num 60; Num 2000; Num 20] ].

(** Two customers with the same four values. *)
Definition twins : DataFrame :=
  mkDataFrame ["age"; "spend"; "recency"; "frequency"]
    [ [Num 40; Num 1000; Num 5; Num 10];
      [Num 40; Num 1000; Num 5; Num 10] ].

(** Eleven customers who spent 100 and one who spent 100000, which is more
    than three standard deviations above the mean. *)
Definition with_outlier : DataFrame :=
  mkDataFrame ["age"; "spend"; "recency"; "frequency"]
    (repeat [Num 30; Num 100; Num 5; Num 5] 11 ++ [[Num 30; Num 100000; Num 5; Num 5]]).

(** A table whose [age] column is text: a word, a number and an empty
    field. *)
Definition bad_age : DataFrame :=
  mkDataFrame ["age"; "spend"; "recency"; "frequency"]
    [ [Text "abc"; Num 500; Num 10; Num 5];
      [Text "60"; Num 2000; Num 2; Num 20];
      [Null; Num 900; Num 4; Num 8] ].

Definition ref_read_csv (path : string) : outcome DataFrame :=
  if String.eqb path "uploads/customers.csv" then Ok customers
  else if String.eqb path "uploads/no_recency.csv" then Ok no_recency
  else if String.eqb path "uploads/bad_age.csv" then Ok bad_age
  else if String.eqb path "uploads/twins.csv" then Ok twins
  else if String.eqb path "uploads/with_outlier.csv" then Ok with_outlier
  else Raise (AnalysisException ("[PATH_NOT_FOUND] Path does not exist: " +++ path)).

(** Plain decimal literals (an optional sign, digits, an optional
    fraction); the other spellings of a double are not covered and read as
    text that does not cast. *)
Definition digit (c : ascii) : option Z :=
  let n := Z.of_nat (nat_of_ascii c) in
  if (48 <=? n) && (n <=? 57) then Some (n - 48) else None.

Fixpoint read_digits (s : string) (acc : Z) (count : nat) : Z * nat * string :=
  match s with
  | EmptyString => (acc, count, s)
  | String c s' =>
      match digit c with
      | Some d => read_digits s' (10 * acc + d) (S count)
      | None => (acc, count, s)
      end
  end.

Definition parse_unsigned (s : string) : option float :=
  let '(n, cn, rest) := read_digits s 0 O in
  match rest with
  | EmptyString =>
      if (0 <? cn)%nat then Some (float_of_Z n) else None
  | String "." rest' =>
      let '(m, cm, rest'') := read_digits rest' n O in
      match rest'' with
      | EmptyString =>
          if (0 <? cn + cm)%nat
          then Some (PrimFloat.div (float_of_Z m) (float_of_Z (10 ^ Z.of_nat cm)))
          else None
      | _ => None
      end
  | _ => None
  end.

Definition ref_cast_text_double (s : string) : option float :=
  match s with
  | String "-" s' => option_map PrimFloat.opp (parse_unsigned s')
  | String "+" s' => parse_unsigned s'
  | _ => parse_unsigned s
  end.

Definition ref_doubles (l : list cell) : list float :=
  flat_map
    (fun c =>
       match c with
       | Num x => [x]
       | Int z => [float_of_Z z]
       | Text s => match ref_cast_text_double s with Some x => [x] | None => [] end
       | _ => []
       end) l.

(** Ascending insertion sort, NaN last. *)
Definition fle (a b : float) : bool :=
  PrimFloat.is_nan b || (negb (PrimFloat.is_nan a) && PrimFloat.leb a b).

Fixpoint finsert (x : float) (l : list float) : list float :=
  match l with
  | [] => [x]
  | y :: rest => if fle x y then x :: l else y :: finsert x rest
  end.

Definition fsort (l : list float) : list float := fold_right finsert [] l.

(** The exact median: the middle value, or the mean of the two middle ones. *)
Definition ref_median (l : list cell) : option float :=
  let xs := fsort (ref_doubles l) in
  let n := List.length xs in
  match xs with
  | [] => None
  | x :: _ =>
      let lo := nth ((n - 1) / 2) xs x in
      let hi := nth (n / 2) xs x in
      if Nat.even n
      then Some (PrimFloat.add (PrimFloat.mul 0.5 lo) (PrimFloat.mul 0.5 hi))
      else Some lo
  end.

Definition mean (xs : list float) : float :=
  PrimFloat.div (fsum xs) (float_of_Z (Z.of_nat (List.length xs))).

(** The sample standard deviation. *)
Definition stddev (xs : list float) : float :=
  let m := mean xs in
  PrimFloat.sqrt
    (PrimFloat.div
       (fsum (map (fun x => PrimFloat.mul (PrimFloat.sub x m) (PrimFloat.sub x m)) xs))
       (float_of_Z (Z.of_nat (List.length xs) - 1))).

Definition ref_stddev (l : list cell) : option float :=
  match ref_doubles l with
  | [] => None
  | xs => Some (stddev xs)
  end.

(** Truncation toward zero, saturating at the bounds of a 32-bit [int];
    NaN gives 0. *)
Definition ref_cast_double_int (x : float) : Z :=
  if PrimFloat.is_nan x then 0
  else
    let '(m, e) := PrimFloat.frshiftexp (PrimFloat.abs x) in
    let mant := Uint63.to_Z (PrimFloat.normfr_mantissa m) in
    let ex := Uint63.to_Z e - 2101 - 53 in
    let mag :=
      if PrimFloat.is_infinity x then 2 ^ 31
      else if 0 <=? ex then mant * 2 ^ ex else mant / 2 ^ (- ex) in
    let v := if PrimFloat.ltb x 0 then - mag else mag in
    Z.max (- 2 ^ 31) (Z.min (2 ^ 31 - 1) v).

(** Round-half-even of the exact value of [|x| * 10^n], as [round] and
    [{x:.4f}] round. *)
Definition scaled_round (x : float) (n : Z) : Z :=
  if PrimFloat.is_nan x || PrimFloat.is_infinity x then 0
  else
    let '(m, e) := PrimFloat.frshiftexp (PrimFloat.abs x) in
    let mant := Uint63.to_Z (PrimFloat.normfr_mantissa m) * 10 ^ n in
    let ex := Uint63.to_Z e - 2101 - 53 in
    if 0 <=? ex then mant * 2 ^ ex
    else
      let q := mant / 2 ^ (- ex) in
      let r := 2 * (mant mod 2 ^ (- ex)) in
      if (2 ^ (- ex) <? r) || ((r =? 2 ^ (- ex)) && Z.odd q) then q + 1 else q.

(** [round(x, n)], for values whose magnitude times [10^n] stays below
    [2^63]. *)
Definition ref_round (x : float) (n : Z) : float :=
  if PrimFloat.is_nan x || PrimFloat.is_infinity x then x
  else
    let v := PrimFloat.div (float_of_Z (scaled_round x n)) (float_of_Z (10 ^ n)) in
    if PrimFloat.ltb x 0 then PrimFloat.opp v else v.

Definition pad4 (s : string) : string :=
  match String.length s with
  | 0%nat => "0000" +++ s
  | 1%nat => "000" +++ s
  | 2%nat => "00" +++ s
  | 3%nat => "0" +++ s
  | _ => s
  end.

Definition ref_format_4f (x : float) : string :=
  if PrimFloat.is_nan x then "nan"
  else if PrimFloat.is_infinity x then (if PrimFloat.ltb x 0 then "-inf" else "inf")
  else
    let t := scaled_round x 4 in
    (if PrimFloat.ltb x 0 then "-" else "") +++
    Py.str_int (t / 10000) +++ "." +++ pad4 (Py.str_int (t mod 10000)).

(** [VectorAssembler] with [handleInvalid='error']: doubles only, neither
    null nor NaN. *)
Fixpoint assemble_row (idxs : list nat) (r : list cell) : option (list float) :=
  match idxs with
  | [] => Some []
  | i :: rest =>
      match get i r, assemble_row rest r with
      | Num x, Some v => if PrimFloat.is_nan x then None else Some (x :: v)
      | _, _ => None
      end
  end.

Fixpoint assemble_rows (idxs : list nat) (rs : list (list cell))
  : option (list (list cell)) :=
  match rs with
  | [] => Some []
  | r :: rest =>
      match assemble_row idxs r, assemble_rows idxs rest with
      | Some v, Some out => Some ((r ++ [Vec v]) :: out)
      | _, _ => None
      end
  end.

Definition ref_assemble (inputCols : list string) (outputCol : string)
  (df : DataFrame) : outcome DataFrame :=
  idxs <-? resolve_all (columns df) inputCols ;;
  match assemble_rows idxs (rows df) with
  | Some rs => Ok (mkDataFrame (columns df ++ [outputCol]) rs)
  | None =>
      Raise (Exception "SparkException"
               "Encountered null while assembling a row with handleInvalid = 'error'")
  end.

Definition vec_of (c : cell) : list float :=
  match c with
  | Vec v => v
  | _ => []
  end.

(** [StandardScaler(withMean=True, withStd=True)]: a feature of zero
    deviation scales to 0. *)
Definition scale_value (column : list float) (x : float) : float :=
  let sd := if (List.length column <=? 1)%nat then 0%float else stddev column in
  if PrimFloat.eqb sd 0 then 0%float
  else PrimFloat.div (PrimFloat.sub x (mean column)) sd.

Definition ref_standard_scale (inputCol outputCol : string) (df : DataFrame)
  : outcome DataFrame :=
  i <-? resolve (columns df) inputCol ;;
  let vs := map (fun r => vec_of (get i r)) (rows df) in
  let dim := fun j => map (fun v => nth j v 0%float) vs in
  Ok (mkDataFrame (columns df ++ [outputCol])
        (map
           (fun r =>
              let v := vec_of (get i r) in
              r ++ [Vec (map (fun jx => scale_value (dim (fst jx)) (snd jx))
                           (combine (seq 0 (List.length v)) v))])
           (rows df))).

Fixpoint vec_eqb (a b : list float) : bool :=
  match a, b with
  | [], [] => true
  | x :: a', y :: b' => PrimFloat.eqb x y && vec_eqb a' b'
  | _, _ => false
  end.

Fixpoint distinct_vecs (seen : list (list float)) (l : list (list float))
  : list (list float) :=
  match l with
  | [] => []
  | v :: rest =>
      if existsb (vec_eqb v) seen then distinct_vecs seen rest
      else v :: distinct_vecs (v :: seen) rest
  end.

(** A stand-in for the estimator.  It rejects [k <= 1] as Spark's parameter
    check does, and it rejects a [k] above the number of distinct points,
    hence every [k] on an empty table, as the fit does; the class and the
    message of that second exception stand for those of the library, and no
    statement depends on them.  Otherwise it takes the first [k] distinct
    points as centres. *)
Definition ref_kmeans_fit (k : Z) (df : DataFrame) : outcome KMeansModel :=
  if k <=? 1 then
    Raise (Exception "IllegalArgumentException"
             ("KMeans parameter k given invalid value " +++ Py.str_int k +++ "."))
  else
    i <-? resolve (columns df) "scaled_features" ;;
    let points := distinct_vecs [] (map (fun r => vec_of (get i r)) (rows df)) in
    if Z.of_nat (List.length points) <? k then
      Raise (Exception "Py4JJavaError"
               ("An error occurred while calling fit: k=" +++ Py.str_int k +++
                " exceeds the number of distinct points"))
    else Ok (mkModel (firstn (Z.to_nat k) points)).

Definition sqdist (a b : list float) : float :=
  fsum (map (fun xy => PrimFloat.mul (PrimFloat.sub (fst xy) (snd xy))
                         (PrimFloat.sub (fst xy) (snd xy)))
          (combine a b)).

(** Index of the nearest centre, the first one among equals. *)
Fixpoint nearest (v : list float) (centres : list (list float)) (i : Z)
  (best : Z) (bestd : float) : Z :=
  match centres with
  | [] => best
  | c :: rest =>
      let d := sqdist v c in
      if PrimFloat.ltb d bestd then nearest v rest (i + 1) i d
      else nearest v rest (i + 1) best bestd
  end.

Definition ref_kmeans_transform (model : KMeansModel) (df : DataFrame)
  : outcome DataFrame :=
  i <-? resolve (columns df) "scaled_features" ;;
  Ok (mkDataFrame (columns df ++ ["cluster"])
        (map
           (fun r =>
              r ++ [Int (nearest (vec_of (get i r)) (clusterCenters model) 0 0
                           PrimFloat.infinity)])
           (rows df))).

(** The evaluator reads the [_jdf] attribute of the dataset it is given; a
    fitted model has none. *)
Definition evaluate_model (model : KMeansModel) : outcome float :=
  Raise (Exception "AttributeError" "'KMeansModel' object has no attribute '_jdf'").

(** The chart series are not computed by the stand-in. *)
Definition ref_chart_series (df : DataFrame) : outcome ChartData :=
  Ok (mkChartData [] [] [] []).

Definition ref_write_csv (dir name : string) (df : DataFrame) : option exn :=
  ref_open_w dir name.

(** The reference platform, for a given behaviour of the evaluator. *)
Definition with_evaluator (ev : KMeansModel -> outcome float) : Platform :=
  {| STATUS_DIR := "status";
     RESULTS_DIR := "results";
     open_w := ref_open_w;
     getOrCreate := Ok tt;
     spark_stop := Ok tt;
     read_csv := ref_read_csv;
     agg_median := ref_median;
     agg_stddev := ref_stddev;
     cast_text_double := ref_cast_text_double;
     cast_double_int := ref_cast_double_int;
     assemble := ref_assemble;
     standard_scale := ref_standard_scale;
     kmeans_fit := ref_kmeans_fit;
     kmeans_transform := ref_kmeans_transform;
     evaluate := ev;
     py_round := ref_round;
     format_4f := ref_format_4f;
     chart_series := ref_chart_series;
     write_csv := ref_write_csv |}.

(** PySpark as it is called by the source. *)
Definition pyspark : Platform := with_evaluator evaluate_model.

Definition empty_world : World := mkWorld [] [] [].

(** The two customers of the scenario after clustering with [k = 2], and
    the twins, which fall into one cluster. *)
Definition clustered_customers : DataFrame :=
  mkDataFrame ["age"; "spend"; "recency"; "frequency"; "cluster"]
    [ [Num 25; Num 500; Num 10; Num 5; Int 0];
      [Num 60; Num 2000; Num 2; Num 20; Int 1] ].

Definition clustered_twins : DataFrame :=
  mkDataFrame ["age"; "spend"; "recency"; "frequency"; "cluster"]
    [ [Num 40; Num 1000; Num 5; Num 10; Int 0];
      [Num 40; Num 1000; Num 5; Num 10; Int 0] ].



(** Two clustered customers, the second without an age. *)
Definition clustered_null_age : DataFrame :=
  mkDataFrame ["age"; "spend"; "recency"; "frequency"; "cluster"]
    [ [Num 25; Num 500; Num 10; Num 5; Int 0];
      [Null; Num 2000; Num 2; Num 20; Int 1] ].

(** A table with two columns whose names both normalise to [age]. *)
Definition two_ages : DataFrame :=
  mkDataFrame [" Age"; "age "; "spend"; "recency"; "frequency"]
    [ [Num 25; Num 26; Num 500; Num 10; Num 5] ].

(** The reference platform on a file system that refuses every write. *)
Definition read_only : Platform :=
  {| STATUS_DIR := "status";
     RESULTS_DIR := "results";
     open_w := fun dir name => Some (Exception "PermissionError"
                                       ("[Errno 13] Permission denied: '" +++ dir +++ "/" +++ name +++ "'"));
     getOrCreate := Ok tt;
     spark_stop := Ok tt;
     read_csv := ref_read_csv;
     agg_median := ref_median;
     agg_stddev := ref_stddev;
     cast_text_double := ref_cast_text_double;
     cast_double_int := ref_cast_double_int;
     assemble := ref_assemble;
     standard_scale := ref_standard_scale;
     kmeans_fit := ref_kmeans_fit;
     kmeans_transform := ref_kmeans_transform;
     evaluate := evaluate_model;
     py_round := ref_round;
     format_4f := ref_format_4f;
     chart_series := ref_chart_series;
     write_csv := fun dir name _ => Some (Exception "PermissionError"
                                            ("[Errno 13] Permission denied: '" +++ dir +++ "/" +++ name +++ "'")) |}.

End Reference.

(* ===================================================================== *)
(** ** More of [app.py]: uploads, the status and segment routes *)
(* ===================================================================== *)

(** [filename.rsplit('.', 1)]: the parts before and after the last dot, when
    there is a dot. *)
Fixpoint rsplit_dot (s : string) : option (string * string) :=
  match s with
  | EmptyString => None
  | String c s' =>
      match rsplit_dot s' with
      | Some (before, after) => Some (String c before, after)
      | None => if Ascii.eqb c "." then Some (EmptyString, s') else None
      end
  end.

(** ['.' in s] *)
Fixpoint has_dot (s : string) : bool :=
  match s with
  | EmptyString => false
  | String c s' => Ascii.eqb c "." || has_dot s'
  end.

Definition ALLOWED_EXTENSIONS : list string := ["csv"].

(** [allowed_file]: ['.' in filename and
    filename.rsplit('.', 1)[1].lower() in ALLOWED_EXTENSIONS] *)
Definition allowed_file (filename : string) : bool :=
  match rsplit_dot filename with
  | Some (_, extension) => Py.mem (Py.lower extension) ALLOWED_EXTENSIONS
  | None => false
  end.

(** [jobs.get(k)] *)
Fixpoint dict_get (k : string) (d : list (string * StatusRecord)) : option StatusRecord :=
  match d with
  | [] => None
  | (k', v) :: rest => if String.eqb k' k then Some v else dict_get k rest
  end.

(** The content of a status file: its latest write, if it was ever written
    (files are never removed here). *)
Definition read_status (dir name : string) (w : World) : option StatusRecord :=
  option_map snd
    (find (fun e => String.eqb (fst (fst e)) dir && String.eqb (snd (fst e)) name)
       (rev (status_files w))).

(** The content of a result file. *)
Definition read_artifact (dir name : string) (w : World) : option artifact :=
  option_map snd
    (find (fun e => String.eqb (fst (fst e)) dir && String.eqb (snd (fst e)) name)
       (rev (result_files w))).

(** A response of a route: the JSON body and the HTTP code. *)
Inductive response (A : Type) : Type :=
| Found (body : A)              (* 200 *)
| NotFound (error : string).    (* 404 *)
Arguments Found {A} body.
Arguments NotFound {A} error.

(** [job_status]: the route [GET /job-status/<job_id>].  A status file that
    exists is taken to be readable. *)
Definition job_status {platform : Platform} (job_id : string) (w : World)
  : response StatusRecord :=
  match read_status STATUS_DIR (job_id +++ ".json") w with
  | None => NotFound ("Job not found: " +++ job_id)
  | Some status_data => Found status_data
  end.

(** [get_segments]: the route [GET /segments], under the same assumption. *)
Definition get_segments {platform : Platform} (w : World) : response artifact :=
  match read_artifact RESULTS_DIR "segment_profiles.json" w with
  | None => NotFound "No segmentation results available"
  | Some segments_data => Found segments_data
  end.

(** [get_cluster_plot_data]: the route [GET /cluster-plot-data], under the
    same assumption. *)
Definition get_cluster_plot_data {platform : Platform} (w : World) : response artifact :=
  match read_artifact RESULTS_DIR "chart_data.json" w with
  | None => NotFound "No chart data available"
  | Some chart_data => Found chart_data
  end.

(* ===================================================================== *)
(** ** [frontend/serve.py]: the path a GET request is served from *)
(* ===================================================================== *)

(** [path.endswith('/')] *)
Fixpoint endswith_slash (path : string) : bool :=
  match path with
  | EmptyString => false
  | String c EmptyString => Ascii.eqb c "/"
  | String _ rest => endswith_slash rest
  end.

(** The rewriting of [self.path] in [MyHTTPRequestHandler.do_GET], before the
    request is handed to [SimpleHTTPRequestHandler]. *)
Definition do_GET_path (path : string) : string :=
  let path :=
    if String.eqb path "/" || String.eqb path "" then "/index.html" else path in
  if endswith_slash path then path +++ "index.html" else path.

(* ===================================================================== *)
(** ** The chart series of [generate_chart_data] *)
(* ===================================================================== *)

(** The computation for which [chart_series] of the platform stands.  The
    conversions of the values of a pandas row are left to pandas and
    Python: [float(row[c])] and [int(row[c])] on a row of the frame that
    [toPandas()] returns. *)
Class Pandas := {
  item_float : cell -> outcome float;
  item_int : cell -> outcome Z
}.

Definition KeyError (k : Z) : exn := Exception "KeyError" (Py.str_int k).

(** [d[k] = v] and [d[k]] on a dictionary with integer keys, kept in
    insertion order. *)
Fixpoint counts_set (k v : Z) (d : list (Z * Z)) : list (Z * Z) :=
  match d with
  | [] => [(k, v)]
  | (k', v') :: rest =>
      if k' =? k then (k, v) :: rest else (k', v') :: counts_set k v rest
  end.

Fixpoint counts_get (k : Z) (d : list (Z * Z)) : outcome Z :=
  match d with
  | [] => Raise (KeyError k)
  | (k', v) :: rest => if k' =? k then Ok v else counts_get k rest
  end.

(** [sorted] on a list of integers *)
Fixpoint insert_sorted (x : Z) (l : list Z) : list Z :=
  match l with
  | [] => [x]
  | y :: rest => if x <=? y then x :: l else y :: insert_sorted x rest
  end.

Definition sorted (l : list Z) : list Z := fold_right insert_sorted [] l.

Definition age_ranges : list (Z * Z) :=
  [(20, 30); (30, 40); (40, 50); (50, 60); (60, 70); (70, 80)].

(** One aggregate row of the radar chart: the key and the four means. *)
Record ProfileRow := mkProfileRow {
  p_cluster : cell;
  p_avg_age : option float;
  p_avg_spend : option float;
  p_avg_recency : option float;
  p_avg_frequency : option float
}.

Section Charts.

Context {platform : Platform} {pandas : Pandas}.

(** [spark_df.groupBy('cluster').count().collect()] *)
Definition cluster_counts_of (spark_df : DataFrame) : outcome (list (cell * Z)) :=
  ic <-? resolve (columns spark_df) "cluster" ;;
  Ok (map
        (fun key =>
           (key,
            Z.of_nat
              (List.length
                 (filter (fun r => cell_eqb (get ic r) key) (rows spark_df)))))
        (distinct_keys [] (column_values ic spark_df))).

(** [{int(row['cluster']): int(row['count']) for row in cluster_counts}],
    from the dictionary built so far. *)
Fixpoint counts_dict (cluster_counts : list (cell * Z)) (d : list (Z * Z))
  : outcome (list (Z * Z)) :=
  match cluster_counts with
  | [] => Ok d
  | (key, n) :: rest => k <-? py_int key ;; counts_dict rest (counts_set k n d)
  end.

(** [[cluster_counts_dict[i] for i in cluster_labels]] *)
Fixpoint counts_values (d : list (Z * Z)) (cluster_labels : list Z)
  : outcome (list Z) :=
  match cluster_labels with
  | [] => Ok []
  | i :: rest =>
      v <-? counts_get i d ;; vs <-? counts_values d rest ;; Ok (v :: vs)
  end.

(** The loop over [pd_df.iterrows()]; the columns of a row are [age],
    [spend] and [cluster], in this order. *)
Fixpoint scatter_points_of (pd_rows : list (list cell))
  : outcome (list (float * float * Z)) :=
  match pd_rows with
  | [] => Ok []
  | row :: rest =>
      x <-? item_float (get 0 row) ;;
      y <-? item_float (get 1 row) ;;
      segment <-? item_int (get 2 row) ;;
      scatter_points <-? scatter_points_of rest ;;
      Ok ((x, y, segment) :: scatter_points)
  end.

(** [(col('age') >= start) & (col('age') < end)] on a value of [age]: a
    comparison with null is null and filters the row out, Spark orders NaN
    above every number, and a value of another type is compared as the
    double it casts to. *)
Definition in_age_range (start stop : Z) (c : cell) : bool :=
  match as_double c with
  | Some x =>
      (PrimFloat.is_nan x || PrimFloat.leb (float_of_Z start) x) &&
      (negb (PrimFloat.is_nan x) && PrimFloat.ltb x (float_of_Z stop))
  | None => false
  end.

(** [spark_df.filter(...)] for one range *)
Definition filter_age (start stop : Z) (spark_df : DataFrame) : outcome DataFrame :=
  i <-? resolve (columns spark_df) "age" ;;
  Ok (mkDataFrame (columns spark_df)
        (filter (fun r => in_age_range start stop (get i r)) (rows spark_df))).

(** The loop over [age_ranges]. *)
Fixpoint line_data_of (ranges : list (Z * Z)) (spark_df : DataFrame)
  : outcome (list (string * float)) :=
  match ranges with
  | [] => Ok []
  | (start, stop) :: rest =>
      in_range <-? filter_age start stop spark_df ;;
      avg_spend <-? agg agg_avg "spend" in_range ;;
      line_data <-? line_data_of rest spark_df ;;
      Ok (match avg_spend with
          | Some y => (Py.str_int start +++ "-" +++ Py.str_int stop, y) :: line_data
          | None => line_data
          end)
  end.

(** [spark_df.groupBy('cluster').agg(avg('age'), avg('spend'),
    avg('recency'), avg('frequency')).collect()] *)
Definition cluster_profiles_of (spark_df : DataFrame) : outcome (list ProfileRow) :=
  let cols := columns spark_df in
  ic <-? resolve cols "cluster" ;;
  ia <-? resolve cols "age" ;;
  isp <-? resolve cols "spend" ;;
  ir <-? resolve cols "recency" ;;
  ifr <-? resolve cols "frequency" ;;
  Ok (map
        (fun key =>
           let group := filter (fun r => cell_eqb (get ic r) key) (rows spark_df) in
           mkProfileRow key
             (agg_avg (map (get ia) group))
             (agg_avg (map (get isp) group))
             (agg_avg (map (get ir) group))
             (agg_avg (map (get ifr) group)))
        (distinct_keys [] (column_values ic spark_df))).

(** The loop [for row in cluster_profiles]. *)
Fixpoint radar_data_of (cluster_profiles : list ProfileRow)
  : outcome (list (Z * float * float * float * float)) :=
  match cluster_profiles with
  | [] => Ok []
  | row :: rest =>
      cluster <-? py_int (p_cluster row) ;;
      age <-? py_float (p_avg_age row) ;;
      spend <-? py_float (p_avg_spend row) ;;
      recency <-? py_float (p_avg_recency row) ;;
      frequency <-? py_float (p_avg_frequency row) ;;
      radar_data <-? radar_data_of rest ;;
      Ok ((cluster, py_round age 1, py_round spend 1, py_round recency 1,
           py_round frequency 1) :: radar_data)
  end.

(** The body of [generate_chart_data] between its status write and the
    write of [chart_data.json]; [limit(1000)] takes the first rows. *)
Definition chart_series_of (spark_df : DataFrame) : outcome ChartData :=
  cluster_counts <-? cluster_counts_of spark_df ;;
  cluster_counts_dict <-? counts_dict cluster_counts [] ;;
  let cluster_labels := sorted (map fst cluster_counts_dict) in
  cluster_values <-? counts_values cluster_counts_dict cluster_labels ;;
  pd_df <-? select ["age"; "spend"; "cluster"] spark_df ;;
  scatter_points <-? scatter_points_of (firstn 1000 (rows pd_df)) ;;
  line_data <-? line_data_of age_ranges spark_df ;;
  cluster_profiles <-? cluster_profiles_of spark_df ;;
  radar_data <-? radar_data_of cluster_profiles ;;
  Ok (mkChartData
        (combine (map (fun i => "Cluster " +++ Py.str_int i) cluster_labels)
           cluster_values)
        scatter_points line_data radar_data).

End Charts.

(** A stand-in for the conversions, for a frame whose [age] and [spend] are
    doubles or integers and whose [cluster] is an integer column without
    nulls: a null of a double column reads as NaN; other values are not
    covered and raise. *)
Definition reference_pandas : Pandas :=
  {| item_float := fun c =>
       match c with
       | Num x => Ok x
       | Int z => Ok (float_of_Z z)
       | Null => Ok PrimFloat.nan
       | _ => Raise (ValueError "could not convert string to float")
       end;
     item_int := fun c =>
       match c with
       | Int z => Ok z
       | _ => Raise (ValueError "cannot convert float NaN to integer")
       end |}.

(** The reference platform with the chart series computed as above. *)
Definition charting : Platform :=
  {| STATUS_DIR := "status";
     RESULTS_DIR := "results";
     open_w := Reference.ref_open_w;
     getOrCreate := Ok tt;
     spark_stop := Ok tt;
     read_csv := Reference.ref_read_csv;
     agg_median := Reference.ref_median;
     agg_stddev := Reference.ref_stddev;
     cast_text_double := Reference.ref_cast_text_double;
     cast_double_int := Reference.ref_cast_double_int;
     assemble := Reference.ref_assemble;
     standard_scale := Reference.ref_standard_scale;
     kmeans_fit := Reference.ref_kmeans_fit;
     kmeans_transform := Reference.ref_kmeans_transform;
     evaluate := Reference.evaluate_model;
     py_round := Reference.ref_round;
     format_4f := Reference.ref_format_4f;
     chart_series :=
       chart_series_of (platform := Reference.pyspark) (pandas := reference_pandas);
     write_csv := Reference.ref_write_csv |}.

(** The label of a range on the line chart. *)
Definition range_label (range : Z * Z) : string :=
  Py.str_int (fst range) +++ "-" +++ Py.str_int (snd range).

(* ===================================================================== *)
(** ** Vocabulary of the statements *)
(* ===================================================================== *)

(** Stage and progress of a status write. *)
Definition tag (e : string * string * StatusRecord) : string * Z :=
  (stage (snd e), progress (snd e)).

(** A write to the status file of job [jid] in directory [dir], about that
    job. *)
Definition addressed (dir jid : string) (e : string * string * StatusRecord) : Prop :=
  fst (fst e) = dir /\ snd (fst e) = jid +++ ".json" /\ job_id (snd e) = jid.

(** [m] appends status writes of job [jid] only: all of [steps] when it
    returns, an initial part of [steps] when it raises. *)
Definition emits {A} (dir jid : string) (m : M A) (steps : list (string * Z)) : Prop :=
  forall w, exists l,
    status_files (snd (m w)) = status_files w ++ l /\
    Forall (addressed dir jid) l /\
    match fst (m w) with
    | Ok _ => map tag l = steps
    | Raise _ => exists n, (n <= List.length steps)%nat /\ map tag l = firstn n steps
    end.

(** The status writes of a pipeline run in which no stage fails. *)
Definition happy_path : list (string * Z) :=
  [ ("loading", 10); ("loading", 20);
    ("preprocessing", 25); ("preprocessing", 30);
    ("feature_engineering", 40); ("feature_engineering", 50);
    ("vectorization", 55); ("vectorization", 60);
    ("scaling", 65); ("scaling", 70);
    ("clustering", 75); ("clustering", 85);
    ("profiling", 90); ("visualization", 95); ("saving", 98);
    ("completed", 100) ].

(** Terminal records are those of stage [completed] or [error]. *)
Definition is_terminal (st : string) : bool :=
  String.eqb st "completed" || String.eqb st "error".

(** The tags written strictly before the first terminal one. *)
Fixpoint before_terminal (l : list (string * Z)) : list (string * Z) :=
  match l with
  | [] => []
  | t :: rest => if is_terminal (fst t) then [] else t :: before_terminal rest
  end.

(** The first terminal tag, if any. *)
Definition first_terminal (l : list (string * Z)) : option (string * Z) :=
  find (fun t => is_terminal (fst t)) l.

Fixpoint nondecreasing (l : list Z) : Prop :=
  match l with
  | a :: (b :: _) as rest => a <= b /\ nondecreasing rest
  | _ => True
  end.

(** The label rule in the words of the specification, in priority order. *)
Definition label_by_priority (spend_mean age_mean frequency_mean : float) : string :=
  if PrimFloat.ltb 1500 spend_mean && PrimFloat.ltb 55 age_mean then "Luxury Segment"
  else if PrimFloat.ltb 1500 spend_mean then "Premium Customers"
  else if PrimFloat.ltb 900 spend_mean then "Regular Shoppers"
  else if PrimFloat.ltb frequency_mean 3 then "Budget Conscious"
  else "Emerging Customers".

(** The world in which the pipeline of a job is entered: the driver has
    written the [queued] and the [initializing] record. *)
Definition started {platform : Platform} (jid : string) (w : World) : World :=
  snd ((update_job_status jid "queued" 0 "Job queued for processing" ;;
        update_job_status jid "initializing" 5 "Starting job...") w).

(** [info] is the profile entry computed from the aggregate row [row]. *)
Definition built_from {platform : Platform} (row : StatsRow) (info : ClusterInfo)
  : Prop :=
  cluster_info_of row = Ok info.

(** The two records the driver writes when the pipeline reports an error:
    none of its own, then [completed]. *)
Definition error_record (dir jid msg : string) : string * string * StatusRecord :=
  (dir, jid +++ ".json", mkStatus jid "error" 0 ("Error: " +++ msg)).

Definition driver_completed {platform : Platform} (jid : string)
  : string * string * StatusRecord :=
  (STATUS_DIR, jid +++ ".json",
   mkStatus jid "completed" 100 "Job completed successfully").

(** Progress does not decrease among the writes [tags] up to the first
    terminal one: the error record, whose progress is 0 by definition of the
    [error] state, ends the run of values; a [completed] record belongs to
    it. *)
Definition progress_monotone (tags : list (string * Z)) : Prop :=
  nondecreasing (map snd (before_terminal tags)) /\
  forall t, first_terminal tags = Some t -> fst t = "completed" ->
            nondecreasing (map snd (before_terminal tags ++ [t])).

(** The normal form of a column name. *)
Definition normalized (c : string) : string := Py.lower (Py.strip c).

(** A string that does not begin with white space. *)
Definition clean_start (s : string) : Prop :=
  match s with
  | EmptyString => True
  | String c _ => Py.isspace c = false
  end.

(** The name of a column once the names in [done] have been dealt with. *)
Definition renamed (done : list string) (c : string) : string :=
  if Py.mem c done then normalized c else c.

(** The exception of [validate_required_columns] on the table [df]. *)
Definition schema_error (df : DataFrame) : exn :=
  ValueError ("Missing required columns: " +++ Py.repr_list (missing_columns df)).

(** An outcome that, when it is an exception, is an analysis error. *)
Definition analysis_only {A} (o : outcome A) : Prop :=
  forall e, o = Raise e -> exn_class e = "AnalysisException".

(** The number of cells of [l] that fall into the group of key [k]. *)
Definition group_size (k : cell) (l : list cell) : nat :=
  List.length (filter (fun c => cell_eqb c k) l).

(** The missing names, given which of [age], [spend], [recency] and
    [frequency] are present. *)
Definition missing_of (a s r f : bool) : list string :=
  (if a then [] else ["age"]) ++ (if s then [] else ["spend"]) ++
  (if r then [] else ["recency"]) ++ (if f then [] else ["frequency"]).

(** The result files of a pipeline run, in the order they are written. *)
Definition outputs (rdir : string) : list (string * string) :=
  [ (rdir, "segment_profiles.json"); (rdir, "chart_data.json"); (rdir, "segments.csv") ].

(** [m] leaves [jobs] as it is and only appends result writes: one to each
    of [files], in order, when it returns, and to an initial part of them
    when it raises. *)
Definition produces {A} (m : M A) (files : list (string * string)) : Prop :=
  forall w,
    jobs (snd (m w)) = jobs w /\
    exists l,
      result_files (snd (m w)) = result_files w ++ l /\
      match fst (m w) with
      | Ok _ => map fst l = files
      | Raise _ => exists n, (n <= List.length files)%nat /\ map fst l = firstn n files
      end.

(** The columns [save_segmented_customers] asks for, given the columns of the
    table. *)
Definition wanted (cols : list string) (c : string) : Prop :=
  In c ["age"; "spend"; "recency"; "frequency"; "cluster"] \/
  c = "customerid" \/ (c = "id" /\ ~ In "customerid" cols).

(** A cell that holds a double or null. *)
Definition double_or_null (c : cell) : Prop :=
  match c with
  | Null | Num _ => True
  | _ => False
  end.

(** Every row of [df] holds a double or null at the positions [J]. *)
Definition doubles_at (J : nat -> Prop) (df : DataFrame) : Prop :=
  forall r, In r (rows df) -> forall j, J j -> double_or_null (get j r).

(** The cluster id of an entry of the radar chart. *)
Definition radar_cluster (p : Z * float * float * float * float) : Z :=
  fst (fst (fst (fst p))).

(** The mean spend of the rows whose age lies in [range]; [None] is null. *)
Definition bracket_mean {platform : Platform} (ia isp : nat) (df : DataFrame)
  (range : Z * Z) : option float :=
  agg_avg
    (map (get isp)
       (filter (fun r => in_age_range (fst range) (snd range) (get ia r)) (rows df))).







(** A table whose column names are in lower case.  On such a table a name
    in lower case matches a column exactly if and only if it matches it
    without regard to case, which is how Spark resolves names. *)
Definition lowercase_names (df : DataFrame) : Prop :=
  Forall (fun c => Py.lower c = c) (columns df).

(* ===================================================================== *)
(** ** Basic facts: membership, the monad *)
(* ===================================================================== *)

Lemma mem_In x xs : Py.mem x xs = true <-> In x xs.
Proof.
  unfold Py.mem. rewrite existsb_exists. split.
  - intros [y [Hy He]]. apply String.eqb_eq in He. now subst.
  - intros H. exists x. split; [assumption | apply String.eqb_refl].
Qed.

Lemma bind_Ok {A B} (m : M A) (f : A -> M B) w b w' :
  bind m f w = (Ok b, w') ->
  exists a w1, m w = (Ok a, w1) /\ f a w1 = (Ok b, w').
Proof.
  unfold bind. destruct (m w) as [[a | e] w1]; intros H.
  - now exists a, w1.
  - discriminate.
Qed.

Lemma bind_Raise {A B} (m : M A) (f : A -> M B) w e w' :
  bind m f w = (Raise e, w') ->
  m w = (Raise e, w') \/ exists a w1, m w = (Ok a, w1) /\ f a w1 = (Raise e, w').
Proof.
  unfold bind. destruct (m w) as [[a | e0] w1]; intros H.
  - right. now exists a, w1.
  - left. inversion H. reflexivity.
Qed.

(** Evaluates the left-hand side of an equation whose right-hand side is still
    to be determined. *)
Ltac evaluate_lhs :=
  match goal with
  | |- ?l = _ =>
      let v := eval vm_compute in l in
      transitivity v; [vm_compute; reflexivity | reflexivity]
  end.

Ltac bind_inv H :=
  apply bind_Ok in H; destruct H as (? & ? & _ & H); cbv beta zeta in H.

Lemma lift_Ok {A} (o : outcome A) w a w' :
  lift o w = (Ok a, w') -> o = Ok a /\ w' = w.
Proof. unfold lift. intros H. inversion H. now split. Qed.

Section Emission.

Context {platform : Platform}.
Variables dir jid : string.

Lemma emits_ret {A} (a : A) : emits dir jid (ret a) [].
Proof.
  intros w. exists []. simpl. rewrite app_nil_r. repeat split. constructor.
Qed.

Lemma emits_lift {A} (o : outcome A) : emits dir jid (lift o) [].
Proof.
  intros w. exists []. unfold lift. simpl. rewrite app_nil_r.
  repeat split; [constructor |].
  destruct o; [reflexivity | exists 0%nat; split; [lia | reflexivity]].
Qed.

Lemma emits_log st p msg :
  emits dir jid (log_progress jid dir st p msg) [(st, p)].
Proof.
  intros w. unfold log_progress.
  destruct (open_w dir (jid +++ ".json")) as [e |].
  - exists []. simpl. rewrite app_nil_r. repeat split; [constructor |].
    exists 0%nat. split; [lia | reflexivity].
  - exists [(dir, jid +++ ".json", mkStatus jid st p msg)]. simpl.
    repeat split. constructor; [| constructor]. now repeat split.
Qed.

Lemma emits_write_json rdir name a : emits dir jid (write_json rdir name a) [].
Proof.
  intros w. exists []. unfold write_json.
  destruct (open_w rdir name); simpl; rewrite app_nil_r;
    repeat split; try constructor.
  exists 0%nat. split; [lia | reflexivity].
Qed.

Lemma emits_bind {A B} (m : M A) (f : A -> M B) s1 s2 :
  emits dir jid m s1 ->
  (forall a, emits dir jid (f a) s2) ->
  emits dir jid (bind m f) (s1 ++ s2).
Proof.
  intros Hm Hf w. unfold bind.
  destruct (Hm w) as (l1 & E1 & F1 & T1).
  destruct (m w) as [[a | e] w1]; simpl in *.
  - destruct (Hf a w1) as (l2 & E2 & F2 & T2).
    exists (l1 ++ l2). split; [| split].
    + rewrite E2, E1. now rewrite app_assoc.
    + apply Forall_app. now split.
    + destruct (fst (f a w1)).
      * now rewrite map_app, T1, T2.
      * destruct T2 as (n & Hn & T2).
        exists (List.length s1 + n)%nat. split.
        -- rewrite length_app. lia.
        -- rewrite map_app, T1, T2. now rewrite firstn_app_2.
  - destruct T1 as (n & Hn & T1).
    exists l1. split; [assumption | split; [assumption |]].
    exists n. split.
    + rewrite length_app. lia.
    + rewrite T1, firstn_app.
      replace (n - List.length s1)%nat with 0%nat by lia.
      simpl. now rewrite app_nil_r.
Qed.

Lemma emits_log_then {B} st p msg (k : M B) steps :
  emits dir jid k steps ->
  emits dir jid (log_progress jid dir st p msg ;; k) ((st, p) :: steps).
Proof.
  intros Hk. apply (emits_bind _ _ [(st, p)] steps).
  - apply emits_log.
  - intros _. exact Hk.
Qed.

Lemma emits_silent_then {A B} (m : M A) (f : A -> M B) steps :
  emits dir jid m [] ->
  (forall a, emits dir jid (f a) steps) ->
  emits dir jid (bind m f) steps.
Proof. intros Hm Hf. exact (emits_bind m f [] steps Hm Hf). Qed.

Lemma emits_lift_then {A B} (o : outcome A) (f : A -> M B) steps :
  (forall a, emits dir jid (f a) steps) ->
  emits dir jid (x <- lift o ;; f x) steps.
Proof. intros Hf. apply emits_silent_then; [apply emits_lift | exact Hf]. Qed.

(** Each stage writes its own records, in order. *)

Lemma preprocess_data_emits df :
  emits dir jid (preprocess_data df jid dir)
    [("preprocessing", 25); ("preprocessing", 30)].
Proof.
  unfold preprocess_data.
  apply emits_log_then. apply emits_lift_then; intros df1.
  apply emits_lift_then; intros _.
  apply emits_log_then. apply emits_ret.
Qed.

Lemma feature_engineering_emits df :
  emits dir jid (feature_engineering df jid dir)
    [("feature_engineering", 40); ("feature_engineering", 50)].
Proof.
  unfold feature_engineering.
  apply emits_log_then. do 4 (apply emits_lift_then; intros ?).
  apply emits_log_then. apply emits_ret.
Qed.

Lemma create_feature_vector_emits df :
  emits dir jid (create_feature_vector df jid dir)
    [("vectorization", 55); ("vectorization", 60)].
Proof.
  unfold create_feature_vector.
  apply emits_log_then. apply emits_lift_then; intros ?.
  apply emits_log_then. apply emits_ret.
Qed.

Lemma scale_features_emits df :
  emits dir jid (scale_features df jid dir) [("scaling", 65); ("scaling", 70)].
Proof.
  unfold scale_features.
  apply emits_log_then. apply emits_lift_then; intros ?.
  apply emits_log_then. apply emits_ret.
Qed.

Lemma perform_clustering_emits df k :
  emits dir jid (perform_clustering df k jid dir)
    [("clustering", 75); ("clustering", 85)].
Proof.
  unfold perform_clustering.
  apply emits_log_then. do 3 (apply emits_lift_then; intros ?).
  apply emits_log_then. apply emits_ret.
Qed.

Lemma generate_segment_profiles_emits df rdir :
  emits dir jid (generate_segment_profiles df rdir jid dir) [("profiling", 90)].
Proof.
  unfold generate_segment_profiles.
  apply emits_log_then. do 2 (apply emits_lift_then; intros ?).
  apply emits_silent_then; [apply emits_write_json | intros _; apply emits_ret].
Qed.

Lemma generate_chart_data_emits df rdir :
  emits dir jid (generate_chart_data df rdir jid dir) [("visualization", 95)].
Proof.
  unfold generate_chart_data.
  apply emits_log_then. apply emits_lift_then; intros ?.
  apply emits_silent_then; [apply emits_write_json | intros _; apply emits_ret].
Qed.

Lemma save_segmented_customers_emits df rdir :
  emits dir jid (save_segmented_customers df rdir jid dir) [("saving", 98)].
Proof.
  unfold save_segmented_customers.
  apply emits_log_then. apply emits_lift_then; intros out.
  intros w. exists []. destruct (write_csv rdir "segments.csv" out); simpl;
    rewrite app_nil_r; repeat split; try constructor.
  exists 0%nat. split; [lia | reflexivity].
Qed.

(** The [try] block writes the records of [happy_path], or an initial part
    of them when a stage raises. *)
Lemma pipeline_body_emits path rdir k :
  emits dir jid (pipeline_body jid path rdir dir k) happy_path.
Proof.
  unfold pipeline_body, happy_path.
  apply emits_lift_then; intros _.
  apply emits_log_then. apply emits_lift_then; intros df0.
  apply emits_log_then.
  eapply (emits_bind _ _ [_; _]); [apply preprocess_data_emits | intros df1].
  eapply (emits_bind _ _ [_; _]); [apply feature_engineering_emits | intros df2].
  eapply (emits_bind _ _ [_; _]); [apply create_feature_vector_emits | intros df3].
  eapply (emits_bind _ _ [_; _]); [apply scale_features_emits | intros df4].
  eapply (emits_bind _ _ [_; _]); [apply perform_clustering_emits | intros cl].
  eapply (emits_bind _ _ [_]); [apply generate_segment_profiles_emits | intros ?].
  eapply (emits_bind _ _ [_]); [apply generate_chart_data_emits | intros ?].
  eapply (emits_bind _ _ [_]); [apply save_segmented_customers_emits | intros ?].
  apply emits_log_then. apply emits_lift_then; intros _. apply emits_ret.
Qed.

End Emission.

(* ===================================================================== *)
(** ** The orchestrator *)
(* ===================================================================== *)

Section Orchestrator.

Context {platform : Platform}.

(** A [try] block that returns, returns the [completed] dictionary. *)
Lemma pipeline_body_completed jid path rdir dir k w r w' :
  pipeline_body jid path rdir dir k w = (Ok r, w') ->
  exists n s, r = Completed jid n k s.
Proof.
  intros H. unfold pipeline_body in H.
  repeat bind_inv H.
  unfold ret in H. inversion H. eauto.
Qed.

(** The error handler, when the status file can be opened. *)
Lemma pipeline_handler jid path rdir dir k w :
  open_w dir (jid +++ ".json") = None ->
  run_segmentation_pipeline jid path rdir dir k w =
  match pipeline_body jid path rdir dir k w with
  | (Ok r, w1) => (Ok r, w1)
  | (Raise e, w1) =>
      (Ok (Failed jid (exn_msg e)),
       write_status dir (jid +++ ".json")
         (mkStatus jid "error" 0 ("Error: " +++ exn_msg e)) w1)
  end.
Proof.
  intros Hopen. unfold run_segmentation_pipeline, try_except.
  destruct (pipeline_body jid path rdir dir k w) as [[r | e] w1]; [reflexivity |].
  unfold bind, log_progress. rewrite Hopen. reflexivity.
Qed.

(** When the status file cannot be opened, the first status write raises and
    so does the one of the error handler: the exception escapes. *)
Lemma pipeline_escapes jid path rdir dir k w e :
  open_w dir (jid +++ ".json") = Some e ->
  run_segmentation_pipeline jid path rdir dir k w = (Raise e, w).
Proof.
  intros Hopen.
  unfold run_segmentation_pipeline, try_except, pipeline_body, bind, lift, log_progress.
  destruct getOrCreate; rewrite Hopen; reflexivity.
Qed.

(** The status writes of a pipeline run whose status file can be opened. *)
Lemma pipeline_trace jid path rdir dir k w :
  open_w dir (jid +++ ".json") = None ->
  exists r w' l,
    run_segmentation_pipeline jid path rdir dir k w = (Ok r, w') /\
    status_files w' = status_files w ++ l /\
    Forall (addressed dir jid) l /\
    ((status r = "completed" /\ map tag l = happy_path) \/
     (exists msg n l0,
        r = Failed jid msg /\ (n <= 16)%nat /\
        l = l0 ++ [error_record dir jid msg] /\
        map tag l0 = firstn n happy_path)).
Proof.
  intros Hopen. rewrite (pipeline_handler _ _ _ _ _ _ Hopen).
  destruct (pipeline_body_emits dir jid path rdir k w) as (l & E & F & T).
  destruct (pipeline_body jid path rdir dir k w) as [[r | e] w1] eqn:Hbody;
    simpl in E, T.
  - exists r, w1, l. repeat split; try assumption.
    left. destruct (pipeline_body_completed _ _ _ _ _ _ _ _ Hbody) as (n & s & ->).
    now split.
  - destruct T as (n & Hn & T).
    eexists _, _, (l ++ [_]). split; [reflexivity |]. split; [| split].
    + simpl. rewrite E. now rewrite app_assoc.
    + apply Forall_app. split; [assumption |].
      constructor; [| constructor]. now repeat split.
    + right. exists (exn_msg e), n, l. now repeat split.
Qed.

(** The driver, when the status file can be opened: it discards the
    dictionary the pipeline returns. *)
Lemma run_job_unfold jid path name w :
  open_w STATUS_DIR (jid +++ ".json") = None ->
  run_job jid path name w =
  match run_segmentation_pipeline jid path RESULTS_DIR STATUS_DIR 4 (started jid w) with
  | (Ok _, w1) =>
      update_job_status jid "completed" 100 "Job completed successfully" w1
  | (Raise e, w1) =>
      update_job_status jid "error" 0 ("Error: " +++ exn_msg e) w1
  end.
Proof.
  intros Hopen.
  unfold started, run_job, run_spark_job_async, try_except, bind, update_job_status.
  rewrite Hopen. cbv beta iota zeta delta [snd fst].
  match goal with
  | |- context [run_segmentation_pipeline _ _ _ _ _ ?w0] =>
      destruct (run_segmentation_pipeline jid path RESULTS_DIR STATUS_DIR 4 w0)
        as [[r | e] w1]
  end; reflexivity.
Qed.

(** The status writes of a whole job, from its submission on. *)
Lemma run_job_trace jid path name w :
  open_w STATUS_DIR (jid +++ ".json") = None ->
  exists l,
    status_files (snd (run_job jid path name w)) = status_files w ++ l /\
    Forall (addressed STATUS_DIR jid) l /\
    (map tag l = [("queued", 0); ("initializing", 5)] ++ happy_path ++ [("completed", 100)] \/
     exists msg n l0,
       (n <= 16)%nat /\
       map tag l0 = [("queued", 0); ("initializing", 5)] ++ firstn n happy_path /\
       l = l0 ++ [error_record STATUS_DIR jid msg; driver_completed jid]).
Proof.
  intros Hopen.
  unfold run_job, run_spark_job_async, try_except, bind, update_job_status.
  rewrite Hopen.
  match goal with
  | |- context [run_segmentation_pipeline _ _ _ _ _ ?w0] =>
      destruct (pipeline_trace jid path RESULTS_DIR STATUS_DIR 4 w0 Hopen)
        as (r & w' & l & Hrun & E & F & Hshape); rewrite Hrun
  end.
  simpl in *.
  set (q := (STATUS_DIR, jid +++ ".json",
             mkStatus jid "queued" 0 "Job queued for processing")) in *.
  set (i := (STATUS_DIR, jid +++ ".json",
             mkStatus jid "initializing" 5 "Starting job...")) in *.
  assert (Aq : addressed STATUS_DIR jid q) by now repeat split.
  assert (Ai : addressed STATUS_DIR jid i) by now repeat split.
  assert (Ac : addressed STATUS_DIR jid (driver_completed jid)) by now repeat split.
  exists ([q; i] ++ l ++ [driver_completed jid]). split; [| split].
  - rewrite E. rewrite <- !app_assoc. reflexivity.
  - repeat (apply Forall_app; split); auto.
  - destruct Hshape as [[_ T] | (msg & n & l0 & -> & Hn & -> & T)].
    + left. rewrite !map_app, T. reflexivity.
    + right. exists msg, n, ([q; i] ++ l0). split; [assumption | split].
      * rewrite map_app, T. reflexivity.
      * rewrite <- !app_assoc. reflexivity.
Qed.

(** A job whose status file cannot be opened writes no record at all. *)
Lemma run_job_unwritable jid path name w e :
  open_w STATUS_DIR (jid +++ ".json") = Some e ->
  status_files (snd (run_job jid path name w)) = status_files w.
Proof.
  intros Hopen. unfold run_job, bind, update_job_status. rewrite Hopen. reflexivity.
Qed.

End Orchestrator.

(* ===================================================================== *)
(** ** Claims on the orchestrator *)
(* ===================================================================== *)

Ltac solve_progress_monotone :=
  split;
  [ cbn; repeat split; lia
  | let t := fresh "t" in
    let Ht := fresh "Ht" in
    let Hc := fresh "Hc" in
    intros t Ht Hc; cbn in Ht; inversion Ht; subst t; cbn in Hc |- *;
    first [ discriminate Hc | repeat split; lia ] ].

Section OrchestratorClaims.

Context {platform : Platform}.


(** C1 (what the code does).  When the pipeline of a job reports an error -
    it has written the [error] record with the message and returned the
    [error] dictionary - the driver goes on and writes a [completed] record:
    the last two status writes of the job are [error], then [completed]. *)
Theorem completed_written_after_error jid path name w msg w1 :
  open_w STATUS_DIR (jid +++ ".json") = None ->
  run_segmentation_pipeline jid path RESULTS_DIR STATUS_DIR 4 (started jid w)
    = (Ok (Failed jid msg), w1) ->
  exists l,
    status_files (snd (run_job jid path name w)) =
    l ++ [error_record STATUS_DIR jid msg; driver_completed jid].
Proof.
  intros Hopen Hrun.
  rewrite (run_job_unfold _ _ _ _ Hopen), Hrun.
  unfold update_job_status. rewrite Hopen. cbn [snd write_status set_job status_files].
  destruct (pipeline_trace jid path RESULTS_DIR STATUS_DIR 4 (started jid w) Hopen)
    as (r & w' & l & Hrun' & E & _ & Hshape).
  rewrite Hrun in Hrun'. inversion Hrun'; subst r w'. clear Hrun'.
  destruct Hshape as [[Hs _] | (msg' & n & l0 & Hr & _ & -> & _)];
    [discriminate Hs |].
  inversion Hr; subst msg'. clear Hr.
  rewrite E. exists (status_files (started jid w) ++ l0).
  rewrite <- !app_assoc. reflexivity.
Qed.

(** C4.  In every job, from the [queued] record of its submission on, the
    progress values of the status writes do not decrease up to the first
    terminal record: they do not decrease among the records before it, nor
    up to and including it when it is [completed].  All these writes go to
    the status file of the job. *)
Theorem progress_nondecreasing_until_terminal jid path name w :
  exists l,
    status_files (snd (run_job jid path name w)) = status_files w ++ l /\
    Forall (addressed STATUS_DIR jid) l /\
    progress_monotone (map tag l).
Proof.
  destruct (open_w STATUS_DIR (jid +++ ".json")) as [e |] eqn:Hopen.
  - exists []. rewrite (run_job_unwritable _ _ _ _ _ Hopen), app_nil_r.
    split; [reflexivity | split; [constructor |]].
    split; [exact I | intros t Ht; discriminate Ht].
  - destruct (run_job_trace jid path name w Hopen) as (l & E & F & Hshape).
    exists l. split; [assumption | split; [assumption |]].
    destruct Hshape as [T | (msg & n & l0 & Hn & T & ->)].
    + rewrite T. solve_progress_monotone.
    + rewrite map_app, T. clear T E F.
      change (map tag [error_record STATUS_DIR jid msg; driver_completed jid])
        with [("error", 0); ("completed", 100)].
      do 17 (destruct n as [| n]; [solve_progress_monotone |]).
      lia.
Qed.

End OrchestratorClaims.

(* ===================================================================== *)
(** ** Segment profiles *)
(* ===================================================================== *)

Lemma describe_is_label_by_priority s a f :
  describe s a f = label_by_priority s a f.
Proof.
  unfold describe, label_by_priority.
  destruct (PrimFloat.ltb 1500 s), (PrimFloat.ltb 55 a); reflexivity.
Qed.

Lemma obind_Ok {A B} (o : outcome A) (f : A -> outcome B) b :
  obind o f = Ok b -> exists a, o = Ok a /\ f a = Ok b.
Proof. destruct o as [a | e]; simpl; intros H; [now exists a | discriminate]. Qed.

Ltac obind_inv H :=
  let E := fresh "E" in
  apply obind_Ok in H; destruct H as (? & E & H); cbv beta zeta in H.

Lemma py_float_Ok x v : py_float x = Ok v -> x = Some v.
Proof. destruct x; simpl; intros H; inversion H; reflexivity. Qed.

Lemma py_int_Ok c z : py_int c = Ok z -> c = Int z.
Proof. destruct c; simpl; intros H; inversion H; reflexivity. Qed.

Lemma insert_by_size_perm x l : Permutation (x :: l) (insert_by_size x l).
Proof.
  induction l as [| y l IH]; simpl; [reflexivity |].
  destruct (size x <? size y); [| reflexivity].
  rewrite perm_swap. now constructor.
Qed.

Lemma sort_by_size_perm l : Permutation l (sort_by_size l).
Proof.
  induction l as [| x l IH]; simpl; [constructor |].
  rewrite <- insert_by_size_perm. now constructor.
Qed.

(** Largest first. *)
Lemma insert_by_size_sorted x l :
  StronglySorted (fun a b => size b <= size a) l ->
  StronglySorted (fun a b => size b <= size a) (insert_by_size x l).
Proof.
  induction l as [| y l IH]; simpl; intros Hs.
  - repeat constructor.
  - inversion Hs as [| ? ? Hl Hy]; subst.
    destruct (size x <? size y) eqn:Hxy.
    + apply Z.ltb_lt in Hxy. constructor; [now apply IH |].
      apply (Permutation_Forall (insert_by_size_perm x l)).
      constructor; [lia | assumption].
    + apply Z.ltb_ge in Hxy. constructor; [assumption |].
      constructor; [assumption |].
      eapply Forall_impl; [| exact Hy]. simpl. intros; lia.
Qed.

Lemma sort_by_size_sorted l :
  StronglySorted (fun a b => size b <= size a) (sort_by_size l).
Proof.
  induction l as [| x l IH]; simpl; [constructor |].
  now apply insert_by_size_sorted.
Qed.

Section Profiles.

Context {platform : Platform}.

(** What one aggregate row contributes to the profile. *)
Lemma cluster_info_of_Ok row info :
  cluster_info_of row = Ok info ->
  r_cluster row = Int (id info) /\ size info = r_size row /\
  exists s a f,
    r_avg_spend row = Some s /\ r_avg_age row = Some a /\
    r_avg_frequency row = Some f /\
    description info = describe s a f.
Proof.
  intros H. unfold cluster_info_of in H.
  obind_inv H. apply py_int_Ok in E.
  do 6 obind_inv H.
  unfold get_cluster_description in H.
  obind_inv H. obind_inv E6. obind_inv E6. obind_inv E6.
  inversion E6; subst. inversion H; subst. simpl.
  repeat match goal with
         | Hf : py_float _ = Ok _ |- _ => apply py_float_Ok in Hf
         end.
  split; [assumption | split; [reflexivity |]].
  eauto 10.
Qed.

Lemma collect_clusters_Ok stats : forall acc total cl total',
  collect_clusters stats acc total = Ok (cl, total') ->
  exists infos,
    cl = acc ++ infos /\ Forall2 built_from stats infos /\
    total' = total + fold_right Z.add 0 (map r_size stats).
Proof.
  induction stats as [| row stats IH]; simpl; intros acc total cl total' H.
  - inversion H; subst. exists []. rewrite app_nil_r.
    repeat split; [constructor | lia].
  - obind_inv H. apply IH in H. destruct H as (infos & -> & F & ->).
    exists (x :: infos). rewrite <- app_assoc. repeat split.
    + now constructor.
    + lia.
Qed.

(** The profile [generate_segment_profiles] returns and writes. *)
Lemma generate_segment_profiles_Ok df rdir jid dir w p w' :
  generate_segment_profiles df rdir jid dir w = (Ok p, w') ->
  exists stats infos,
    cluster_stats_of df = Ok stats /\
    Forall2 built_from stats infos /\
    clusters p = sort_by_size infos /\
    totalCustomers p = fold_right Z.add 0 (map r_size stats) /\
    numClusters p = Z.of_nat (List.length (clusters p)) /\
    silhouetteScore p = placeholder_score /\
    exists others, result_files w' =
                   others ++ [(rdir, "segment_profiles.json", ProfilesJson p)].
Proof.
  intros H. unfold generate_segment_profiles in H.
  apply bind_Ok in H. destruct H as (? & w1 & Hlog & H).
  apply bind_Ok in H. destruct H as (stats & w2 & Hstats & H).
  apply lift_Ok in Hstats. destruct Hstats as [Hstats ->].
  apply bind_Ok in H. destruct H as ([cl total] & w3 & Hacc & H).
  apply lift_Ok in Hacc. destruct Hacc as [Hacc ->].
  apply collect_clusters_Ok in Hacc. destruct Hacc as (infos & -> & F & ->).
  apply bind_Ok in H. destruct H as (? & w4 & Hwrite & H).
  unfold ret in H. inversion H; subst p w'. clear H. simpl.
  exists stats, infos. repeat split; try assumption.
  unfold write_json in Hwrite.
  destruct (open_w rdir "segment_profiles.json"); inversion Hwrite; subst.
  simpl. eexists. reflexivity.
Qed.

End Profiles.

Section ProfileClaims.

Context {platform : Platform}.

(** C8.  The label of every cluster of a profile follows from the means of
    that cluster by the priority rule: "Luxury Segment" when the spend mean
    exceeds 1500 and the age mean exceeds 55, otherwise "Premium Customers"
    when the spend mean exceeds 1500, otherwise "Regular Shoppers" when it
    exceeds 900, otherwise "Budget Conscious" when the frequency mean is
    below 3, otherwise "Emerging Customers".  This is what
    [get_cluster_description] computes on every aggregate row. *)
Theorem cluster_label_follows_priority_rule df rdir jid dir w p w'
  (Hrun : generate_segment_profiles df rdir jid dir w = (Ok p, w')) :
  (forall row s a f,
      r_avg_spend row = Some s -> r_avg_age row = Some a ->
      r_avg_frequency row = Some f ->
      get_cluster_description row = Ok (label_by_priority s a f)) /\
  exists stats,
    cluster_stats_of df = Ok stats /\
    forall info, In info (clusters p) ->
      exists row s a f,
        In row stats /\ r_cluster row = Int (id info) /\
        r_avg_spend row = Some s /\ r_avg_age row = Some a /\
        r_avg_frequency row = Some f /\
        description info = label_by_priority s a f.
Proof.
  split.
  - intros row s a f Hs Ha Hf. unfold get_cluster_description.
    rewrite Hs, Ha, Hf. simpl. now rewrite describe_is_label_by_priority.
  - apply generate_segment_profiles_Ok in Hrun.
    destruct Hrun as (stats & infos & Hstats & F & Hcl & _).
    exists stats. split; [assumption |]. intros info Hin.
    rewrite Hcl in Hin.
    apply (Permutation_in _ (Permutation_sym (sort_by_size_perm infos))) in Hin.
    clear Hcl Hstats. induction F as [| row i stats infos Hb F IH].
    + destruct Hin.
    + destruct Hin as [-> | Hin].
      * apply cluster_info_of_Ok in Hb.
        destruct Hb as (Hc & _ & s & a & f & Hs & Ha & Hf & Hd).
        exists row, s, a, f. rewrite <- describe_is_label_by_priority.
        repeat split; try assumption. now left.
      * destruct (IH Hin) as (row' & s & a & f & Hr & Hrest).
        exists row', s, a, f. split; [now right | assumption].
Qed.

(** The score written to the profile is the constant of the source, whatever
    table is profiled. *)
Lemma profile_score_is_placeholder df rdir jid dir w p w' :
  generate_segment_profiles df rdir jid dir w = (Ok p, w') ->
  silhouetteScore p = placeholder_score.
Proof.
  intros H. apply generate_segment_profiles_Ok in H.
  now destruct H as (? & ? & _ & _ & _ & _ & _ & Hs & _).
Qed.

End ProfileClaims.

(** C8, on the two customers of the scenario. *)
Lemma cluster_label_follows_priority_rule_witness :
  exists p w',
    generate_segment_profiles (platform := Reference.pyspark)
      Reference.clustered_customers "results" "job_1" "status"
      Reference.empty_world = (Ok p, w') /\
    map description (clusters p) = ["Emerging Customers"; "Luxury Segment"] /\
    exists stats,
      cluster_stats_of (platform := Reference.pyspark)
        Reference.clustered_customers = Ok stats /\
      forall info, In info (clusters p) ->
        exists row s a f,
          In row stats /\ r_cluster row = Int (id info) /\
          r_avg_spend row = Some s /\ r_avg_age row = Some a /\
          r_avg_frequency row = Some f /\
          description info = label_by_priority s a f.
Proof.
  eexists _, _. split; [evaluate_lhs |].
  split; [reflexivity |].
  refine (proj2 (cluster_label_follows_priority_rule
                   (platform := Reference.pyspark) Reference.clustered_customers
                   "results" "job_1" "status" Reference.empty_world _ _ _)).
  evaluate_lhs.
Defined.



(** C1, on a job whose file lacks the [recency] column. *)
Lemma completed_written_after_error_witness :
  exists l,
    status_files
      (snd (run_job (platform := Reference.pyspark)
              "job_1" "uploads/no_recency.csv" "no_recency.csv"
              Reference.empty_world))
    = l ++ [ error_record "status" "job_1" "Missing required columns: ['recency']";
             driver_completed (platform := Reference.pyspark) "job_1" ].
Proof.
  refine (completed_written_after_error (platform := Reference.pyspark)
            "job_1" "uploads/no_recency.csv" "no_recency.csv" Reference.empty_world
            "Missing required columns: ['recency']" _ _ _).
  - reflexivity.
  - evaluate_lhs.
Defined.

(* ===================================================================== *)
(** ** Small runs *)
(* ===================================================================== *)

Example normalize_name : Py.lower (Py.strip "  Spend ") = "spend".
Proof. reflexivity. Qed.

Example names_of_customers :
  get_column_names Reference.customers = ["age"; "spend"; "recency"; "frequency"].
Proof. reflexivity. Qed.

Example validate_customers : validate_required_columns Reference.customers = Ok true.
Proof. reflexivity. Qed.

Example validate_no_recency :
  validate_required_columns Reference.no_recency
  = Raise (ValueError "Missing required columns: ['recency']").
Proof. reflexivity. Qed.

(** The thresholds are strict, and a NaN mean fails every comparison. *)
Example label_at_threshold : describe 1500 60 2 = "Regular Shoppers".
Proof. vm_compute. reflexivity. Qed.

Example label_luxury : describe 2000 60 20 = "Luxury Segment".
Proof. vm_compute. reflexivity. Qed.

Example label_budget : describe 500 25 2 = "Budget Conscious".
Proof. vm_compute. reflexivity. Qed.

Example label_of_nan : describe PrimFloat.nan PrimFloat.nan PrimFloat.nan = "Emerging Customers".
Proof. vm_compute. reflexivity. Qed.

(** On PySpark the evaluator is handed the model and the job stops at the
    clustering stage; the driver reports it as completed all the same. *)
Example tags_of_pyspark_job :
  map tag
    (status_files
       (snd (run_job (platform := Reference.pyspark)
               "job_1" "uploads/customers.csv" "customers.csv" Reference.empty_world)))
  = [("queued", 0); ("initializing", 5)] ++ firstn 11 happy_path ++
    [("error", 0); ("completed", 100)].
Proof. vm_compute. reflexivity. Qed.

(* ===================================================================== *)
(** ** Column names *)
(* ===================================================================== *)

Lemma isspace_lower_ascii c : Py.isspace (Py.lower_ascii c) = Py.isspace c.
Proof. destruct c as [[] [] [] [] [] [] [] []]; reflexivity. Qed.

Lemma lower_ascii_idem c : Py.lower_ascii (Py.lower_ascii c) = Py.lower_ascii c.
Proof. destruct c as [[] [] [] [] [] [] [] []]; reflexivity. Qed.

Lemma lower_idem s : Py.lower (Py.lower s) = Py.lower s.
Proof.
  induction s as [| c s IH]; simpl; [reflexivity |].
  now rewrite lower_ascii_idem, IH.
Qed.

Lemma lstrip_lower s : Py.lstrip (Py.lower s) = Py.lower (Py.lstrip s).
Proof.
  induction s as [| c s IH]; simpl; [reflexivity |].
  rewrite isspace_lower_ascii. destruct (Py.isspace c); [exact IH | reflexivity].
Qed.

Lemma rstrip_lower s : Py.rstrip (Py.lower s) = Py.lower (Py.rstrip s).
Proof.
  induction s as [| c s IH]; simpl; [reflexivity |].
  rewrite IH, isspace_lower_ascii.
  destruct (Py.rstrip s) as [| d r]; simpl; [| reflexivity].
  destruct (Py.isspace c); reflexivity.
Qed.

Lemma strip_lower s : Py.strip (Py.lower s) = Py.lower (Py.strip s).
Proof. unfold Py.strip. now rewrite lstrip_lower, rstrip_lower. Qed.

Lemma lstrip_clean_start s : clean_start (Py.lstrip s).
Proof.
  induction s as [| c s IH]; simpl; [exact I |].
  destruct (Py.isspace c) eqn:Hc; [exact IH | exact Hc].
Qed.

Lemma lstrip_of_clean s : clean_start s -> Py.lstrip s = s.
Proof. destruct s as [| c s]; simpl; [reflexivity | now intros ->]. Qed.

Lemma rstrip_clean_start s : clean_start s -> clean_start (Py.rstrip s).
Proof.
  destruct s as [| c s]; simpl; [trivial |]. intros Hc.
  destruct (Py.rstrip s); [rewrite Hc |]; exact Hc.
Qed.

Lemma rstrip_idem s : Py.rstrip (Py.rstrip s) = Py.rstrip s.
Proof.
  induction s as [| c s IH]; simpl; [reflexivity |].
  destruct (Py.rstrip s) as [| d r] eqn:Hr.
  - destruct (Py.isspace c) eqn:Hc; simpl; [reflexivity | now rewrite Hc].
  - change (Py.rstrip (String c (String d r))) with
      (match Py.rstrip (String d r) with
       | EmptyString => if Py.isspace c then EmptyString else String c EmptyString
       | String a b => String c (String a b)
       end).
    now rewrite IH.
Qed.

Lemma strip_idem s : Py.strip (Py.strip s) = Py.strip s.
Proof.
  unfold Py.strip.
  rewrite (lstrip_of_clean (Py.rstrip (Py.lstrip s))).
  - apply rstrip_idem.
  - apply rstrip_clean_start, lstrip_clean_start.
Qed.

Lemma normalized_idem c : normalized (normalized c) = normalized c.
Proof.
  unfold normalized. now rewrite strip_lower, lower_idem, strip_idem.
Qed.

Lemma mem_cons x y l : Py.mem x (y :: l) = String.eqb x y || Py.mem x l.
Proof. reflexivity. Qed.

Lemma mem_app x l1 l2 : Py.mem x (l1 ++ l2) = Py.mem x l1 || Py.mem x l2.
Proof. unfold Py.mem. apply existsb_app. Qed.

Lemma normalize_step orig x done (st : DataFrame) :
  columns st = map (renamed done) orig ->
  columns
    (if negb (String.eqb x (normalized x))
     then withColumnRenamed x (normalized x) st else st)
  = map (renamed (x :: done)) orig.
Proof.
  intros Hst. destruct (String.eqb x (normalized x)) eqn:Hx; simpl.
  - apply String.eqb_eq in Hx. rewrite Hst. apply map_ext. intros c.
    unfold renamed. rewrite mem_cons.
    destruct (String.eqb c x) eqn:Hcx; [| reflexivity].
    apply String.eqb_eq in Hcx. subst c. simpl.
    destruct (Py.mem x done); congruence.
  - rewrite Hst, map_map. apply map_ext. intros c.
    unfold renamed. rewrite mem_cons.
    destruct (Py.mem c done) eqn:Hc.
    + rewrite orb_true_r.
      destruct (String.eqb (normalized c) x) eqn:Hn; [| reflexivity].
      apply String.eqb_eq in Hn. subst x.
      rewrite normalized_idem, String.eqb_refl in Hx. discriminate.
    + rewrite orb_false_r.
      destruct (String.eqb c x) eqn:Hcx; [| reflexivity].
      apply String.eqb_eq in Hcx. now subst.
Qed.

Lemma normalize_fold orig todo : forall done (st : DataFrame),
  columns st = map (renamed done) orig ->
  columns
    (fold_left
       (fun df_normalized col_name =>
          let normalized_name := Py.lower (Py.strip col_name) in
          if negb (String.eqb col_name normalized_name)
          then withColumnRenamed col_name normalized_name df_normalized
          else df_normalized)
       todo st)
  = map (renamed (rev todo ++ done)) orig.
Proof.
  induction todo as [| x todo IH]; intros done st Hst; simpl; [assumption |].
  rewrite <- app_assoc. simpl. apply IH.
  exact (normalize_step orig x done st Hst).
Qed.

(** [normalize_dataframe] gives every column its normal form. *)
Lemma normalize_dataframe_columns df :
  columns (normalize_dataframe df) = map normalized (columns df).
Proof.
  unfold normalize_dataframe.
  transitivity (map (renamed (rev (columns df) ++ [])) (columns df)).
  - apply normalize_fold. unfold renamed. simpl. now rewrite map_id.
  - apply map_ext_in. intros c Hc. unfold renamed.
    rewrite app_nil_r.
    assert (Hm : Py.mem c (rev (columns df)) = true)
      by (apply mem_In; now apply in_rev in Hc).
    now rewrite Hm.
Qed.

Lemma get_column_names_normalize df :
  get_column_names (normalize_dataframe df) = get_column_names df.
Proof.
  unfold get_column_names. rewrite normalize_dataframe_columns, map_map.
  apply map_ext. intros c. apply normalized_idem.
Qed.

Lemma missing_columns_normalize df :
  missing_columns (normalize_dataframe df) = missing_columns df.
Proof. unfold missing_columns. now rewrite get_column_names_normalize. Qed.

(** The missing names are the required names that occur nowhere among the
    normalised column names. *)
Lemma missing_columns_spec df c :
  In c (missing_columns df) <-> In c required /\ ~ In c (get_column_names df).
Proof.
  unfold missing_columns. rewrite filter_In. split.
  - intros [Hr Hn]. split; [assumption |].
    intros Hin. apply mem_In in Hin. rewrite Hin in Hn. discriminate.
  - intros [Hr Hn]. split; [assumption |].
    destruct (Py.mem c (get_column_names df)) eqn:Hm; [| reflexivity].
    apply mem_In in Hm. contradiction.
Qed.

(* ===================================================================== *)
(** ** Preprocessing *)
(* ===================================================================== *)

Lemma positions_from_In k name cols :
  In name cols -> positions_from k name cols <> [].
Proof.
  revert k. induction cols as [| c cols IH]; intros k Hin; [destruct Hin |].
  simpl. destruct (String.eqb c name) eqn:Hc; [discriminate |].
  destruct Hin as [-> | Hin]; [now rewrite String.eqb_refl in Hc | now apply IH].
Qed.

Lemma positions_from_not_In k name cols :
  ~ In name cols -> positions_from k name cols = [].
Proof.
  revert k. induction cols as [| c cols IH]; intros k Hn; [reflexivity |].
  simpl. destruct (String.eqb c name) eqn:Hc.
  - apply String.eqb_eq in Hc. subst. exfalso. apply Hn. now left.
  - apply IH. intros Hin. apply Hn. now right.
Qed.

Lemma resolve_Ok_In cols name i : resolve cols name = Ok i -> In name cols.
Proof.
  unfold resolve. intros H.
  destruct (in_dec string_dec name cols) as [Hin | Hn]; [assumption |].
  rewrite (positions_from_not_In 0 name cols Hn) in H. discriminate.
Qed.

Lemma resolve_analysis_only cols name : analysis_only (resolve cols name).
Proof.
  unfold resolve. intros e H.
  destruct (positions_from 0 name cols) as [| i [| j l]];
    inversion H; reflexivity.
Qed.

Lemma obind_analysis_only {A B} (o : outcome A) (f : A -> outcome B) :
  analysis_only o -> (forall a, analysis_only (f a)) -> analysis_only (obind o f).
Proof.
  intros Ho Hf e H. destruct o as [a | e0]; simpl in H.
  - now apply (Hf a).
  - inversion H; subst. now apply Ho.
Qed.

Lemma Ok_analysis_only {A} (a : A) : analysis_only (Ok a).
Proof. intros e H. discriminate. Qed.

Section Preprocessing.

Context {platform : Platform}.

Lemma resolve_all_analysis_only cols names : analysis_only (resolve_all cols names).
Proof.
  induction names as [| n names IH]; simpl; [apply Ok_analysis_only |].
  apply obind_analysis_only; [apply resolve_analysis_only | intros i].
  apply obind_analysis_only; [exact IH | intros; apply Ok_analysis_only].
Qed.

Lemma withColumn_cast_analysis_only c df :
  analysis_only (withColumn c (cast (col c) DoubleType) df).
Proof.
  unfold withColumn. apply obind_analysis_only.
  - simpl. repeat (apply obind_analysis_only; [| intros; apply Ok_analysis_only]).
    apply resolve_analysis_only.
  - intros f. destruct (Py.mem c (columns df)); apply Ok_analysis_only.
Qed.

Lemma cast_to_double_analysis_only names : forall df,
  analysis_only (cast_to_double names df).
Proof.
  induction names as [| n names IH]; intros df; simpl; [apply Ok_analysis_only |].
  apply obind_analysis_only; [apply withColumn_cast_analysis_only | exact IH].
Qed.

Lemma fill_with_median_analysis_only names : forall df,
  analysis_only (fill_with_median names df).
Proof.
  induction names as [| n names IH]; intros df; simpl; [apply Ok_analysis_only |].
  destruct (Py.mem n (columns df)); [| apply IH].
  apply obind_analysis_only.
  - unfold agg. apply obind_analysis_only;
      [apply resolve_analysis_only | intros; apply Ok_analysis_only].
  - intros m. apply obind_analysis_only; [| exact IH].
    unfold fillna. apply obind_analysis_only;
      [apply resolve_analysis_only | intros; apply Ok_analysis_only].
Qed.

Lemma dropna_analysis_only names df : analysis_only (dropna names df).
Proof.
  unfold dropna. apply obind_analysis_only;
    [apply resolve_all_analysis_only | intros; apply Ok_analysis_only].
Qed.

Lemma spend_stats_analysis_only df : analysis_only (spend_stats df).
Proof.
  unfold spend_stats, agg. apply obind_analysis_only;
    [apply resolve_analysis_only | intros; apply Ok_analysis_only].
Qed.

(** A cast in place keeps the schema and the number of rows. *)
Lemma withColumn_cast_Ok c df df' :
  withColumn c (cast (col c) DoubleType) df = Ok df' ->
  columns df' = columns df /\
  (exists i, resolve (columns df) c = Ok i) /\
  List.length (rows df') = List.length (rows df).
Proof.
  unfold withColumn. simpl. intros H.
  destruct (resolve (columns df) c) as [i | e] eqn:Hr; simpl in H; [| discriminate].
  assert (Hm : Py.mem c (columns df) = true)
    by (apply mem_In; exact (resolve_Ok_In _ _ _ Hr)).
  rewrite Hm in H. inversion H; subst. simpl.
  split; [reflexivity | split; [now exists i | apply length_map]].
Qed.

Lemma cast_to_double_Ok names : forall df df',
  cast_to_double names df = Ok df' ->
  columns df' = columns df /\
  (forall n, In n names -> exists i, resolve (columns df) n = Ok i) /\
  List.length (rows df') = List.length (rows df).
Proof.
  induction names as [| n names IH]; intros df df' H; simpl in H.
  - inversion H; subst. repeat split. intros n [].
  - obind_inv H. apply withColumn_cast_Ok in E. destruct E as (Hc & Hr & Hl).
    apply IH in H. destruct H as (Hc' & Hr' & Hl').
    split; [congruence | split; [| congruence]].
    intros m [<- | Hm]; [exact Hr |].
    rewrite <- Hc. now apply Hr'.
Qed.

(** The statistics of the outlier step can be computed on every table the
    cast loop returns, and they are computed on nothing else. *)
Lemma spend_stats_after_clean df df0 :
  clean_table df = Ok df0 -> exists s, spend_stats df0 = Ok s.
Proof.
  unfold clean_table. intros H. do 3 obind_inv H.
  apply cast_to_double_Ok in H. destruct H as (Hc & Hr & _).
  destruct (Hr "spend") as (i & Hi); [simpl; tauto |].
  unfold spend_stats, agg. rewrite Hc, Hi. simpl. eauto.
Qed.

Lemma preprocess_data_Ok df jid dir w df' w' :
  preprocess_data df jid dir w = (Ok df', w') -> clean_table df = Ok df'.
Proof.
  unfold preprocess_data. intros H.
  apply bind_Ok in H. destruct H as (? & w1 & _ & H).
  apply bind_Ok in H. destruct H as (df1 & w2 & Hc & H).
  apply lift_Ok in Hc. destruct Hc as [Hc _].
  do 2 bind_inv H. unfold ret in H. inversion H; subst. exact Hc.
Qed.

Lemma preprocess_data_of_clean df jid dir w df0 :
  open_w dir (jid +++ ".json") = None ->
  clean_table df = Ok df0 ->
  preprocess_data df jid dir w =
  (Ok df0,
   write_status dir (jid +++ ".json")
     (mkStatus jid "preprocessing" 30 "Removing outliers")
     (write_status dir (jid +++ ".json")
        (mkStatus jid "preprocessing" 25 "Handling missing values and outliers") w)).
Proof.
  intros Hopen Hclean.
  destruct (spend_stats_after_clean df df0 Hclean) as (s & Hs).
  unfold preprocess_data, bind, lift, log_progress, ret.
  rewrite Hopen, Hclean, Hs. reflexivity.
Qed.

(** C9.  Preprocessing removes no row on account of the spend statistics:
    the table it returns is the table the statistics were computed on, the
    one left by the cast loop, with the same rows in the same order; and it
    returns that table whatever the statistics are. *)
Theorem outlier_step_passes_table_through df jid dir w df0
  (Hopen : open_w dir (jid +++ ".json") = None)
  (Hclean : clean_table df = Ok df0) :
  (exists w', preprocess_data df jid dir w = (Ok df0, w')) /\
  (forall df' w',
      preprocess_data df jid dir w = (Ok df', w') ->
      rows df' = rows df0 /\ columns df' = columns df0).
Proof.
  split.
  - eexists. exact (preprocess_data_of_clean df jid dir w df0 Hopen Hclean).
  - intros df' w' H. apply preprocess_data_Ok in H.
    rewrite Hclean in H. inversion H. now split.
Qed.

End Preprocessing.

Lemma missing_columns_by_presence df :
  missing_columns df =
  missing_of (Py.mem "age" (get_column_names df))
             (Py.mem "spend" (get_column_names df))
             (Py.mem "recency" (get_column_names df))
             (Py.mem "frequency" (get_column_names df)).
Proof.
  unfold missing_columns, missing_of, required. simpl.
  destruct (Py.mem "age" (get_column_names df)),
           (Py.mem "spend" (get_column_names df)),
           (Py.mem "recency" (get_column_names df)),
           (Py.mem "frequency" (get_column_names df)); reflexivity.
Qed.

Lemma message_cites_missing a s r f :
  let msg := "Missing required columns: " +++ Py.repr_list (missing_of a s r f) in
  Py.contains "age" msg = negb a /\ Py.contains "spend" msg = negb s /\
  Py.contains "recency" msg = negb r /\ Py.contains "frequency" msg = negb f.
Proof. destruct a, s, r, f; vm_compute; repeat split. Qed.

Section SchemaClaims.

Context {platform : Platform}.

Lemma validate_Ok_of_none_missing df :
  missing_columns df = [] -> validate_required_columns df = Ok true.
Proof. unfold validate_required_columns. now intros ->. Qed.

Lemma validate_Raise_of_missing df :
  missing_columns df <> [] -> validate_required_columns df = Raise (schema_error df).
Proof.
  unfold validate_required_columns, schema_error.
  destruct (missing_columns df); [congruence | reflexivity].
Qed.

Lemma clean_table_schema_error df :
  missing_columns df <> [] -> clean_table df = Raise (schema_error df).
Proof.
  intros Hm. unfold clean_table.
  rewrite validate_Raise_of_missing by now rewrite missing_columns_normalize.
  unfold schema_error. now rewrite missing_columns_normalize.
Qed.

Lemma clean_table_analysis_only df :
  missing_columns df = [] -> analysis_only (clean_table df).
Proof.
  intros Hm. unfold clean_table.
  rewrite validate_Ok_of_none_missing by now rewrite missing_columns_normalize.
  unfold obind at 1.
  apply obind_analysis_only; [apply fill_with_median_analysis_only | intros d1].
  apply obind_analysis_only; [apply dropna_analysis_only | intros d2].
  apply cast_to_double_analysis_only.
Qed.

(** Preprocessing stops at the schema error, right after its first record. *)
Lemma preprocess_data_schema_error df jid dir w :
  open_w dir (jid +++ ".json") = None ->
  missing_columns df <> [] ->
  preprocess_data df jid dir w =
  (Raise (schema_error df),
   write_status dir (jid +++ ".json")
     (mkStatus jid "preprocessing" 25 "Handling missing values and outliers") w).
Proof.
  intros Hopen Hm. unfold preprocess_data, bind, lift, log_progress.
  now rewrite Hopen, (clean_table_schema_error df Hm).
Qed.

(** With all four columns present, what preprocessing raises is an analysis
    error of Spark. *)
Lemma preprocess_data_analysis_only df jid dir w e w' :
  open_w dir (jid +++ ".json") = None ->
  missing_columns df = [] ->
  preprocess_data df jid dir w = (Raise e, w') ->
  exn_class e = "AnalysisException".
Proof.
  intros Hopen Hm. unfold preprocess_data, bind, lift, log_progress, ret.
  rewrite Hopen.
  destruct (clean_table df) as [df0 | e0] eqn:Hc.
  - destruct (spend_stats df0) as [s | e1] eqn:Hs; intros H; inversion H; subst.
    exact (spend_stats_analysis_only df0 e Hs).
  - intros H. inversion H; subst. exact (clean_table_analysis_only df Hm e Hc).
Qed.

(** C5.  The schema check fails - with a [ValueError] whose message lists
    the missing names - if and only if one of [age], [spend], [recency],
    [frequency] is absent from the column names of the input after trimming
    and lowercasing; the names listed are exactly the absent ones, and the
    message cites a required name exactly when it is absent.  When the status
    file can be written, preprocessing as a whole fails with that error under
    the same condition, and a pipeline run on an input without [recency]
    returns the [error] dictionary and ends its status writes with the
    [error] record, whose message cites [recency]. *)
Theorem schema_error_iff_column_missing df :
  (validate_required_columns df = Raise (schema_error df) <->
   (exists c, In c required /\ ~ In c (get_column_names df))) /\
  (forall c, In c (missing_columns df) <->
             In c required /\ ~ In c (get_column_names df)) /\
  (forall c, In c required ->
             (Py.contains c (exn_msg (schema_error df)) = true <->
              ~ In c (get_column_names df))) /\
  (forall jid dir w,
      open_w dir (jid +++ ".json") = None ->
      ((exists w', preprocess_data df jid dir w = (Raise (schema_error df), w')) <->
       (exists c, In c required /\ ~ In c (get_column_names df))) /\
      (forall path rdir k,
          getOrCreate = Ok tt -> read_csv path = Ok df ->
          ~ In "recency" (get_column_names df) ->
          exists w' l0,
            run_segmentation_pipeline jid path rdir dir k w
            = (Ok (Failed jid (exn_msg (schema_error df))), w') /\
            status_files w' =
            status_files w ++ l0 ++
            [error_record dir jid (exn_msg (schema_error df))] /\
            Py.contains "recency" (exn_msg (schema_error df)) = true)).
Proof.
  assert (Hcite : forall c, In c required ->
            (Py.contains c (exn_msg (schema_error df)) = true <->
             ~ In c (get_column_names df))).
  { intros c Hc.
    change (exn_msg (schema_error df))
      with ("Missing required columns: " +++ Py.repr_list (missing_columns df)).
    rewrite missing_columns_by_presence.
    pose proof (message_cites_missing
                  (Py.mem "age" (get_column_names df))
                  (Py.mem "spend" (get_column_names df))
                  (Py.mem "recency" (get_column_names df))
                  (Py.mem "frequency" (get_column_names df))) as (Ha & Hs & Hr & Hf).
    assert (Hneg : forall n, negb (Py.mem n (get_column_names df)) = true <->
                             ~ In n (get_column_names df)).
    { intros n. rewrite negb_true_iff, <- not_true_iff_false.
      now rewrite mem_In. }
    simpl in Hc.
    destruct Hc as [<- | [<- | [<- | [<- | []]]]];
      [rewrite Ha | rewrite Hs | rewrite Hr | rewrite Hf]; apply Hneg. }
  assert (Habsent : (exists c, In c required /\ ~ In c (get_column_names df)) <->
                    missing_columns df <> []).
  { split.
    - intros (c & Hc) Hm. apply missing_columns_spec in Hc.
      rewrite Hm in Hc. destruct Hc.
    - intros Hm. destruct (missing_columns df) as [| c l] eqn:E; [congruence |].
      exists c. apply missing_columns_spec. rewrite E. now left. }
  split; [| split; [apply missing_columns_spec | split; [exact Hcite |]]].
  - rewrite Habsent. split.
    + intros H Hm. rewrite (validate_Ok_of_none_missing df Hm) in H. discriminate.
    + apply validate_Raise_of_missing.
  - intros jid dir w Hopen. split.
    + rewrite Habsent. split.
      * intros (w' & H) Hm.
        apply (preprocess_data_analysis_only _ _ _ _ _ _ Hopen Hm) in H.
        discriminate H.
      * intros Hm. eexists.
        exact (preprocess_data_schema_error _ _ _ _ Hopen Hm).
    + intros path rdir k Hsession Hread Hrecency.
      assert (Hm : missing_columns df <> []).
      { apply Habsent. exists "recency". split; [simpl; tauto | assumption]. }
      rewrite (pipeline_handler _ _ _ _ _ _ Hopen).
      unfold pipeline_body, bind, lift. rewrite Hsession, Hread.
      unfold log_progress at 1 2. rewrite Hopen.
      rewrite (preprocess_data_schema_error _ _ _ _ Hopen Hm).
      eexists _, [_; _; _]. split; [reflexivity | split].
      * simpl. rewrite <- !app_assoc. reflexivity.
      * apply Hcite; [simpl; tauto | assumption].
Qed.

End SchemaClaims.

(** C5, on the table without its [recency] column. *)
Lemma schema_error_iff_column_missing_witness :
  open_w (Platform := Reference.pyspark) "status" ("job_1" +++ ".json") = None /\
  exists w' l0,
    run_segmentation_pipeline (platform := Reference.pyspark)
      "job_1" "uploads/no_recency.csv" "results" "status" 4 Reference.empty_world
    = (Ok (Failed "job_1" "Missing required columns: ['recency']"), w') /\
    status_files w' =
    status_files Reference.empty_world ++ l0 ++
    [error_record "status" "job_1" "Missing required columns: ['recency']"] /\
    Py.contains "recency" "Missing required columns: ['recency']" = true.
Proof.
  split; [reflexivity |].
  destruct (schema_error_iff_column_missing (platform := Reference.pyspark)
              Reference.no_recency)
    as (_ & _ & _ & H).
  destruct (H "job_1" "status" Reference.empty_world eq_refl) as (_ & Hrun).
  apply (Hrun "uploads/no_recency.csv" "results" 4); [reflexivity | reflexivity |].
  simpl. intros [H0 | [H0 | [H0 | []]]]; discriminate H0.
Defined.

(** C9, on a table with a spend value more than three standard deviations
    above the mean: all twelve rows are returned. *)
Lemma outlier_step_passes_table_through_witness :
  open_w (Platform := Reference.pyspark) "status" ("job_1" +++ ".json") = None /\
  PrimFloat.ltb
    (PrimFloat.add (Reference.mean (repeat 100%float 11 ++ [100000%float]))
       (PrimFloat.mul 3 (Reference.stddev (repeat 100%float 11 ++ [100000%float]))))
    100000 = true /\
  exists df0,
    clean_table (platform := Reference.pyspark) Reference.with_outlier = Ok df0 /\
    rows df0 = rows Reference.with_outlier /\
    (exists w',
        preprocess_data (platform := Reference.pyspark)
          Reference.with_outlier "job_1" "status" Reference.empty_world
        = (Ok df0, w')) /\
    (forall df' w',
        preprocess_data (platform := Reference.pyspark)
          Reference.with_outlier "job_1" "status" Reference.empty_world
        = (Ok df', w') ->
        rows df' = rows df0 /\ columns df' = columns df0).
Proof.
  split; [reflexivity | split; [vm_compute; reflexivity |]].
  eexists. split; [evaluate_lhs |]. split; [reflexivity |].
  apply (outlier_step_passes_table_through (platform := Reference.pyspark));
    [reflexivity | evaluate_lhs].
Defined.

Section UnparseableValues.

Context {platform : Platform}.

(** The table left by the cast loop on [bad_age]: the word of its first row
    has become a null, and the row is still there. *)
Lemma clean_table_bad_age :
  cast_text_double "abc" = None ->
  exists cols rest,
    clean_table Reference.bad_age
    = Ok (mkDataFrame cols ([Null; Num 500; Num 10; Num 5] :: rest)).
Proof.
  destruct platform. simpl. intros Habc.
  vm_compute. rewrite Habc. eexists _, _. reflexivity.
Qed.

(** C3 (what the code does).  On a table whose [age] column holds a word
    that does not cast to a double, preprocessing returns a table in which
    the row of that word remains, its [age] null: [dropna] has run before the
    cast that produces the null. *)
Theorem unparseable_row_survives_preprocessing jid dir w
  (Hopen : open_w dir (jid +++ ".json") = None)
  (Habc : cast_text_double "abc" = None) :
  exists df' w' rest,
    preprocess_data Reference.bad_age jid dir w = (Ok df', w') /\
    rows df' = [Null; Num 500; Num 10; Num 5] :: rest.
Proof.
  destruct (clean_table_bad_age Habc) as (cols & rest & Hclean).
  eexists _, _, rest. split.
  - exact (preprocess_data_of_clean _ jid dir w _ Hopen Hclean).
  - reflexivity.
Qed.

End UnparseableValues.

(** C3, with the casts of the reference platform. *)
Lemma unparseable_row_survives_preprocessing_witness :
  open_w (Platform := Reference.pyspark) "status" ("job_1" +++ ".json") = None /\
  cast_text_double (Platform := Reference.pyspark) "abc" = None /\
  exists df' w' rest,
    preprocess_data (platform := Reference.pyspark)
      Reference.bad_age "job_1" "status" Reference.empty_world = (Ok df', w') /\
    rows df' = [Null; Num 500; Num 10; Num 5] :: rest.
Proof.
  split; [reflexivity | split; [reflexivity |]].
  apply (unparseable_row_survives_preprocessing (platform := Reference.pyspark));
    reflexivity.
Defined.

(* ===================================================================== *)
(** ** Cluster ids and sizes of a profile *)
(* ===================================================================== *)

Lemma cell_eqb_Int z c : cell_eqb (Int z) c = true -> c = Int z.
Proof.
  destruct c; simpl; try discriminate.
  intros H. apply Z.eqb_eq in H. now subst.
Qed.

Lemma distinct_keys_In seen l c : In c (distinct_keys seen l) -> In c l.
Proof.
  revert seen. induction l as [| x l IH]; intros seen H; simpl in *; [assumption |].
  destruct (existsb (cell_eqb x) seen).
  - right. now apply (IH seen).
  - destruct H as [-> | H]; [now left | right; now apply (IH (x :: seen))].
Qed.

Lemma distinct_keys_covers z l : forall seen,
  In (Int z) l ->
  existsb (cell_eqb (Int z)) seen = true \/ In (Int z) (distinct_keys seen l).
Proof.
  induction l as [| x l IH]; intros seen H; [destruct H |].
  simpl. destruct (existsb (cell_eqb x) seen) eqn:Hx.
  - destruct H as [-> | H]; [now left | now apply IH].
  - destruct H as [-> | H]; [right; now left |].
    destruct (IH (x :: seen) H) as [Hs | Hk]; [| right; now right].
    simpl in Hs. apply orb_true_iff in Hs. destruct Hs as [Hs | Hs]; [| now left].
    apply cell_eqb_Int in Hs. subst. right. now left.
Qed.

Lemma distinct_keys_NoDup l : forall seen zs,
  distinct_keys seen l = map Int zs ->
  NoDup zs /\ forall z, In z zs -> existsb (cell_eqb (Int z)) seen = false.
Proof.
  induction l as [| x l IH]; intros seen zs H; simpl in H.
  - destruct zs; [| discriminate]. split; [constructor | intros z []].
  - destruct (existsb (cell_eqb x) seen) eqn:Hx; [now apply IH |].
    destruct zs as [| z zs]; [discriminate |]. simpl in H.
    inversion H as [[Hz Hrest]]. subst x.
    destruct (IH _ _ Hrest) as (Hnd & Hseen).
    split.
    + constructor; [| assumption]. intros Hin.
      specialize (Hseen z Hin). simpl in Hseen. now rewrite Z.eqb_refl in Hseen.
    + intros z' [<- | Hin]; [assumption |].
      specialize (Hseen z' Hin). simpl in Hseen.
      now apply orb_false_iff in Hseen.
Qed.


Lemma cell_eqb_Int_r z c : cell_eqb c (Int z) = true -> c = Int z.
Proof.
  destruct c; simpl; try discriminate.
  intros H. apply Z.eqb_eq in H. now subst.
Qed.

Lemma filter_false_length {A} (l : list A) :
  List.length (filter (fun _ => false) l) = 0%nat.
Proof. induction l; simpl; auto. Qed.

Lemma filter_or_length {A} (f g : A -> bool) (l : list A) :
  (forall a, In a l -> f a = true -> g a = false) ->
  List.length (filter (fun a => f a || g a) l)
  = (List.length (filter f l) + List.length (filter g l))%nat.
Proof.
  induction l as [| a l IH]; intros H; simpl; [reflexivity |].
  assert (IH' := IH (fun b Hb => H b (or_intror Hb))).
  destruct (f a) eqn:Hf; simpl.
  - rewrite (H a (or_introl eq_refl) Hf). simpl. now rewrite IH'.
  - destruct (g a); simpl; rewrite IH'; lia.
Qed.

(** When all keys of a column are integers, so are all its cells outside the
    groups already seen. *)
Lemma distinct_keys_all_int l : forall seen zs,
  distinct_keys seen l = map Int zs ->
  forall c, In c l -> (exists z, c = Int z) \/ existsb (cell_eqb c) seen = true.
Proof.
  induction l as [| x l IH]; intros seen zs H c Hin; [destruct Hin |].
  simpl in H. destruct (existsb (cell_eqb x) seen) eqn:Hx.
  - destruct Hin as [<- | Hin]; [now right | exact (IH _ _ H c Hin)].
  - destruct zs as [| z zs]; [discriminate |]. inversion H as [[Hz Hrest]]. subst x.
    destruct Hin as [<- | Hin]; [left; now exists z |].
    destruct (IH _ _ Hrest c Hin) as [Hi | Hs]; [now left |].
    simpl in Hs. apply orb_true_iff in Hs. destruct Hs as [Hs | Hs]; [| now right].
    apply cell_eqb_Int_r in Hs. left. now exists z.
Qed.

Section ProfileKeys.

Context {platform : Platform}.

(** The groups of the keys partition the cells that were not seen before. *)
Lemma group_sizes_partition l : forall seen zs,
  distinct_keys seen l = map Int zs ->
  (fold_right Nat.add 0 (map (fun z => group_size (Int z) l) zs)
   + List.length (filter (fun c => existsb (cell_eqb c) seen) l))%nat
  = List.length l.
Proof.
  induction l as [| x l IH]; intros seen zs H.
  - simpl in H. destruct zs; [reflexivity | discriminate].
  - simpl in H. destruct (existsb (cell_eqb x) seen) eqn:Hx.
    + destruct (distinct_keys_NoDup _ _ _ H) as (_ & Hseen).
      specialize (IH _ _ H). simpl. rewrite Hx. simpl.
      rewrite <- IH. rewrite Nat.add_succ_r. f_equal. f_equal.
      f_equal. apply map_ext_in. intros z Hz.
      unfold group_size. simpl.
      destruct (cell_eqb x (Int z)) eqn:Hxz; [| reflexivity].
      apply cell_eqb_Int_r in Hxz. subst x.
      rewrite (Hseen z Hz) in Hx. discriminate.
    + destruct zs as [| z zs]; [discriminate |].
      inversion H as [[Hz Hrest]]. subst x.
      destruct (distinct_keys_NoDup _ _ _ Hrest) as (_ & Hseen).
      specialize (IH _ _ Hrest). simpl. rewrite Hx.
      unfold group_size at 1. simpl. rewrite Z.eqb_refl. simpl.
      rewrite <- IH. f_equal.
      rewrite (filter_or_length (fun c => cell_eqb c (Int z))
                 (fun c => existsb (cell_eqb c) seen)).
      * fold (group_size (Int z) l).
        assert (E : map (fun z0 => group_size (Int z0) (Int z :: l)) zs
                    = map (fun z0 => group_size (Int z0) l) zs).
        { apply map_ext_in. intros z0 Hz0. unfold group_size. simpl.
          destruct (z =? z0) eqn:Hzz; [| reflexivity].
          apply Z.eqb_eq in Hzz. subst z0.
          specialize (Hseen z Hz0). simpl in Hseen. now rewrite Z.eqb_refl in Hseen. }
        rewrite E. lia.
      * intros c _ Hc. apply cell_eqb_Int_r in Hc. now subst c.
Qed.

Lemma filter_map_length {A B} (g : A -> B) (f : B -> bool) (l : list A) :
  List.length (filter (fun a => f (g a)) l) = List.length (filter f (map g l)).
Proof.
  induction l as [| a l IH]; simpl; [reflexivity |].
  destruct (f (g a)); simpl; now rewrite IH.
Qed.

Lemma sum_of_nat {A} (f : A -> nat) (l : list A) :
  fold_right Z.add 0 (map (fun a => Z.of_nat (f a)) l)
  = Z.of_nat (fold_right Nat.add 0%nat (map f l)).
Proof. induction l as [| a l IH]; simpl; [reflexivity | rewrite IH; lia]. Qed.

Lemma cluster_stats_of_keys df stats :
  cluster_stats_of df = Ok stats ->
  exists ic,
    resolve (columns df) "cluster" = Ok ic /\
    map r_cluster stats = distinct_keys [] (column_values ic df) /\
    map r_size stats =
    map (fun key => Z.of_nat (group_size key (column_values ic df)))
      (distinct_keys [] (column_values ic df)).
Proof.
  unfold cluster_stats_of. intros H. do 5 obind_inv H.
  inversion H; subst. eexists. split; [eassumption | split].
  - rewrite map_map. simpl. now rewrite map_id.
  - rewrite map_map. simpl. apply map_ext. intros key.
    unfold group_size, column_values. now rewrite <- filter_map_length.
Qed.

Lemma built_from_keys stats infos :
  Forall2 built_from stats infos ->
  map r_cluster stats = map Int (map id infos) /\
  map r_size stats = map size infos.
Proof.
  induction 1 as [| row info stats infos Hb F [IHk IHs]]; [now split |].
  apply cluster_info_of_Ok in Hb. destruct Hb as (Hc & Hs & _).
  simpl. now rewrite Hc, Hs, IHk, IHs.
Qed.



End ProfileKeys.


(* ===================================================================== *)
(** ** Clustering *)
(* ===================================================================== *)

Section Clustering.

Context {platform : Platform}.




End Clustering.




(* ===================================================================== *)
(** ** Uploads and the frontend path *)
(* ===================================================================== *)

Lemma rsplit_dot_None s : rsplit_dot s = None <-> has_dot s = false.
Proof.
  induction s as [| c s IH]; simpl; [tauto |].
  destruct (rsplit_dot s) as [[b a] |].
  - split; [discriminate |]. intros H. apply orb_false_iff in H.
    destruct H as [_ H]. apply IH in H. discriminate.
  - destruct (Ascii.eqb c "."); simpl; [split; discriminate |].
    split; intros _; [now apply IH | reflexivity].
Qed.

Lemma rsplit_dot_Some s : forall b a,
  rsplit_dot s = Some (b, a) <-> s = b +++ "." +++ a /\ has_dot a = false.
Proof.
  induction s as [| c s IH]; intros b a; simpl.
  - split; [discriminate |]. intros [H _]. destruct b; discriminate.
  - destruct (rsplit_dot s) as [[b' a'] |] eqn:Hs.
    + split.
      * intros H. inversion H; subst. destruct (proj1 (IH b' a) eq_refl) as [-> Ha].
        now split.
      * intros [H Ha]. destruct b as [| c0 b0]; simpl in H.
        -- inversion H; subst. apply rsplit_dot_None in Ha. congruence.
        -- inversion H; subst.
           assert (E : Some (b', a') = Some (b0, a)) by (apply IH; now split).
           now inversion E.
    + split.
      * destruct (Ascii.eqb c ".") eqn:Hc; [| discriminate].
        intros H. inversion H; subst. apply Ascii.eqb_eq in Hc. subst.
        split; [reflexivity | now apply rsplit_dot_None].
      * intros [H Ha]. destruct b as [| c0 b0]; simpl in H.
        -- inversion H; subst. reflexivity.
        -- inversion H; subst.
           assert (E : None = Some (b0, a)) by (apply IH; now split).
           discriminate.
Qed.

(** X1.  [allowed_file] accepts a file name exactly when it has a dot and the
    part after its last dot is [csv] in any mix of cases: a name without a
    dot is refused, and so is a name whose last extension is another one. *)
Theorem allowed_file_iff_last_extension_is_csv filename :
  allowed_file filename = true <->
  exists stem extension,
    filename = stem +++ "." +++ extension /\
    has_dot extension = false /\ Py.lower extension = "csv".
Proof.
  unfold allowed_file. split.
  - destruct (rsplit_dot filename) as [[b a] |] eqn:H; [| discriminate].
    intros Hm. apply rsplit_dot_Some in H. destruct H as [-> Ha].
    exists b, a. repeat split; [assumption |].
    apply mem_In in Hm. destruct Hm as [Hm | []]. now symmetry.
  - intros (b & a & -> & Ha & Hl).
    rewrite (proj2 (rsplit_dot_Some _ b a) (conj eq_refl Ha)).
    rewrite Hl. reflexivity.
Qed.

Lemma endswith_slash_cons c s :
  s <> EmptyString -> endswith_slash (String c s) = endswith_slash s.
Proof. destruct s; [congruence | reflexivity]. Qed.

Lemma endswith_slash_index path : endswith_slash (path +++ "index.html") = false.
Proof.
  induction path as [| c path IH]; [reflexivity |].
  simpl String.append. rewrite endswith_slash_cons; [exact IH |].
  destruct path; discriminate.
Qed.

(** X2.  The path [do_GET] hands on never ends with a slash: the empty path
    and every path that ends with a slash get [index.html] appended, every
    other path is left as it is, and rewriting twice changes nothing more. *)
Theorem do_GET_path_never_a_directory path :
  endswith_slash (do_GET_path path) = false /\
  do_GET_path (do_GET_path path) = do_GET_path path /\
  (endswith_slash path = true -> do_GET_path path = path +++ "index.html") /\
  (endswith_slash path = false ->
   do_GET_path path = if String.eqb path "" then "/index.html" else path).
Proof.
  assert (Hgen : forall p, endswith_slash p = false -> p <> "" -> do_GET_path p = p).
  { intros p Hp Hne. unfold do_GET_path.
    destruct (String.eqb p "/") eqn:H1.
    - apply String.eqb_eq in H1. subst. discriminate.
    - destruct (String.eqb p "") eqn:H2.
      + apply String.eqb_eq in H2. contradiction.
      + simpl. now rewrite Hp. }
  assert (Hslash : endswith_slash path = true -> do_GET_path path = path +++ "index.html").
  { intros Hp. unfold do_GET_path.
    destruct (String.eqb path "/") eqn:H1.
    - apply String.eqb_eq in H1. now subst.
    - destruct (String.eqb path "") eqn:H2.
      + apply String.eqb_eq in H2. subst. discriminate.
      + simpl. now rewrite Hp. }
  assert (Hplain : endswith_slash path = false ->
            do_GET_path path = if String.eqb path "" then "/index.html" else path).
  { intros Hp. destruct (String.eqb path "") eqn:H2.
    - apply String.eqb_eq in H2. now subst.
    - apply Hgen; [assumption |]. intros ->. discriminate. }
  assert (Hend : endswith_slash (do_GET_path path) = false).
  { destruct (endswith_slash path) eqn:Hp.
    - rewrite (Hslash eq_refl). apply endswith_slash_index.
    - rewrite (Hplain eq_refl). destruct (String.eqb path ""); [reflexivity | exact Hp]. }
  repeat split; try assumption.
  apply Hgen; [exact Hend |].
  destruct (endswith_slash path) eqn:Hp.
  - rewrite (Hslash eq_refl). destruct path; discriminate.
  - rewrite (Hplain eq_refl). destruct (String.eqb path "") eqn:H2; [discriminate |].
    intros ->. discriminate.
Qed.

(* ===================================================================== *)
(** ** The job registry and the status route *)
(* ===================================================================== *)

Lemma dict_get_set_same k v d : dict_get k (dict_set k v d) = Some v.
Proof.
  induction d as [| [k' v'] d IH]; simpl.
  - now rewrite String.eqb_refl.
  - destruct (String.eqb k' k) eqn:Hk; simpl.
    + now rewrite String.eqb_refl.
    + now rewrite Hk.
Qed.

Lemma dict_get_set_other k k0 v d :
  k0 <> k -> dict_get k0 (dict_set k v d) = dict_get k0 d.
Proof.
  intros Hne. induction d as [| [k' v'] d IH]; simpl.
  - destruct (String.eqb k k0) eqn:Hk; [| reflexivity].
    apply String.eqb_eq in Hk. congruence.
  - destruct (String.eqb k' k) eqn:Hk; simpl.
    + apply String.eqb_eq in Hk. subst k'.
      destruct (String.eqb k k0) eqn:Hk0; [| reflexivity].
      apply String.eqb_eq in Hk0. congruence.
    + now rewrite IH.
Qed.

Lemma dict_set_keys k v d :
  map fst (dict_set k v d) = map fst d \/
  (~ In k (map fst d) /\ map fst (dict_set k v d) = map fst d ++ [k]).
Proof.
  induction d as [| [k' v'] d IH]; simpl.
  - right. split; [tauto | reflexivity].
  - destruct (String.eqb k' k) eqn:Hk; simpl.
    + apply String.eqb_eq in Hk. subst. now left.
    + apply String.eqb_neq in Hk.
      destruct IH as [IH | [Hn IH]]; [left | right]; rewrite IH; [reflexivity |].
      split; [| reflexivity]. intros [H | H]; [congruence | contradiction].
Qed.

Lemma dict_set_NoDup k v d :
  NoDup (map fst d) -> NoDup (map fst (dict_set k v d)).
Proof.
  intros Hnd. destruct (dict_set_keys k v d) as [-> | [Hn ->]]; [assumption |].
  apply NoDup_app; [assumption | repeat constructor; intros [] | ].
  intros x Hx [<- | []]. contradiction.
Qed.



Lemma read_status_write_same dir name r w :
  read_status dir name (write_status dir name r w) = Some r.
Proof.
  unfold read_status, write_status. simpl. rewrite rev_unit. simpl.
  now rewrite !String.eqb_refl.
Qed.


Section Registry.

Context {platform : Platform}.

(** X3.  [update_job_status] always records the status in the dictionary
    [jobs], whether or not the status file can be written: afterwards the
    entry of the job is the new record, the entries of the other jobs are as
    before, and no job has two entries. *)
Theorem update_job_status_registers jid st p msg w :
  let w' := snd (update_job_status jid st p msg w) in
  dict_get jid (jobs w') = Some (mkStatus jid st p msg) /\
  (forall other, other <> jid -> dict_get other (jobs w') = dict_get other (jobs w)) /\
  (NoDup (map fst (jobs w)) -> NoDup (map fst (jobs w'))).
Proof.
  unfold update_job_status.
  destruct (open_w STATUS_DIR (jid +++ ".json")); simpl;
    (split; [apply dict_get_set_same | split;
       [intros other Hne; now apply dict_get_set_other | apply dict_set_NoDup]]).
Qed.

(** X4.  When the status file cannot be opened, [update_job_status] raises
    after it has updated [jobs]: the dictionary holds the new record while
    the status route still answers what it answered before. *)
Theorem update_job_status_diverges_on_failure jid st p msg w e
  (Hfail : open_w STATUS_DIR (jid +++ ".json") = Some e) :
  let run := update_job_status jid st p msg w in
  fst run = Raise e /\
  dict_get jid (jobs (snd run)) = Some (mkStatus jid st p msg) /\
  job_status jid (snd run) = job_status jid w.
Proof.
  unfold update_job_status. rewrite Hfail. simpl.
  split; [reflexivity | split; [apply dict_get_set_same | reflexivity]].
Qed.


(** X7.  With a writable status file, a job never ends in an exception, and
    when it has ended both the status route and [jobs] report it as
    [completed] with progress 100 - whether the pipeline completed or
    reported an error. *)
Theorem job_always_ends_completed jid path name w
  (Hopen : open_w STATUS_DIR (jid +++ ".json") = None) :
  let run := run_job jid path name w in
  fst run = Ok tt /\
  job_status jid (snd run)
    = Found (mkStatus jid "completed" 100 "Job completed successfully") /\
  dict_get jid (jobs (snd run))
    = Some (mkStatus jid "completed" 100 "Job completed successfully").
Proof.
  cbv zeta. rewrite (run_job_unfold _ _ _ _ Hopen).
  destruct (pipeline_trace jid path RESULTS_DIR STATUS_DIR 4 (started jid w) Hopen)
    as (r & w1 & l & Hrun & _). rewrite Hrun.
  unfold job_status, update_job_status. rewrite Hopen. simpl.
  rewrite read_status_write_same, dict_get_set_same. repeat split.
Qed.

End Registry.

(** X4, on the file system that refuses every write. *)
Lemma update_job_status_diverges_on_failure_witness :
  exists e,
    open_w (Platform := Reference.read_only) "status" ("job_1" +++ ".json") = Some e /\
    let run :=
      update_job_status (platform := Reference.read_only)
        "job_1" "queued" 0 "Job queued for processing" Reference.empty_world in
    fst run = Raise e /\
    dict_get "job_1" (jobs (snd run))
      = Some (mkStatus "job_1" "queued" 0 "Job queued for processing") /\
    job_status (platform := Reference.read_only) "job_1" (snd run)
      = job_status (platform := Reference.read_only) "job_1" Reference.empty_world.
Proof.
  eexists. split; [reflexivity |].
  apply (update_job_status_diverges_on_failure (platform := Reference.read_only)).
  reflexivity.
Defined.


(** X7, on a job whose file lacks the [recency] column. *)
Lemma job_always_ends_completed_witness :
  open_w (Platform := Reference.pyspark) "status" ("job_1" +++ ".json") = None /\
  let run :=
    run_job (platform := Reference.pyspark)
      "job_1" "uploads/no_recency.csv" "no_recency.csv" Reference.empty_world in
  fst run = Ok tt /\
  job_status (platform := Reference.pyspark) "job_1" (snd run)
    = Found (mkStatus "job_1" "completed" 100 "Job completed successfully") /\
  dict_get "job_1" (jobs (snd run))
    = Some (mkStatus "job_1" "completed" 100 "Job completed successfully").
Proof.
  split; [reflexivity |].
  apply (job_always_ends_completed (platform := Reference.pyspark)).
  reflexivity.
Defined.

(* ===================================================================== *)
(** ** The result files of a run *)
(* ===================================================================== *)

Section Production.

Context {platform : Platform}.

Lemma produces_ret {A} (a : A) : produces (ret a) [].
Proof.
  intros w. split; [reflexivity |]. exists []. simpl.
  now rewrite app_nil_r.
Qed.

Lemma produces_lift {A} (o : outcome A) : produces (lift o) [].
Proof.
  intros w. split; [reflexivity |]. exists []. unfold lift. simpl.
  rewrite app_nil_r. split; [reflexivity |].
  destruct o; [reflexivity | exists 0%nat; split; [lia | reflexivity]].
Qed.

Lemma produces_log jid dir st p msg : produces (log_progress jid dir st p msg) [].
Proof.
  intros w. unfold log_progress.
  destruct (open_w dir (jid +++ ".json")); simpl;
    (split; [reflexivity |]); exists []; rewrite app_nil_r;
    (split; [reflexivity |]); [| reflexivity].
  exists 0%nat. split; [lia | reflexivity].
Qed.

Lemma produces_write_json rdir name a :
  produces (write_json rdir name a) [(rdir, name)].
Proof.
  intros w. unfold write_json.
  destruct (open_w rdir name); simpl; (split; [reflexivity |]).
  - exists []. rewrite app_nil_r. split; [reflexivity |].
    exists 0%nat. split; [lia | reflexivity].
  - exists [(rdir, name, a)]. now split.
Qed.

Lemma produces_bind {A B} (m : M A) (f : A -> M B) s1 s2 :
  produces m s1 ->
  (forall a, produces (f a) s2) ->
  produces (bind m f) (s1 ++ s2).
Proof.
  intros Hm Hf w. unfold bind.
  destruct (Hm w) as (J1 & l1 & E1 & T1).
  destruct (m w) as [[a | e] w1]; simpl in *.
  - destruct (Hf a w1) as (J2 & l2 & E2 & T2).
    split; [congruence |].
    exists (l1 ++ l2). split.
    + rewrite E2, E1. now rewrite app_assoc.
    + destruct (fst (f a w1)).
      * now rewrite map_app, T1, T2.
      * destruct T2 as (n & Hn & T2).
        exists (List.length s1 + n)%nat. split.
        -- rewrite length_app. lia.
        -- rewrite map_app, T1, T2. now rewrite firstn_app_2.
  - split; [assumption |].
    destruct T1 as (n & Hn & T1).
    exists l1. split; [assumption |].
    exists n. split.
    + rewrite length_app. lia.
    + rewrite T1, firstn_app.
      replace (n - List.length s1)%nat with 0%nat by lia.
      simpl. now rewrite app_nil_r.
Qed.

Lemma produces_quiet_then {A B} (m : M A) (f : A -> M B) files :
  produces m [] ->
  (forall a, produces (f a) files) ->
  produces (bind m f) files.
Proof. intros Hm Hf. exact (produces_bind m f [] files Hm Hf). Qed.

(** Stages made of status writes and Spark calls write no result file. *)
Ltac quiet :=
  repeat first
    [ apply produces_ret | apply produces_lift | apply produces_log
    | apply produces_quiet_then; [| intros ?] ].

Lemma preprocess_data_produces df jid dir :
  produces (preprocess_data df jid dir) [].
Proof. unfold preprocess_data. quiet. Qed.

Lemma feature_engineering_produces df jid dir :
  produces (feature_engineering df jid dir) [].
Proof. unfold feature_engineering. quiet. Qed.

Lemma create_feature_vector_produces df jid dir :
  produces (create_feature_vector df jid dir) [].
Proof. unfold create_feature_vector. quiet. Qed.

Lemma scale_features_produces df jid dir :
  produces (scale_features df jid dir) [].
Proof. unfold scale_features. quiet. Qed.

Lemma perform_clustering_produces df k jid dir :
  produces (perform_clustering df k jid dir) [].
Proof. unfold perform_clustering. quiet. Qed.

Lemma generate_segment_profiles_produces df rdir jid dir :
  produces (generate_segment_profiles df rdir jid dir)
    [(rdir, "segment_profiles.json")].
Proof.
  unfold generate_segment_profiles.
  do 3 (apply produces_quiet_then; [quiet | intros ?]).
  apply (produces_bind _ _ [_] []); [apply produces_write_json | intros _; quiet].
Qed.

Lemma generate_chart_data_produces df rdir jid dir :
  produces (generate_chart_data df rdir jid dir) [(rdir, "chart_data.json")].
Proof.
  unfold generate_chart_data.
  do 2 (apply produces_quiet_then; [quiet | intros ?]).
  apply (produces_bind _ _ [_] []); [apply produces_write_json | intros _; quiet].
Qed.

Lemma save_segmented_customers_produces df rdir jid dir :
  produces (save_segmented_customers df rdir jid dir) [(rdir, "segments.csv")].
Proof.
  unfold save_segmented_customers.
  do 2 (apply produces_quiet_then; [quiet | intros ?]).
  intros w. destruct (write_csv rdir "segments.csv" _); simpl;
    (split; [reflexivity |]).
  - exists []. rewrite app_nil_r. split; [reflexivity |].
    exists 0%nat. split; [lia | reflexivity].
  - eexists [_]. now split.
Qed.

Lemma pipeline_body_produces jid path rdir dir k :
  produces (pipeline_body jid path rdir dir k) (outputs rdir).
Proof.
  unfold pipeline_body, outputs.
  do 4 (apply produces_quiet_then; [quiet | intros ?]).
  apply produces_quiet_then; [apply preprocess_data_produces | intros ?].
  apply produces_quiet_then; [apply feature_engineering_produces | intros ?].
  apply produces_quiet_then; [apply create_feature_vector_produces | intros ?].
  apply produces_quiet_then; [apply scale_features_produces | intros ?].
  apply produces_quiet_then; [apply perform_clustering_produces | intros ?].
  apply (produces_bind _ _ [_] [_; _]);
    [apply generate_segment_profiles_produces | intros ?].
  apply (produces_bind _ _ [_] [_]);
    [apply generate_chart_data_produces | intros ?].
  apply (produces_bind _ _ [_] []);
    [apply save_segmented_customers_produces | intros ?].
  quiet.
Qed.

(** X8.  A pipeline run never touches the dictionary [jobs], and the only
    result files it writes are the segment profiles, the chart data and the
    segments table of its results directory, in that order and each at most
    once: all three when it reports [completed], an initial part of them
    when it reports an error or raises. *)
Theorem pipeline_writes_only_its_outputs jid path rdir dir k w :
  let run := run_segmentation_pipeline jid path rdir dir k w in
  jobs (snd run) = jobs w /\
  exists l,
    result_files (snd run) = result_files w ++ l /\
    (exists n, map fst l = firstn n (outputs rdir)) /\
    (forall r, fst run = Ok r -> status r = "completed" -> map fst l = outputs rdir).
Proof.
  cbv zeta. unfold run_segmentation_pipeline, try_except.
  destruct (pipeline_body_produces jid path rdir dir k w) as (J & l & E & T).
  destruct (pipeline_body jid path rdir dir k w) as [[r | e] w1] eqn:Hbody;
    simpl in J, E, T.
  - simpl. split; [assumption |]. exists l. split; [assumption |]. split.
    + exists 3%nat. now rewrite T.
    + intros; assumption.
  - destruct T as (n & _ & T).
    unfold bind, log_progress, ret.
    destruct (open_w dir (jid +++ ".json")); simpl;
      (split; [assumption |]); exists l; (split; [assumption |]);
      (split; [now exists n |]); intros r Hr; inversion Hr; subst;
      discriminate.
Qed.

Lemma log_progress_Ok jid dir st p msg w u w' :
  log_progress jid dir st p msg w = (Ok u, w') ->
  w' = write_status dir (jid +++ ".json") (mkStatus jid st p msg) w.
Proof.
  unfold log_progress. destruct (open_w dir (jid +++ ".json")); intros H;
    now inversion H.
Qed.

Lemma perform_clustering_Ok_inv df k jid dir w cl w' :
  perform_clustering df k jid dir w = (Ok cl, w') ->
  exists model,
    kmeans_fit k df = Ok model /\
    kmeans_transform model df = Ok (fst (fst cl)) /\
    evaluate model = Ok (snd cl).
Proof.
  unfold perform_clustering. intros H. bind_inv H.
  apply bind_Ok in H. destruct H as (model & w1 & Hfit & H).
  apply lift_Ok in Hfit. destruct Hfit as [Hfit ->].
  apply bind_Ok in H. destruct H as (df' & w2 & Htr & H).
  apply lift_Ok in Htr. destruct Htr as [Htr ->].
  apply bind_Ok in H. destruct H as (s & w3 & Hev & H).
  apply lift_Ok in Hev. destruct Hev as [Hev ->].
  bind_inv H. unfold ret in H. inversion H; subst. simpl.
  exists model. now repeat split.
Qed.

(** What a [try] block that returns has gone through. *)
Lemma pipeline_body_Ok_inv jid path rdir dir k w r w' :
  pipeline_body jid path rdir dir k w = (Ok r, w') ->
  exists df0 df4 cl p chart w4 w5 w6 w7 w8,
    read_csv path = Ok df0 /\
    perform_clustering df4 k jid dir w4 = (Ok cl, w5) /\
    generate_segment_profiles (fst (fst cl)) rdir jid dir w5 = (Ok p, w6) /\
    generate_chart_data (fst (fst cl)) rdir jid dir w6 = (Ok chart, w7) /\
    save_segmented_customers (fst (fst cl)) rdir jid dir w7 = (Ok tt, w8) /\
    w' = write_status dir (jid +++ ".json")
           (mkStatus jid "completed" 100 "Segmentation completed successfully") w8 /\
    r = Completed jid (Z.of_nat (List.length (rows df0))) k (snd cl).
Proof.
  unfold pipeline_body. intros H. do 2 bind_inv H.
  apply bind_Ok in H. destruct H as (df0 & w2 & Hread & H).
  apply lift_Ok in Hread. destruct Hread as [Hread ->].
  cbv beta zeta in H. bind_inv H. do 3 bind_inv H.
  apply bind_Ok in H. destruct H as (df4 & w4 & _ & H).
  apply bind_Ok in H. destruct H as (cl & w5 & Hcl & H). cbv beta zeta in H.
  apply bind_Ok in H. destruct H as (p & w6 & Hp & H).
  apply bind_Ok in H. destruct H as (chart & w7 & Hchart & H).
  apply bind_Ok in H. destruct H as ([] & w8 & Hsave & H).
  apply bind_Ok in H. destruct H as (? & w9 & Hlog & H).
  apply log_progress_Ok in Hlog.
  apply bind_Ok in H. destruct H as (? & w10 & Hstop & H).
  apply lift_Ok in Hstop. destruct Hstop as [_ ->].
  unfold ret in H. inversion H; subst.
  exists df0, df4, cl, p, chart, w4, w5, w6, w7, w8. now repeat split.
Qed.

Lemma produces_nothing {A} (m : M A) w :
  produces m [] ->
  result_files (snd (m w)) = result_files w /\ jobs (snd (m w)) = jobs w.
Proof.
  intros Hm. destruct (Hm w) as (J & l & E & T). split; [| assumption].
  assert (Hl : map fst l = []).
  { destruct (fst (m w)); [assumption |].
    destruct T as (n & _ & T). rewrite T. now destruct n. }
  destruct l; [| discriminate]. now rewrite app_nil_r in E.
Qed.

(** A stage that never returns hides what follows it. *)
Lemma produces_bind_never {A B} (m : M A) (f : A -> M B) :
  produces m [] ->
  (forall w a w', m w <> (Ok a, w')) ->
  produces (bind m f) [].
Proof.
  intros Hm Hnever w. unfold bind. specialize (Hm w). specialize (Hnever w).
  destruct (m w) as [[a | e] w1]; [| exact Hm].
  exfalso. now apply (Hnever a w1).
Qed.

Lemma perform_clustering_never df k jid dir :
  (forall model, exists e, evaluate model = Raise e) ->
  forall w cl w', perform_clustering df k jid dir w <> (Ok cl, w').
Proof.
  intros Hev w cl w' H. apply perform_clustering_Ok_inv in H.
  destruct H as (model & _ & _ & Hscore).
  destruct (Hev model) as (e & He). congruence.
Qed.

Lemma pipeline_body_produces_nothing jid path rdir dir k :
  (forall model, exists e, evaluate model = Raise e) ->
  produces (pipeline_body jid path rdir dir k) [].
Proof.
  intros Hev. unfold pipeline_body.
  do 4 (apply produces_quiet_then; [quiet | intros ?]).
  apply produces_quiet_then; [apply preprocess_data_produces | intros ?].
  apply produces_quiet_then; [apply feature_engineering_produces | intros ?].
  apply produces_quiet_then; [apply create_feature_vector_produces | intros ?].
  apply produces_quiet_then; [apply scale_features_produces | intros ?].
  apply produces_bind_never; [apply perform_clustering_produces |].
  now apply perform_clustering_never.
Qed.

(** X9.  No run completes when the evaluator rejects the fitted model, as
    PySpark's does, being handed the model where it expects the clustered
    table: with a writable status file every run, whatever the file and
    [k], returns the [error] dictionary, has written no result file and not
    touched [jobs], and leaves the [error] record with its message in the
    status file. *)
Theorem no_run_completes_when_the_evaluator_rejects_the_model jid path rdir dir k w
  (Hopen : open_w dir (jid +++ ".json") = None)
  (Hevaluator : forall model, exists e, evaluate model = Raise e) :
  exists msg w',
    run_segmentation_pipeline jid path rdir dir k w = (Ok (Failed jid msg), w') /\
    result_files w' = result_files w /\
    jobs w' = jobs w /\
    read_status dir (jid +++ ".json") w'
    = Some (mkStatus jid "error" 0 ("Error: " +++ msg)).
Proof.
  rewrite (pipeline_handler _ _ _ _ _ _ Hopen).
  destruct (produces_nothing (pipeline_body jid path rdir dir k) w
              (pipeline_body_produces_nothing jid path rdir dir k Hevaluator))
    as (Hfiles & Hjobs).
  destruct (pipeline_body jid path rdir dir k w) as [[r | e] w1] eqn:Hbody.
  - exfalso. apply pipeline_body_Ok_inv in Hbody.
    destruct Hbody as (? & df4 & cl & ? & ? & w4 & w5 & ? & ? & ? & _ & Hcl & _).
    exact (perform_clustering_never df4 k jid dir Hevaluator _ _ _ Hcl).
  - eexists _, _. split; [reflexivity |]. simpl in Hfiles, Hjobs.
    split; [exact Hfiles | split; [exact Hjobs | apply read_status_write_same]].
Qed.

End Production.

(** X9, on the two customers of the scenario and PySpark's evaluator. *)
Lemma no_run_completes_when_the_evaluator_rejects_the_model_witness :
  exists msg w',
    run_segmentation_pipeline (platform := Reference.pyspark)
      "job_1" "uploads/customers.csv" "results" "status" 2 Reference.empty_world
    = (Ok (Failed "job_1" msg), w') /\
    msg = "'KMeansModel' object has no attribute '_jdf'" /\
    result_files w' = [].
Proof.
  destruct (no_run_completes_when_the_evaluator_rejects_the_model
              (platform := Reference.pyspark)
              "job_1" "uploads/customers.csv" "results" "status" 2
              Reference.empty_world eq_refl
              (fun model => ex_intro _ _ eq_refl))
    as (msg & w' & Hrun & Hfiles & _).
  exists msg, w'. split; [exact Hrun | split; [| exact Hfiles]].
  assert (Hmsg : fst (run_segmentation_pipeline (platform := Reference.pyspark)
                        "job_1" "uploads/customers.csv" "results" "status" 2
                        Reference.empty_world)
                 = Ok (Failed "job_1" "'KMeansModel' object has no attribute '_jdf'"))
    by (vm_compute; reflexivity).
  rewrite Hrun in Hmsg. simpl in Hmsg. now inversion Hmsg.
Defined.

(* ===================================================================== *)
(** ** What the routes serve after a run *)
(* ===================================================================== *)

Lemma read_artifact_last dir name a w others :
  result_files w = others ++ [(dir, name, a)] ->
  read_artifact dir name w = Some a.
Proof.
  intros E. unfold read_artifact. rewrite E, rev_unit. simpl.
  now rewrite !String.eqb_refl.
Qed.

Lemma read_artifact_skip dir name dir' name' a w w' :
  result_files w' = result_files w ++ [(dir', name', a)] ->
  String.eqb name' name = false ->
  read_artifact dir name w' = read_artifact dir name w.
Proof.
  intros E Hne. unfold read_artifact. rewrite E, rev_unit. simpl.
  now rewrite Hne, andb_false_r.
Qed.

Lemma group_size_of_key c l seen :
  In (Int c) (distinct_keys seen l) -> (1 <= group_size (Int c) l)%nat.
Proof.
  intros Hin. apply distinct_keys_In in Hin. unfold group_size.
  induction l as [| x l IH]; [destruct Hin |].
  destruct Hin as [-> | Hin]; simpl.
  - rewrite Z.eqb_refl. simpl. lia.
  - specialize (IH Hin). destruct (cell_eqb x (Int c)); simpl; lia.
Qed.

Section Serving.

Context {platform : Platform}.

Lemma generate_chart_data_Ok df rdir jid dir w chart w' :
  generate_chart_data df rdir jid dir w = (Ok chart, w') ->
  chart_series df = Ok chart /\
  result_files w' = result_files w ++ [(rdir, "chart_data.json", ChartJson chart)].
Proof.
  unfold generate_chart_data. intros H.
  apply bind_Ok in H. destruct H as (? & w1 & Hlog & H).
  apply log_progress_Ok in Hlog. subst w1.
  apply bind_Ok in H. destruct H as (c & w2 & Hc & H).
  apply lift_Ok in Hc. destruct Hc as [Hc ->].
  apply bind_Ok in H. destruct H as (? & w3 & Hw & H).
  unfold ret in H. inversion H; subst. split; [assumption |].
  unfold write_json in Hw.
  destruct (open_w rdir "chart_data.json"); inversion Hw; subst. reflexivity.
Qed.

Lemma save_segmented_customers_Ok df rdir jid dir w u w' :
  save_segmented_customers df rdir jid dir w = (Ok u, w') ->
  exists out,
    select
      (filter (fun c => Py.mem c (columns df))
         [ (if Py.mem "customerid" (columns df) then "customerid" else "id");
           "age"; "spend"; "recency"; "frequency"; "cluster" ]) df = Ok out /\
    result_files w' = result_files w ++ [(rdir, "segments.csv", CsvOutput out)].
Proof.
  unfold save_segmented_customers. intros H.
  apply bind_Ok in H. destruct H as (? & w1 & Hlog & H).
  apply log_progress_Ok in Hlog. subst w1.
  apply bind_Ok in H. destruct H as (out & w2 & Hsel & H).
  apply lift_Ok in Hsel. destruct Hsel as [Hsel ->].
  exists out. split; [exact Hsel |].
  destruct (write_csv rdir "segments.csv" out); inversion H; subst. reflexivity.
Qed.

(** X10.  The profile lists its clusters from the largest to the smallest;
    the size of each is the number of rows that carry its id in the
    [cluster] column, so no listed cluster is empty; the top category of
    each is the literal [Electronics]; and the profile returned is the
    content of [segment_profiles.json] afterwards. *)
Theorem profile_lists_clusters_by_size df rdir jid dir w p w'
  (Hrun : generate_segment_profiles df rdir jid dir w = (Ok p, w')) :
  StronglySorted (fun a b => size b <= size a) (clusters p) /\
  (exists ic,
      resolve (columns df) "cluster" = Ok ic /\
      Forall (fun c => size c = Z.of_nat (group_size (Int (id c)) (column_values ic df))
                       /\ 1 <= size c)
        (clusters p)) /\
  Forall (fun c => topCategory c = "Electronics") (clusters p) /\
  read_artifact rdir "segment_profiles.json" w' = Some (ProfilesJson p).
Proof.
  apply generate_segment_profiles_Ok in Hrun.
  destruct Hrun as (stats & infos & Hstats & F & Hcl & _ & _ & _ & others & Hfiles).
  pose proof (sort_by_size_perm infos) as Hperm. rewrite <- Hcl in Hperm.
  split; [rewrite Hcl; apply sort_by_size_sorted |].
  split; [| split; [| exact (read_artifact_last _ _ _ _ _ Hfiles)]].
  - destruct (cluster_stats_of_keys _ _ Hstats) as (ic & Hic & Hkeys & Hsizes).
    destruct (built_from_keys _ _ F) as (Hk & Hs).
    exists ic. split; [assumption |].
    apply (Permutation_Forall Hperm).
    rewrite Hk in Hkeys. rewrite Hs, <- Hkeys, map_map in Hsizes.
    apply Forall_forall. intros c Hc.
    assert (Hsize : size c = Z.of_nat (group_size (Int (id c)) (column_values ic df))).
    { clear - Hsizes Hc. induction infos as [| x infos IH]; [destruct Hc |].
      simpl in Hsizes. inversion Hsizes.
      destruct Hc as [-> | Hc]; [assumption | now apply IH]. }
    split; [assumption |]. rewrite Hsize.
    assert (Hin : In (Int (id c)) (distinct_keys [] (column_values ic df))).
    { rewrite <- Hkeys. apply in_map, in_map, Hc. }
    apply group_size_of_key in Hin. lia.
  - apply (Permutation_Forall Hperm).
    clear - F. induction F as [| row info stats infos Hb F IH]; constructor; auto.
    unfold built_from, cluster_info_of in Hb. do 8 obind_inv Hb.
    now inversion Hb.
Qed.

(** X11.  Once the three result stages have run, one after the other, into
    [RESULTS_DIR] - the profiles, the chart data, the segments table - the
    segments route answers with the profile and the chart route with the
    chart data that these calls returned: a later result write does not
    disturb an earlier file, and what the directory held before does not
    show. *)
Theorem result_stages_are_served df jid dir w p chart u w1 w2 w3
  (Hprofiles : generate_segment_profiles df RESULTS_DIR jid dir w = (Ok p, w1))
  (Hchart : generate_chart_data df RESULTS_DIR jid dir w1 = (Ok chart, w2))
  (Hsave : save_segmented_customers df RESULTS_DIR jid dir w2 = (Ok u, w3)) :
  get_segments w1 = Found (ProfilesJson p) /\
  get_segments w3 = Found (ProfilesJson p) /\
  get_cluster_plot_data w3 = Found (ChartJson chart) /\
  exists out, read_artifact RESULTS_DIR "segments.csv" w3 = Some (CsvOutput out).
Proof.
  pose proof (generate_segment_profiles_Ok _ _ _ _ _ _ _ Hprofiles)
    as (_ & _ & _ & _ & _ & _ & _ & _ & others & Hfiles).
  apply generate_chart_data_Ok in Hchart. destruct Hchart as (_ & Hc).
  apply save_segmented_customers_Ok in Hsave. destruct Hsave as (out & _ & Hs).
  unfold get_segments, get_cluster_plot_data.
  rewrite (read_artifact_skip _ "segment_profiles.json" _ _ _ _ _ Hs eq_refl).
  rewrite (read_artifact_skip _ "segment_profiles.json" _ _ _ _ _ Hc eq_refl).
  rewrite (read_artifact_last _ _ _ _ _ Hfiles).
  rewrite (read_artifact_skip _ "chart_data.json" _ _ _ _ _ Hs eq_refl).
  rewrite (read_artifact_last _ _ _ _ _ Hc).
  repeat split. exists out. exact (read_artifact_last _ _ _ _ _ Hs).
Qed.

(** X12.  The table written to [segments.csv] has the rows of the clustered
    table, in order, cut down to the columns asked for that the table has:
    [age], [spend], [recency], [frequency], [cluster] and the customer id,
    taken from [customerid] and from [id] only when there is no
    [customerid]; no derived column is written. *)
Theorem segments_csv_holds_the_wanted_columns df rdir jid dir w u w'
  (Hrun : save_segmented_customers df rdir jid dir w = (Ok u, w')) :
  exists out idxs,
    read_artifact rdir "segments.csv" w' = Some (CsvOutput out) /\
    (forall c, In c (columns out) <-> In c (columns df) /\ wanted (columns df) c) /\
    resolve_all (columns df) (columns out) = Ok idxs /\
    rows out = map (fun r => map (fun i => get i r) idxs) (rows df) /\
    List.length (rows out) = List.length (rows df).
Proof.
  apply save_segmented_customers_Ok in Hrun. destruct Hrun as (out & Hsel & Hfiles).
  remember (filter (fun c => Py.mem c (columns df)) _) as available_cols eqn:Hav.
  unfold select in Hsel.
  destruct (resolve_all (columns df) available_cols) as [idxs | e] eqn:Hres;
    [| discriminate].
  cbv beta iota delta [obind] in Hsel. inversion Hsel; subst out. clear Hsel.
  eexists _, idxs. split; [exact (read_artifact_last _ _ _ _ _ Hfiles) |].
  cbn [columns rows].
  split; [| split; [exact Hres | split; [reflexivity | apply length_map]]].
  intros c. rewrite Hav, filter_In, mem_In. unfold wanted.
  destruct (Py.mem "customerid" (columns df)) eqn:Hcid.
  - apply mem_In in Hcid. simpl. intuition (subst; auto; try discriminate).
  - assert (Hno : ~ In "customerid" (columns df))
      by (intros Hin; apply mem_In in Hin; congruence).
    simpl. intuition (subst; auto; try contradiction).
Qed.

End Serving.

(** X10, on the two customers of the scenario, one cluster each. *)
Lemma profile_lists_clusters_by_size_witness :
  exists p w',
    generate_segment_profiles (platform := Reference.pyspark)
      Reference.clustered_customers "results" "job_1" "status" Reference.empty_world
    = (Ok p, w') /\
    map size (clusters p) = [1; 1] /\
    StronglySorted (fun a b => size b <= size a) (clusters p) /\
    read_artifact "results" "segment_profiles.json" w' = Some (ProfilesJson p).
Proof.
  eexists _, _. split; [evaluate_lhs |]. split; [reflexivity |].
  pose proof (profile_lists_clusters_by_size (platform := Reference.pyspark)
                Reference.clustered_customers "results" "job_1" "status"
                Reference.empty_world) as H.
  specialize (H _ _ ltac:(evaluate_lhs)).
  exact (conj (proj1 H) (proj2 (proj2 (proj2 H)))).
Defined.

(** X11, on the two clustered customers, called stage by stage. *)
Lemma result_stages_are_served_witness :
  exists p chart w3,
    (_ <- generate_segment_profiles (platform := charting)
            Reference.clustered_customers "results" "job_1" "status" ;;
     _ <- generate_chart_data (platform := charting)
            Reference.clustered_customers "results" "job_1" "status" ;;
     save_segmented_customers (platform := charting)
       Reference.clustered_customers "results" "job_1" "status")
      Reference.empty_world = (Ok tt, w3) /\
    get_segments (platform := charting) w3 = Found (ProfilesJson p) /\
    get_cluster_plot_data (platform := charting) w3 = Found (ChartJson chart) /\
    map fst (clusterCounts chart) = ["Cluster 0"; "Cluster 1"].
Proof.
  pose proof (result_stages_are_served (platform := charting)
                Reference.clustered_customers "job_1" "status" Reference.empty_world
                _ _ tt _ _ _
                ltac:(evaluate_lhs) ltac:(evaluate_lhs) ltac:(evaluate_lhs)) as H.
  eexists _, _, _. split; [evaluate_lhs |].
  split; [exact (proj1 (proj2 H)) | split; [exact (proj1 (proj2 (proj2 H))) |]].
  vm_compute. reflexivity.
Defined.

(** X12, on the two clustered customers. *)
Lemma segments_csv_holds_the_wanted_columns_witness :
  exists out,
    read_artifact "results" "segments.csv"
      (snd (save_segmented_customers (platform := Reference.pyspark)
              Reference.clustered_customers "results" "job_1" "status"
              Reference.empty_world))
    = Some (CsvOutput out) /\
    List.length (rows out) = List.length (rows Reference.clustered_customers).
Proof.
  pose proof (segments_csv_holds_the_wanted_columns (platform := Reference.pyspark)
                Reference.clustered_customers "results" "job_1" "status"
                Reference.empty_world tt) as H.
  specialize (H _ ltac:(evaluate_lhs)).
  destruct H as (out & idxs & Hread & _ & _ & _ & Hlen).
  exists out. split; [exact Hread | exact Hlen].
Defined.

(* ===================================================================== *)
(** ** Normalisation and the table preprocessing returns *)
(* ===================================================================== *)

Lemma normalize_fold_rows todo : forall st : DataFrame,
  rows
    (fold_left
       (fun df_normalized col_name =>
          let normalized_name := Py.lower (Py.strip col_name) in
          if negb (String.eqb col_name normalized_name)
          then withColumnRenamed col_name normalized_name df_normalized
          else df_normalized)
       todo st)
  = rows st.
Proof.
  induction todo as [| x todo IH]; intros st; simpl; [reflexivity |].
  rewrite IH. now destruct (negb _).
Qed.

Lemma normalize_fold_fixed todo : forall st : DataFrame,
  Forall (fun c => normalized c = c) todo ->
  fold_left
    (fun df_normalized col_name =>
       let normalized_name := Py.lower (Py.strip col_name) in
       if negb (String.eqb col_name normalized_name)
       then withColumnRenamed col_name normalized_name df_normalized
       else df_normalized)
    todo st
  = st.
Proof.
  induction todo as [| x todo IH]; intros st F; simpl; [reflexivity |].
  inversion F as [| ? ? Hx F']; subst.
  unfold normalized in Hx. rewrite Hx, String.eqb_refl. simpl. now apply IH.
Qed.

Lemma normalize_dataframe_rows df : rows (normalize_dataframe df) = rows df.
Proof. apply normalize_fold_rows. Qed.

(** X13.  [normalize_dataframe] only renames: the rows are untouched and
    every column name is replaced by its trimmed, lowercased form; these
    are the very names [get_column_names] computes for the schema check; and
    normalising a normalised table changes nothing. *)
Theorem normalize_dataframe_only_renames df :
  rows (normalize_dataframe df) = rows df /\
  columns (normalize_dataframe df) = map (fun c => Py.lower (Py.strip c)) (columns df) /\
  columns (normalize_dataframe df) = get_column_names df /\
  normalize_dataframe (normalize_dataframe df) = normalize_dataframe df.
Proof.
  split; [apply normalize_fold_rows |].
  split; [apply normalize_dataframe_columns |].
  split; [apply normalize_dataframe_columns |].
  unfold normalize_dataframe at 1. apply normalize_fold_fixed.
  rewrite normalize_dataframe_columns. apply Forall_forall.
  intros c Hc. apply in_map_iff in Hc. destruct Hc as (c0 & <- & _).
  apply normalized_idem.
Qed.

Lemma positions_from_sound k name cols i :
  In i (positions_from k name cols) ->
  (k <= i)%nat /\ nth_error cols (i - k) = Some name.
Proof.
  revert k. induction cols as [| c cols IH]; intros k Hin; [destruct Hin |].
  simpl in Hin.
  assert (Hrest : In i (positions_from (S k) name cols) ->
                  (k <= i)%nat /\ nth_error (c :: cols) (i - k) = Some name).
  { intros H. apply IH in H. destruct H as (Hk & Hn). split; [lia |].
    replace (i - k)%nat with (S (i - S k)) by lia. exact Hn. }
  destruct (String.eqb c name) eqn:Hc; [| now apply Hrest].
  destruct Hin as [<- | Hin]; [| now apply Hrest].
  apply String.eqb_eq in Hc. subst c. rewrite Nat.sub_diag. now split.
Qed.

Lemma positions_from_complete name cols : forall k i,
  nth_error cols i = Some name -> In (k + i)%nat (positions_from k name cols).
Proof.
  induction cols as [| c cols IH]; intros k i Hn; [destruct i; discriminate |].
  destruct i as [| i]; simpl in *.
  - inversion Hn; subst. rewrite String.eqb_refl, Nat.add_0_r. now left.
  - specialize (IH (S k) i Hn). replace (k + S i)%nat with (S k + i)%nat by lia.
    destruct (String.eqb c name); [now right | assumption].
Qed.

Lemma resolve_Ok_nth cols name i :
  resolve cols name = Ok i -> nth_error cols i = Some name.
Proof.
  unfold resolve. destruct (positions_from 0 name cols) as [| i0 [| ? ?]] eqn:Hp;
    intros H; inversion H; subst.
  destruct (positions_from_sound 0 name cols i) as (_ & Hn);
    [rewrite Hp; now left |].
  now rewrite Nat.sub_0_r in Hn.
Qed.

(** A name that resolves is the name of one column only. *)
Lemma resolve_Ok_unique cols name i j :
  resolve cols name = Ok i -> nth_error cols j = Some name -> j = i.
Proof.
  unfold resolve. intros H Hj.
  apply (positions_from_complete name cols 0) in Hj. simpl in Hj.
  destruct (positions_from 0 name cols) as [| i0 [| ? ?]]; inversion H; subst.
  destruct Hj as [-> | []]. reflexivity.
Qed.

Lemma replace_named_keeps name v cols : forall r j,
  double_or_null v -> double_or_null (get j r) ->
  double_or_null (get j (replace_named name v cols r)).
Proof.
  induction cols as [| c cols IH]; intros r j Hv Hr; [exact Hr |].
  destruct r as [| x r]; [exact Hr |].
  destruct j as [| j]; simpl.
  - unfold get in *. simpl in *. now destruct (String.eqb c name).
  - unfold get in *. simpl in *. now apply IH.
Qed.

Lemma replace_named_sets name v cols : forall r i,
  double_or_null v -> nth_error cols i = Some name ->
  double_or_null (get i (replace_named name v cols r)).
Proof.
  induction cols as [| c cols IH]; intros r i Hv Hn; [destruct i; discriminate |].
  destruct r as [| x r]; [unfold get; now destruct i |].
  destruct i as [| i]; simpl in *.
  - inversion Hn; subst. unfold get. simpl. now rewrite String.eqb_refl.
  - unfold get in *. simpl. now apply IH.
Qed.

Section CleanTable.

Context {platform : Platform}.

Lemma cast_cell_double c : double_or_null (cast_cell DoubleType c).
Proof. unfold cast_cell. now destruct (as_double c). Qed.

Lemma fill_with_median_Ok names : forall df df',
  fill_with_median names df = Ok df' ->
  columns df' = columns df /\ List.length (rows df') = List.length (rows df).
Proof.
  induction names as [| n names IH]; intros df df' H; simpl in H.
  - inversion H. now split.
  - destruct (Py.mem n (columns df)); [| now apply IH].
    obind_inv H. obind_inv H. apply IH in H. destruct H as (Hc & Hl).
    unfold fillna in E0. obind_inv E0. inversion E0; subst. simpl in *.
    rewrite length_map in Hl. now split.
Qed.

Lemma dropna_Ok names df df' :
  dropna names df = Ok df' ->
  columns df' = columns df /\ (List.length (rows df') <= List.length (rows df))%nat.
Proof.
  unfold dropna. intros H. obind_inv H. inversion H; subst. simpl.
  split; [reflexivity | apply filter_length_le].
Qed.

Lemma withColumn_cast_cells c df df' i J :
  withColumn c (cast (col c) DoubleType) df = Ok df' ->
  resolve (columns df) c = Ok i ->
  doubles_at J df ->
  doubles_at (fun j => J j \/ j = i) df'.
Proof.
  unfold withColumn. simpl. intros H Hr HJ. rewrite Hr in H. simpl in H.
  assert (Hm : Py.mem c (columns df) = true)
    by (apply mem_In; exact (resolve_Ok_In _ _ _ Hr)).
  rewrite Hm in H. inversion H; subst. clear H.
  intros r' Hin j Hj. simpl in Hin. apply in_map_iff in Hin.
  destruct Hin as (r & <- & Hin).
  destruct Hj as [Hj | ->].
  - apply replace_named_keeps; [apply cast_cell_double | now apply (HJ r)].
  - apply replace_named_sets; [apply cast_cell_double |].
    exact (resolve_Ok_nth _ _ _ Hr).
Qed.

Lemma cast_to_double_cells names : forall df df' J,
  cast_to_double names df = Ok df' ->
  doubles_at J df ->
  doubles_at (fun j => J j \/ exists n, In n names /\ resolve (columns df) n = Ok j) df'.
Proof.
  induction names as [| n names IH]; intros df df' J H HJ; simpl in H.
  - inversion H; subst. intros r Hin j [Hj | (n & [] & _)]. now apply (HJ r).
  - obind_inv H.
    destruct (withColumn_cast_Ok _ _ _ E) as (Hc & (i & Hi) & _).
    pose proof (withColumn_cast_cells _ _ _ _ _ E Hi HJ) as H1.
    specialize (IH _ _ _ H H1).
    intros r Hin j Hj. apply (IH r Hin).
    destruct Hj as [Hj | (n0 & [<- | Hn0] & Hres)].
    + left. now left.
    + left. right. congruence.
    + right. exists n0. split; [assumption | now rewrite Hc].
Qed.

(** The table the cast loop returns. *)
Lemma clean_table_Ok df df' :
  clean_table df = Ok df' ->
  columns df' = get_column_names df /\
  (List.length (rows df') <= List.length (rows df))%nat /\
  (forall c, In c required -> exists i, resolve (get_column_names df) c = Ok i) /\
  doubles_at (fun j => exists c, In c required /\ resolve (get_column_names df) c = Ok j)
    df'.
Proof.
  unfold clean_table. intros H. obind_inv H. clear E.
  apply obind_Ok in H. destruct H as (d1 & Hfill & H).
  apply obind_Ok in H. destruct H as (d2 & Hdrop & H).
  apply fill_with_median_Ok in Hfill. destruct Hfill as (Hc1 & Hl1).
  apply dropna_Ok in Hdrop. destruct Hdrop as (Hc2 & Hl2).
  destruct (cast_to_double_Ok _ _ _ H) as (Hc3 & Hres & Hl3).
  assert (Hcols : columns d2 = get_column_names df).
  { rewrite Hc2, Hc1. apply normalize_dataframe_columns. }
  rewrite Hcols in *.
  split; [assumption | split; [| split; [exact Hres |]]].
  - rewrite Hl3. etransitivity; [exact Hl2 |]. rewrite Hl1.
    now rewrite normalize_dataframe_rows.
  - pose proof (cast_to_double_cells _ _ _ (fun _ => False) H) as Hcells.
    rewrite Hcols in Hcells.
    intros r Hin j (c & Hc & Hj). apply (Hcells ltac:(intros ? ? ? [])  r Hin).
    right. now exists c.
Qed.

(** X14.  A table that preprocessing lets through has the normalised column
    names of its input and no more rows than it; each of [age], [spend],
    [recency] and [frequency] names exactly one of its columns, and that
    column holds a double or null in every row. *)
Theorem preprocessed_table_shape df df'
  (Hclean : clean_table df = Ok df') :
  columns df' = get_column_names df /\
  (List.length (rows df') <= List.length (rows df))%nat /\
  forall c, In c required ->
    exists i,
      resolve (columns df') c = Ok i /\
      (forall j, nth_error (columns df') j = Some c -> j = i) /\
      Forall (fun r => double_or_null (get i r)) (rows df').
Proof.
  apply clean_table_Ok in Hclean. destruct Hclean as (Hcols & Hlen & Hres & Hcells).
  split; [assumption | split; [assumption |]].
  intros c Hc. destruct (Hres c Hc) as (i & Hi). exists i.
  rewrite Hcols. split; [assumption | split].
  - intros j Hj. exact (resolve_Ok_unique _ _ _ _ Hi Hj).
  - apply Forall_forall. intros r Hin. apply (Hcells r Hin). now exists c.
Qed.

(** X15.  The schema check looks for each required name among the
    normalised names but not for a second occurrence: a table in which two
    columns normalise to the same required name, and none is missing, passes
    the check and then fails in preprocessing with an analysis error of
    Spark. *)
Theorem ambiguous_column_fails_after_validation df c i j
  (Hreq : In c required)
  (Hmissing : missing_columns df = [])
  (Hi : nth_error (get_column_names df) i = Some c)
  (Hj : nth_error (get_column_names df) j = Some c)
  (Hij : i <> j) :
  validate_required_columns (normalize_dataframe df) = Ok true /\
  exists e, clean_table df = Raise e /\ exn_class e = "AnalysisException".
Proof.
  split.
  - apply validate_Ok_of_none_missing. now rewrite missing_columns_normalize.
  - destruct (clean_table df) as [df' | e] eqn:Hclean.
    + apply clean_table_Ok in Hclean. destruct Hclean as (_ & _ & Hres & _).
      destruct (Hres c Hreq) as (i0 & Hi0).
      pose proof (resolve_Ok_unique _ _ _ _ Hi0 Hi).
      pose proof (resolve_Ok_unique _ _ _ _ Hi0 Hj). congruence.
    + exists e. split; [reflexivity |].
      exact (clean_table_analysis_only df Hmissing e Hclean).
Qed.

End CleanTable.

(** X14, on the two customers of the scenario. *)
Lemma preprocessed_table_shape_witness :
  exists df',
    clean_table (platform := Reference.pyspark) Reference.customers = Ok df' /\
    columns df' = ["age"; "spend"; "recency"; "frequency"] /\
    (List.length (rows df') <= List.length (rows Reference.customers))%nat.
Proof.
  eexists. split; [evaluate_lhs |].
  pose proof (preprocessed_table_shape (platform := Reference.pyspark)
                Reference.customers _ ltac:(evaluate_lhs)) as H.
  exact (conj (proj1 H) (proj1 (proj2 H))).
Defined.

(** X15, on a table with the columns [ Age] and [age ]. *)
Lemma ambiguous_column_fails_after_validation_witness :
  validate_required_columns (normalize_dataframe Reference.two_ages) = Ok true /\
  exists e,
    clean_table (platform := Reference.pyspark) Reference.two_ages = Raise e /\
    exn_class e = "AnalysisException".
Proof.
  apply (ambiguous_column_fails_after_validation (platform := Reference.pyspark)
           Reference.two_ages "age" 0 1).
  - simpl. tauto.
  - reflexivity.
  - reflexivity.
  - reflexivity.
  - discriminate.
Defined.

(* ===================================================================== *)
(** ** Feature engineering *)
(* ===================================================================== *)

Section Features.

Context {platform : Platform}.

Lemma withColumn_Ok name c df df' :
  withColumn name c df = Ok df' ->
  columns df' = (if Py.mem name (columns df) then columns df
                 else columns df ++ [name]) /\
  List.length (rows df') = List.length (rows df) /\
  exists f, bind_column (columns df) c = Ok f.
Proof.
  unfold withColumn. intros H. apply obind_Ok in H. destruct H as (f & Hf & H).
  destruct (Py.mem name (columns df)); inversion H; subst; simpl;
    rewrite length_map; eauto.
Qed.

Lemma ensure_double_Ok names : forall df df',
  ensure_double names df = Ok df' ->
  columns df' = columns df /\ List.length (rows df') = List.length (rows df).
Proof.
  induction names as [| n names IH]; intros df df' H; simpl in H.
  - inversion H. now split.
  - destruct (Py.mem n (columns df)); [| now apply IH].
    obind_inv H. apply withColumn_cast_Ok in E. destruct E as (Hc & _ & Hl).
    apply IH in H. destruct H as (Hc' & Hl'). split; congruence.
Qed.

(** The columns a quotient [a / (b + 1)] of two named columns reads. *)
Lemma ratio_reads a b cols f :
  bind_column cols (c_div (col a) (c_add (col b) (lit 1))) = Ok f ->
  In a cols /\ In b cols.
Proof.
  simpl. intros H.
  destruct (resolve cols a) as [i |] eqn:Ha; [| discriminate].
  destruct (resolve cols b) as [j |] eqn:Hb; [| discriminate].
  split; eapply resolve_Ok_In; eassumption.
Qed.

Lemma age_group_reads cols f :
  bind_column cols (c_mul (cast (c_div (col "age") (lit 10)) IntegerType) (lit 10))
  = Ok f ->
  In "age" cols.
Proof.
  simpl. intros H.
  destruct (resolve cols "age") as [i |] eqn:Ha; [| discriminate].
  eapply resolve_Ok_In; eassumption.
Qed.

Lemma feature_engineering_Ok df jid dir w df' w' :
  feature_engineering df jid dir w = (Ok df', w') ->
  exists d1 d2 d3,
    ensure_double ["age"; "spend"; "recency"; "frequency"] df = Ok d1 /\
    (if negb (Py.mem "age_group" (columns d1))
     then withColumn "age_group"
            (c_mul (cast (c_div (col "age") (lit 10)) IntegerType) (lit 10)) d1
     else Ok d1) = Ok d2 /\
    withColumn "rf_ratio"
      (c_div (col "frequency") (c_add (col "recency") (lit 1))) d2 = Ok d3 /\
    withColumn "spend_per_purchase"
      (c_div (col "spend") (c_add (col "frequency") (lit 1))) d3 = Ok df'.
Proof.
  unfold feature_engineering. intros H. bind_inv H.
  apply bind_Ok in H. destruct H as (d1 & ? & H1 & H). apply lift_Ok in H1.
  destruct H1 as [H1 ->].
  apply bind_Ok in H. destruct H as (d2 & ? & H2 & H). apply lift_Ok in H2.
  destruct H2 as [H2 ->].
  apply bind_Ok in H. destruct H as (d3 & ? & H3 & H). apply lift_Ok in H3.
  destruct H3 as [H3 ->].
  apply bind_Ok in H. destruct H as (d4 & ? & H4 & H). apply lift_Ok in H4.
  destruct H4 as [H4 ->].
  bind_inv H. unfold ret in H. inversion H; subst.
  exists d1, d2, d3. now repeat split.
Qed.

(** X16.  On a table whose column names are in lower case, as they are
    after normalisation - there the exact comparison of names is Spark's
    comparison without regard to case - feature engineering keeps every row
    and every column of its input and appends, in this order, those of
    [age_group], [rf_ratio] and [spend_per_purchase] that the input does not
    have already; it returns only if the input has the columns [frequency],
    [recency] and [spend], and [age] as well when [age_group] has to be
    computed. *)
Theorem feature_engineering_appends_derived_columns df jid dir w df' w'
  (Hnames : lowercase_names df)
  (Hrun : feature_engineering df jid dir w = (Ok df', w')) :
  columns df' =
  columns df ++
  filter (fun c => negb (Py.mem c (columns df)))
    ["age_group"; "rf_ratio"; "spend_per_purchase"] /\
  List.length (rows df') = List.length (rows df) /\
  (forall c, In c ["frequency"; "recency"; "spend"] -> In c (columns df)) /\
  (~ In "age_group" (columns df) -> In "age" (columns df)).
Proof.
  apply feature_engineering_Ok in Hrun.
  destruct Hrun as (d1 & d2 & d3 & H1 & H2 & H3 & H4).
  apply ensure_double_Ok in H1. destruct H1 as (Hc1 & Hl1).
  apply withColumn_Ok in H3. destruct H3 as (Hc3 & Hl3 & f3 & Hf3).
  apply withColumn_Ok in H4. destruct H4 as (Hc4 & Hl4 & f4 & Hf4).
  apply ratio_reads in Hf3, Hf4.
  rewrite Hc1 in H2.
  assert (Hage : forall c, c <> "age_group" -> In c (columns d2) -> In c (columns df)).
  { intros c Hne Hin.
    destruct (Py.mem "age_group" (columns df)) eqn:Hag; simpl in H2.
    - inversion H2; subst. now rewrite <- Hc1.
    - apply withColumn_Ok in H2. destruct H2 as (Hc2 & _).
      rewrite Hc2, Hc1, Hag in Hin.
      apply in_app_or in Hin. destruct Hin as [Hin | [<- | []]];
        [assumption | congruence]. }
  assert (Hrf : forall c, c <> "age_group" -> c <> "rf_ratio" ->
                          In c (columns d3) -> In c (columns df)).
  { intros c Hn1 Hn2 Hin. apply (Hage c Hn1). rewrite Hc3 in Hin.
    destruct (Py.mem "rf_ratio" (columns d2)); [assumption |].
    apply in_app_or in Hin. destruct Hin as [Hin | [<- | []]];
      [assumption | congruence]. }
  split; [| split; [| split]].
  - assert (Hc2 : columns d2 = if Py.mem "age_group" (columns df) then columns df
                               else columns df ++ ["age_group"]).
    { destruct (Py.mem "age_group" (columns df)) eqn:Hag; simpl in H2.
      - inversion H2; subst. assumption.
      - apply withColumn_Ok in H2. destruct H2 as (Hc2 & _).
        now rewrite Hc1, Hag in Hc2. }
    rewrite Hc4, Hc3, Hc2.
    destruct (Py.mem "age_group" (columns df)) eqn:Hag,
             (Py.mem "rf_ratio" (columns df)) eqn:Hr,
             (Py.mem "spend_per_purchase" (columns df)) eqn:Hs;
      simpl; rewrite ?mem_app, ?Hag, ?Hr, ?Hs;
      simpl; rewrite ?mem_app, ?Hag, ?Hr, ?Hs;
      simpl; rewrite <- ?app_assoc, ?app_nil_r; reflexivity.
  - rewrite Hl4, Hl3, <- Hl1.
    destruct (negb (Py.mem "age_group" (columns df))).
    + apply withColumn_Ok in H2. tauto.
    + now inversion H2.
  - intros c [<- | [<- | [<- | []]]].
    + apply Hage; [discriminate | tauto].
    + apply Hage; [discriminate | tauto].
    + apply Hrf; [discriminate | discriminate | tauto].
  - intros Hno.
    assert (Hm : Py.mem "age_group" (columns df) = false).
    { destruct (Py.mem "age_group" (columns df)) eqn:Hm; [| reflexivity].
      apply mem_In in Hm. contradiction. }
    rewrite Hm in H2. simpl in H2. apply withColumn_Ok in H2.
    destruct H2 as (_ & _ & f & Hf). apply age_group_reads in Hf. now rewrite <- Hc1.
Qed.

End Features.

(** X16, on the twins. *)
Lemma feature_engineering_appends_derived_columns_witness :
  lowercase_names Reference.twins /\
  exists df' w',
    feature_engineering (platform := Reference.pyspark)
      Reference.twins "job_1" "status" Reference.empty_world = (Ok df', w') /\
    columns df' = ["age"; "spend"; "recency"; "frequency";
                   "age_group"; "rf_ratio"; "spend_per_purchase"] /\
    List.length (rows df') = 2%nat.
Proof.
  pose proof (feature_engineering_appends_derived_columns (platform := Reference.pyspark)
                Reference.twins "job_1" "status" Reference.empty_world
                _ _ ltac:(repeat constructor) ltac:(evaluate_lhs)) as H.
  split; [repeat constructor |].
  eexists _, _. split; [evaluate_lhs |].
  exact (conj (proj1 H) (proj1 (proj2 H))).
Defined.

(* ===================================================================== *)
(** ** The chart series *)
(* ===================================================================== *)

Lemma insert_sorted_perm x l : Permutation (x :: l) (insert_sorted x l).
Proof.
  induction l as [| y l IH]; simpl; [reflexivity |].
  destruct (x <=? y); [reflexivity |].
  rewrite perm_swap. now constructor.
Qed.

Lemma sorted_perm l : Permutation l (sorted l).
Proof.
  induction l as [| x l IH]; simpl; [constructor |].
  rewrite <- insert_sorted_perm. now constructor.
Qed.

Lemma insert_sorted_sorted x l :
  StronglySorted Z.le l -> StronglySorted Z.le (insert_sorted x l).
Proof.
  induction l as [| y l IH]; simpl; intros Hs.
  - repeat constructor.
  - inversion Hs as [| ? ? Hl Hy]; subst.
    destruct (x <=? y) eqn:Hxy.
    + apply Z.leb_le in Hxy. constructor; [assumption |].
      constructor; [assumption |].
      eapply Forall_impl; [| exact Hy]. simpl. intros; lia.
    + apply Z.leb_gt in Hxy. constructor; [now apply IH |].
      apply (Permutation_Forall (insert_sorted_perm x l)).
      constructor; [lia | assumption].
Qed.

Lemma sorted_sorted l : StronglySorted Z.le (sorted l).
Proof.
  induction l as [| x l IH]; simpl; [constructor |].
  now apply insert_sorted_sorted.
Qed.

(** Without repetition, ascending is strictly ascending. *)
Lemma sorted_strictly l : NoDup l -> StronglySorted Z.le l -> StronglySorted Z.lt l.
Proof.
  induction l as [| x l IH]; intros Hnd Hs; [constructor |].
  inversion Hnd as [| ? ? Hx Hnd']; subst.
  inversion Hs as [| ? ? Hl Hy]; subst.
  constructor; [now apply IH |].
  apply Forall_forall. intros y Hin.
  pose proof (proj1 (Forall_forall _ _) Hy y Hin) as Hle.
  assert (x <> y) by (intros ->; contradiction). lia.
Qed.

Lemma counts_set_fresh k v d :
  ~ In k (map fst d) -> counts_set k v d = d ++ [(k, v)].
Proof.
  induction d as [| [k' v'] d IH]; intros Hn; simpl; [reflexivity |].
  destruct (k' =? k) eqn:Hk.
  - apply Z.eqb_eq in Hk. subst. exfalso. apply Hn. now left.
  - rewrite IH; [reflexivity |]. intros Hin. apply Hn. now right.
Qed.

Lemma counts_get_map (g : Z -> Z) zs i :
  In i zs -> counts_get i (map (fun z => (z, g z)) zs) = Ok (g i).
Proof.
  induction zs as [| z zs IH]; intros Hin; [destruct Hin |].
  simpl. destruct (z =? i) eqn:Hz.
  - apply Z.eqb_eq in Hz. now subst.
  - destruct Hin as [-> | Hin]; [now rewrite Z.eqb_refl in Hz | now apply IH].
Qed.

Lemma counts_values_map (g : Z -> Z) zs : forall labels vs,
  (forall i, In i labels -> In i zs) ->
  counts_values (map (fun z => (z, g z)) zs) labels = Ok vs ->
  vs = map g labels.
Proof.
  induction labels as [| i labels IH]; intros vs Hsub H; simpl in H.
  - now inversion H.
  - rewrite (counts_get_map g zs i) in H by (apply Hsub; now left).
    simpl in H. obind_inv H. inversion H; subst. simpl. f_equal.
    apply IH; [| assumption]. intros j Hj. apply Hsub. now right.
Qed.

Lemma sum_perm (g : Z -> Z) l l' :
  Permutation l l' ->
  fold_right Z.add 0 (map g l) = fold_right Z.add 0 (map g l').
Proof. induction 1; simpl; lia. Qed.

Lemma combine_map_map {A B C} (f : A -> B) (g : A -> C) (l : list A) :
  combine (map f l) (map g l) = map (fun a => (f a, g a)) l.
Proof. induction l as [| a l IH]; simpl; [reflexivity | now rewrite IH]. Qed.

Section ChartFacts.

Context {platform : Platform} {pandas : Pandas}.

(** The dictionary of the counts: its keys are integers, and when they are
    distinct it has one entry for each group, in the order of the groups. *)
Lemma counts_dict_Ok (h : cell -> Z) : forall keys d d',
  counts_dict (map (fun key => (key, h key)) keys) d = Ok d' ->
  exists zs,
    keys = map Int zs /\
    (NoDup (map fst d ++ zs) -> d' = d ++ map (fun z => (z, h (Int z))) zs).
Proof.
  induction keys as [| key keys IH]; intros d d' H; simpl in H.
  - inversion H; subst. exists []. split; [reflexivity |].
    intros _. simpl. now rewrite app_nil_r.
  - obind_inv H. apply py_int_Ok in E. subst key.
    apply IH in H. destruct H as (zs & -> & Hd).
    exists (x :: zs). split; [reflexivity |].
    intros Hnd.
    assert (Hfresh : ~ In x (map fst d)).
    { intros Hin. apply NoDup_remove_2 in Hnd. apply Hnd.
      apply in_or_app. now left. }
    rewrite (counts_set_fresh _ _ _ Hfresh) in Hd.
    rewrite Hd.
    + simpl. now rewrite <- app_assoc.
    + rewrite map_app, <- app_assoc. exact Hnd.
Qed.

Lemma scatter_points_of_Ok pd_rows : forall points,
  scatter_points_of pd_rows = Ok points ->
  Forall2
    (fun row point =>
       item_float (get 0 row) = Ok (fst (fst point)) /\
       item_float (get 1 row) = Ok (snd (fst point)) /\
       item_int (get 2 row) = Ok (snd point))
    pd_rows points.
Proof.
  induction pd_rows as [| row rest IH]; intros points H; simpl in H.
  - inversion H. constructor.
  - do 4 obind_inv H. inversion H; subst. constructor; [now repeat split |].
    now apply IH.
Qed.

Lemma Forall2_map_l {A B C} (f : A -> B) (P : B -> C -> Prop) l : forall l',
  Forall2 P (map f l) l' -> Forall2 (fun a c => P (f a) c) l l'.
Proof.
  induction l as [| a l IH]; intros l' H; inversion H; subst; constructor; auto.
Qed.

Lemma radar_data_of_Ok profiles : forall radar,
  radar_data_of profiles = Ok radar ->
  map p_cluster profiles = map (fun p => Int (radar_cluster p)) radar.
Proof.
  induction profiles as [| row rest IH]; intros radar H; simpl in H.
  - now inversion H.
  - obind_inv H. apply py_int_Ok in E. do 5 obind_inv H.
    inversion H; subst. simpl. rewrite E. f_equal. now apply IH.
Qed.

Lemma agg_avg_None l :
  agg_avg l = None <-> forall c, In c l -> as_double c = None.
Proof.
  unfold agg_avg, doubles. split.
  - intros H c Hin.
    destruct (flat_map _ l) as [| x xs] eqn:Hd; [| discriminate].
    destruct (as_double c) as [y |] eqn:Hc; [| reflexivity].
    assert (Hy : In y (flat_map (fun c => match as_double c with
                                          | Some x => [x] | None => [] end) l)).
    { apply in_flat_map. exists c. split; [assumption |]. rewrite Hc. now left. }
    rewrite Hd in Hy. destruct Hy.
  - intros H.
    assert (Hd : flat_map (fun c => match as_double c with
                                    | Some x => [x] | None => [] end) l = []).
    { induction l as [| c l IH]; [reflexivity |]. simpl.
      rewrite (H c) by now left. simpl. apply IH. intros c' Hc'. apply H. now right. }
    now rewrite Hd.
Qed.

(** The line chart, given where [age] and [spend] are. *)
Lemma line_data_of_Ok df ia isp :
  resolve (columns df) "age" = Ok ia ->
  resolve (columns df) "spend" = Ok isp ->
  forall ranges,
    line_data_of ranges df =
    Ok (flat_map
          (fun range =>
             match bracket_mean ia isp df range with
             | Some y => [(range_label range, y)]
             | None => []
             end)
          ranges).
Proof.
  intros Ha Hs. induction ranges as [| [start stop] ranges IH]; [reflexivity |].
  simpl. unfold filter_age, agg. rewrite Ha. simpl. rewrite Hs. simpl.
  rewrite IH. simpl. unfold bracket_mean, column_values. simpl.
  now destruct (agg_avg _).
Qed.

Lemma line_data_of_inv df ia isp ranges line :
  resolve (columns df) "age" = Ok ia ->
  resolve (columns df) "spend" = Ok isp ->
  line_data_of ranges df = Ok line ->
  line = flat_map
           (fun range =>
              match bracket_mean ia isp df range with
              | Some y => [(range_label range, y)]
              | None => []
              end)
           ranges.
Proof.
  intros Ha Hs H. rewrite (line_data_of_Ok df ia isp Ha Hs) in H. now inversion H.
Qed.

(** The series of a chart that could be computed. *)
Lemma chart_series_of_Ok df chart :
  chart_series_of df = Ok chart ->
  exists ic ia isp zs pd_df profiles,
    resolve (columns df) "cluster" = Ok ic /\
    resolve (columns df) "age" = Ok ia /\
    resolve (columns df) "spend" = Ok isp /\
    distinct_keys [] (column_values ic df) = map Int zs /\
    clusterCounts chart =
    map (fun i => ("Cluster " +++ Py.str_int i,
                   Z.of_nat (group_size (Int i) (column_values ic df))))
      (sorted zs) /\
    rows pd_df = map (fun r => [get ia r; get isp r; get ic r]) (rows df) /\
    scatter_points_of (firstn 1000 (rows pd_df)) = Ok (scatterPlot chart) /\
    line_data_of age_ranges df = Ok (lineChart chart) /\
    map p_cluster profiles = map Int zs /\
    radar_data_of profiles = Ok (radarChart chart).
Proof.
  intros H. unfold chart_series_of in H.
  apply obind_Ok in H. destruct H as (counts & Hcounts & H).
  apply obind_Ok in H. destruct H as (dict & Hdict & H). cbv zeta in H.
  apply obind_Ok in H. destruct H as (values & Hvalues & H).
  apply obind_Ok in H. destruct H as (pd_df & Hsel & H).
  apply obind_Ok in H. destruct H as (points & Hpoints & H).
  apply obind_Ok in H. destruct H as (line & Hline & H).
  apply obind_Ok in H. destruct H as (profiles & Hprof & H).
  apply obind_Ok in H. destruct H as (radar & Hradar & H).
  inversion H; subst chart. clear H. cbn [clusterCounts scatterPlot lineChart radarChart].
  unfold cluster_counts_of in Hcounts.
  apply obind_Ok in Hcounts. destruct Hcounts as (ic & Hic & Hcounts).
  inversion Hcounts; subst counts. clear Hcounts.
  apply (counts_dict_Ok
           (fun key => Z.of_nat (List.length
                         (filter (fun r => cell_eqb (get ic r) key) (rows df)))))
    in Hdict.
  destruct Hdict as (zs & Hkeys & Hd).
  destruct (distinct_keys_NoDup _ _ _ Hkeys) as (Hnd & _).
  specialize (Hd Hnd). simpl in Hd. subst dict.
  assert (Hfst : forall g : Z -> Z, map fst (map (fun z => (z, g z)) zs) = zs)
    by (intros g; rewrite map_map; simpl; apply map_id).
  rewrite Hfst in Hvalues |- *.
  apply (counts_values_map
           (fun z => Z.of_nat (List.length
                        (filter (fun r => cell_eqb (get ic r) (Int z)) (rows df)))))
    in Hvalues;
    [| intros i Hi; exact (Permutation_in _ (Permutation_sym (sorted_perm zs)) Hi)].
  subst values. rewrite combine_map_map.
  unfold select in Hsel. simpl in Hsel.
  destruct (resolve (columns df) "age") as [ia |] eqn:Ha; [| discriminate].
  destruct (resolve (columns df) "spend") as [isp |] eqn:Hs; [| discriminate].
  simpl in Hsel. rewrite Hic in Hsel. simpl in Hsel.
  inversion Hsel; subst pd_df. clear Hsel.
  unfold cluster_profiles_of in Hprof. rewrite Hic, Ha, Hs in Hprof. simpl in Hprof.
  do 2 obind_inv Hprof. inversion Hprof; subst profiles. clear Hprof.
  eexists ic, ia, isp, zs,
    (mkDataFrame ["age"; "spend"; "cluster"]
       (map (fun r => [get ia r; get isp r; get ic r]) (rows df))), _.
  split; [exact Hic | split; [reflexivity | split; [reflexivity |]]].
  split; [exact Hkeys | split].
  { apply map_ext. intros i. do 2 f_equal.
    unfold group_size, column_values.
    exact (filter_map_length (get ic) (fun c => cell_eqb c (Int i)) (rows df)). }
  split; [reflexivity |].
  split; [exact Hpoints | split; [exact Hline | split; [| exact Hradar]]].
  rewrite map_map. simpl. rewrite map_id. exact Hkeys.
Qed.

(** X17.  The bar chart counts every row once: its labels are [Cluster i]
    for the ids [i] that occur in the [cluster] column, in strictly
    ascending order, the value under each label is the number of rows with
    that id, and the values add up to the number of rows of the table. *)
Theorem chart_counts_every_row_once df chart
  (Hchart : chart_series_of df = Ok chart) :
  exists ic ids,
    resolve (columns df) "cluster" = Ok ic /\
    StronglySorted Z.lt ids /\
    (forall z, In z ids <-> In (Int z) (column_values ic df)) /\
    clusterCounts chart =
    map (fun i => ("Cluster " +++ Py.str_int i,
                   Z.of_nat (group_size (Int i) (column_values ic df)))) ids /\
    fold_right Z.add 0 (map snd (clusterCounts chart))
    = Z.of_nat (List.length (rows df)).
Proof.
  destruct (chart_series_of_Ok _ _ Hchart)
    as (ic & ia & isp & zs & pd & profiles & Hic & _ & _ & Hkeys & Hcounts & _).
  pose proof (sorted_perm zs) as Hperm.
  destruct (distinct_keys_NoDup _ _ _ Hkeys) as (Hnd & _).
  exists ic, (sorted zs). split; [assumption | split; [| split; [| split]]].
  - apply sorted_strictly; [| apply sorted_sorted].
    exact (Permutation_NoDup Hperm Hnd).
  - intros z. split.
    + intros Hin. apply (Permutation_in _ (Permutation_sym Hperm)) in Hin.
      apply (distinct_keys_In [] _ (Int z)). rewrite Hkeys. now apply in_map.
    + intros Hin. apply (Permutation_in _ Hperm).
      destruct (distinct_keys_covers z _ [] Hin) as [Hs' | Hk']; [discriminate |].
      rewrite Hkeys in Hk'. apply in_map_iff in Hk'.
      destruct Hk' as (z' & Hz & Hin'). now inversion Hz; subst.
  - assumption.
  - rewrite Hcounts, map_map. cbn [snd].
    rewrite <- (sum_perm
                  (fun i => Z.of_nat (group_size (Int i) (column_values ic df)))
                  _ _ Hperm).
    rewrite sum_of_nat.
    pose proof (group_sizes_partition _ _ _ Hkeys) as Hpart.
    simpl in Hpart. rewrite filter_false_length, Nat.add_0_r in Hpart.
    rewrite Hpart. unfold column_values. now rewrite length_map.
Qed.

Lemma flat_map_short {A B} (f : A -> list B) (l : list A) :
  (forall a, (List.length (f a) <= 1)%nat) ->
  (List.length (flat_map f l) <= List.length l)%nat.
Proof.
  intros Hf. induction l as [| a l IH]; simpl; [lia |].
  rewrite length_app. specialize (Hf a). lia.
Qed.

Lemma map_Int_inj l l' : map Int l = map Int l' -> l = l'.
Proof.
  revert l'. induction l as [| z l IH]; intros [| z' l'] H; try discriminate;
    [reflexivity |].
  simpl in H. inversion H. f_equal. now apply IH.
Qed.

(** X18.  The scatter plot has exactly one point for each of the first 1000
    rows, in their order: the age, the spend and the cluster of that row as
    pandas converts them, so it has min(1000, rows) points.  The line chart
    has at most six points.  The radar chart has one entry for each cluster
    id that occurs in the [cluster] column and for nothing else, hence as
    many entries as the bar chart has bars. *)
Theorem chart_points_and_radar_entries df chart
  (Hchart : chart_series_of df = Ok chart) :
  (exists ia isp ic,
      resolve (columns df) "age" = Ok ia /\
      resolve (columns df) "spend" = Ok isp /\
      resolve (columns df) "cluster" = Ok ic /\
      Forall2
        (fun r point =>
           item_float (get ia r) = Ok (fst (fst point)) /\
           item_float (get isp r) = Ok (snd (fst point)) /\
           item_int (get ic r) = Ok (snd point))
        (firstn 1000 (rows df)) (scatterPlot chart) /\
      NoDup (map radar_cluster (radarChart chart)) /\
      forall z, In z (map radar_cluster (radarChart chart)) <->
                In (Int z) (column_values ic df)) /\
  List.length (scatterPlot chart) = Nat.min 1000 (List.length (rows df)) /\
  (List.length (lineChart chart) <= 6)%nat /\
  List.length (radarChart chart) = List.length (clusterCounts chart).
Proof.
  destruct (chart_series_of_Ok _ _ Hchart)
    as (ic & ia & isp & zs & pd & profiles & Hic & Ha & Hs & Hkeys & Hcounts &
        Hrows & Hpoints & Hline & Hprof & Hradar).
  apply scatter_points_of_Ok in Hpoints.
  rewrite Hrows, firstn_map in Hpoints. apply Forall2_map_l in Hpoints.
  cbv beta in Hpoints. unfold get at 1 3 5 in Hpoints. cbn [nth] in Hpoints.
  apply radar_data_of_Ok in Hradar. rewrite Hprof in Hradar.
  assert (Hids : map radar_cluster (radarChart chart) = zs).
  { symmetry. apply map_Int_inj. now rewrite Hradar, map_map. }
  apply (line_data_of_inv df ia isp _ _ Ha Hs) in Hline.
  destruct (distinct_keys_NoDup _ _ _ Hkeys) as (Hnd & _).
  split; [| split; [| split]].
  - exists ia, isp, ic. rewrite Hids.
    split; [assumption | split; [assumption | split; [assumption |]]].
    split; [exact Hpoints | split; [exact Hnd |]].
    intros z. split.
    + intros Hin. apply (distinct_keys_In [] _ (Int z)). rewrite Hkeys.
      now apply in_map.
    + intros Hin.
      destruct (distinct_keys_covers z _ [] Hin) as [Hs' | Hk']; [discriminate |].
      rewrite Hkeys in Hk'. apply in_map_iff in Hk'.
      destruct Hk' as (z' & Hz & Hin'). now inversion Hz; subst.
  - rewrite <- (Forall2_length Hpoints), length_firstn. reflexivity.
  - rewrite Hline. change 6%nat with (List.length age_ranges). apply flat_map_short.
    intros range. destruct (bracket_mean ia isp df range); simpl; lia.
  - apply (f_equal (@List.length Z)) in Hids. rewrite length_map in Hids.
    rewrite Hids, Hcounts, length_map.
    exact (Permutation_length (sorted_perm zs)).
Qed.

(** X19.  The line chart lists the age brackets 20-30, ..., 70-80 that are
    populated, in ascending order and under the label [start-end]: a bracket
    is listed exactly when some row has its age in it - from [start] on and
    below [end]; a null or NaN age is in no bracket - and a spend that is
    not null; the value of a listed bracket is the mean spend of its
    rows. *)
Theorem line_chart_lists_populated_brackets df chart
  (Hchart : chart_series_of df = Ok chart) :
  exists ia isp,
    resolve (columns df) "age" = Ok ia /\
    resolve (columns df) "spend" = Ok isp /\
    map fst (lineChart chart)
    = map range_label
        (filter (fun range => match bracket_mean ia isp df range with
                              | Some _ => true
                              | None => false
                              end) age_ranges) /\
    (forall label y,
        In (label, y) (lineChart chart) <->
        exists range,
          In range age_ranges /\ label = range_label range /\
          bracket_mean ia isp df range = Some y) /\
    (forall range,
        (exists y, bracket_mean ia isp df range = Some y) <->
        exists r,
          In r (rows df) /\
          in_age_range (fst range) (snd range) (get ia r) = true /\
          as_double (get isp r) <> None).
Proof.
  destruct (chart_series_of_Ok _ _ Hchart)
    as (ic & ia & isp & zs & pd & profiles & _ & Ha & Hs & _ & _ & _ & _ & Hline & _).
  apply (line_data_of_inv df ia isp _ _ Ha Hs) in Hline.
  rewrite Hline. clear Hline.
  exists ia, isp. split; [assumption | split; [assumption | split; [| split]]].
  - induction age_ranges as [| range ranges IH]; [reflexivity |].
    simpl. destruct (bracket_mean ia isp df range); simpl; now rewrite IH.
  - intros label y. rewrite in_flat_map. split.
    + intros (range & Hin & Hy). exists range.
      destruct (bracket_mean ia isp df range) as [y0 |]; [| destruct Hy].
      destruct Hy as [Hy | []]. inversion Hy; subst. now repeat split.
    + intros (range & Hin & -> & Hy). exists range. split; [assumption |].
      rewrite Hy. now left.
  - intros range. unfold bracket_mean. split.
    + intros (y & Hy).
      destruct (agg_avg_None
                  (map (get isp)
                     (filter (fun r => in_age_range (fst range) (snd range) (get ia r))
                        (rows df)))) as (_ & Hnone).
      assert (Hex : ~ forall c,
                 In c (map (get isp)
                         (filter (fun r => in_age_range (fst range) (snd range)
                                             (get ia r)) (rows df))) ->
                 as_double c = None).
      { intros Hall. rewrite (Hnone Hall) in Hy. discriminate. }
      clear Hnone Hy.
      induction (rows df) as [| r l IH].
      * exfalso. apply Hex. intros c [].
      * simpl in Hex.
        destruct (in_age_range (fst range) (snd range) (get ia r)) eqn:Hr.
        -- destruct (as_double (get isp r)) as [v |] eqn:Hv.
           ++ exists r. split; [now left | split; [assumption | congruence]].
           ++ destruct IH as (r' & Hin & Hr' & Hv').
              ** intros Hall. apply Hex. intros c [<- | Hc]; [assumption | now apply Hall].
              ** exists r'. split; [now right | now split].
        -- destruct IH as (r' & Hin & Hr' & Hv'); [assumption |].
           exists r'. split; [now right | now split].
    + intros (r & Hin & Hr & Hv).
      destruct (agg_avg _) as [y |] eqn:Hy; [now exists y |].
      exfalso. apply Hv. apply (proj1 (agg_avg_None _) Hy).
      apply in_map. apply filter_In. now split.
Qed.

End ChartFacts.

(** X17, on the two clustered customers. *)
Lemma chart_counts_every_row_once_witness :
  exists chart,
    chart_series_of (platform := Reference.pyspark) (pandas := reference_pandas)
      Reference.clustered_customers = Ok chart /\
    clusterCounts chart = [("Cluster 0", 1); ("Cluster 1", 1)] /\
    fold_right Z.add 0 (map snd (clusterCounts chart))
    = Z.of_nat (List.length (rows Reference.clustered_customers)).
Proof.
  eexists. split; [evaluate_lhs |]. split; [reflexivity |].
  destruct (chart_counts_every_row_once
              (platform := Reference.pyspark) (pandas := reference_pandas)
              Reference.clustered_customers _ ltac:(evaluate_lhs))
    as (ic & ids & _ & _ & _ & _ & Hsum).
  exact Hsum.
Defined.

(** X18, on the two clustered customers. *)
Lemma chart_points_and_radar_entries_witness :
  exists chart,
    chart_series_of (platform := Reference.pyspark) (pandas := reference_pandas)
      Reference.clustered_customers = Ok chart /\
    map (fun point => snd point) (scatterPlot chart) = [0; 1] /\
    List.length (scatterPlot chart)
    = Nat.min 1000 (List.length (rows Reference.clustered_customers)) /\
    List.length (radarChart chart) = List.length (clusterCounts chart).
Proof.
  eexists. split; [evaluate_lhs |]. split; [reflexivity |].
  pose proof (chart_points_and_radar_entries
                (platform := Reference.pyspark) (pandas := reference_pandas)
                Reference.clustered_customers _ ltac:(evaluate_lhs)) as H.
  exact (conj (proj1 (proj2 H)) (proj2 (proj2 (proj2 H)))).
Defined.

(** X19, on the two clustered customers, aged 25 and 60. *)
Lemma line_chart_lists_populated_brackets_witness :
  exists chart,
    chart_series_of (platform := Reference.pyspark) (pandas := reference_pandas)
      Reference.clustered_customers = Ok chart /\
    map fst (lineChart chart) = ["20-30"; "60-70"] /\
    exists ia isp,
      map fst (lineChart chart)
      = map range_label
          (filter (fun range =>
                     match bracket_mean (platform := Reference.pyspark) ia isp
                             Reference.clustered_customers range with
                     | Some _ => true
                     | None => false
                     end) age_ranges).
Proof.
  eexists. split; [evaluate_lhs |]. split; [reflexivity |].
  destruct (line_chart_lists_populated_brackets
              (platform := Reference.pyspark) (pandas := reference_pandas)
              Reference.clustered_customers _ ltac:(evaluate_lhs))
    as (ia & isp & _ & _ & Hlabels & _).
  exists ia, isp. exact Hlabels.
Defined.

Section ChartFile.

Context {platform : Platform} {pandas : Pandas}.

(** X20.  On a platform whose chart series are computed as
    [generate_chart_data] computes them, and with a writable status file,
    the chart stage either returns the series and leaves them in
    [chart_data.json], or raises what their computation raises and writes no
    result file; when the results directory cannot be written, it raises and
    writes nothing either. *)
Theorem chart_file_holds_the_series df rdir jid dir w
  (Hseries : forall d, chart_series d = chart_series_of d)
  (Hopen : open_w dir (jid +++ ".json") = None) :
  let run := generate_chart_data df rdir jid dir w in
  match chart_series_of df, open_w rdir "chart_data.json" with
  | Ok chart, None =>
      fst run = Ok chart /\
      read_artifact rdir "chart_data.json" (snd run) = Some (ChartJson chart)
  | Ok _, Some e | Raise e, _ =>
      fst run = Raise e /\ result_files (snd run) = result_files w
  end.
Proof.
  cbv zeta. unfold generate_chart_data, bind, lift, log_progress, write_json, ret.
  rewrite Hopen, Hseries.
  destruct (chart_series_of df) as [chart | e]; [| now split].
  destruct (open_w rdir "chart_data.json") as [e |]; [now split |].
  split; [reflexivity |].
  apply (read_artifact_last _ _ _ _ (result_files w)). reflexivity.
Qed.

End ChartFile.

(** X20, on the two clustered customers. *)
Lemma chart_file_holds_the_series_witness :
  let run :=
    generate_chart_data (platform := charting)
      Reference.clustered_customers "results" "job_1" "status" Reference.empty_world in
  exists chart,
    fst run = Ok chart /\
    read_artifact "results" "chart_data.json" (snd run) = Some (ChartJson chart) /\
    map fst (clusterCounts chart) = ["Cluster 0"; "Cluster 1"].
Proof.
  pose proof (chart_file_holds_the_series (platform := charting)
                (pandas := reference_pandas)
                Reference.clustered_customers "results" "job_1" "status"
                Reference.empty_world (fun d => eq_refl) eq_refl) as H.
  cbv zeta in *.
  destruct (chart_series_of (platform := charting) (pandas := reference_pandas)
              Reference.clustered_customers) as [chart | e] eqn:Hc;
    [| vm_compute in Hc; discriminate].
  change (open_w "results" "chart_data.json") with (@None exn) in H.
  exists chart. split; [exact (proj1 H) | split; [exact (proj2 H) |]].
  vm_compute in Hc. inversion Hc. reflexivity.
Defined.

(* ===================================================================== *)
(** ** A cluster without a mean *)
(* ===================================================================== *)

Section MissingMeans.

Context {platform : Platform}.

Lemma py_float_Raise x e : py_float x = Raise e -> exn_class e = "TypeError".
Proof. destruct x; simpl; intros H; inversion H; reflexivity. Qed.

Lemma py_int_Raise c e : py_int c = Raise e -> exn_class e = "TypeError".
Proof. destruct c; simpl; intros H; inversion H; reflexivity. Qed.

Lemma cluster_info_of_Raise row e :
  cluster_info_of row = Raise e -> exn_class e = "TypeError".
Proof.
  unfold cluster_info_of, get_cluster_description.
  destruct (py_int (r_cluster row)) eqn:H0; simpl;
    [| intros H; inversion H; subst; eauto using py_int_Raise].
  destruct (r_avg_age row), (r_avg_spend row), (r_avg_recency row),
    (r_avg_frequency row), (r_min_spend row), (r_max_spend row);
    simpl; intros H; inversion H; reflexivity.
Qed.

Lemma collect_clusters_Raise stats : forall acc total e,
  collect_clusters stats acc total = Raise e -> exn_class e = "TypeError".
Proof.
  induction stats as [| row stats IH]; intros acc total e H; simpl in H;
    [discriminate |].
  destruct (cluster_info_of row) as [info | e0] eqn:Hrow; simpl in H.
  - exact (IH _ _ _ H).
  - inversion H; subst. exact (cluster_info_of_Raise _ _ Hrow).
Qed.

(** An entry can be built only from a row with its four means. *)
Lemma cluster_info_of_means row info :
  cluster_info_of row = Ok info ->
  r_avg_age row <> None /\ r_avg_spend row <> None /\
  r_avg_recency row <> None /\ r_avg_frequency row <> None.
Proof.
  unfold cluster_info_of. intros H. obind_inv H. do 4 obind_inv H.
  repeat match goal with
         | Hf : py_float _ = Ok _ |- _ => apply py_float_Ok in Hf; rewrite Hf
         end.
  repeat split; discriminate.
Qed.

Lemma collect_clusters_means stats : forall acc total r,
  collect_clusters stats acc total = Ok r ->
  Forall (fun row => r_avg_age row <> None /\ r_avg_spend row <> None /\
                     r_avg_recency row <> None /\ r_avg_frequency row <> None)
    stats.
Proof.
  induction stats as [| row stats IH]; intros acc total r H; simpl in H;
    [constructor |].
  obind_inv H. constructor; [exact (cluster_info_of_means _ _ E) | exact (IH _ _ _ H)].
Qed.

(** X21.  The profile needs the four means of every cluster: when all
    members of some cluster lack a value in one of [age], [spend],
    [recency] and [frequency], [generate_segment_profiles] raises a
    [TypeError] - the mean of that cluster is null and [float] rejects it -
    and writes no profile, although the aggregation itself succeeded. *)
Theorem profile_needs_the_means_of_every_cluster df rdir jid dir w stats ic c i z r0
  (Hopen : open_w dir (jid +++ ".json") = None)
  (Hstats : cluster_stats_of df = Ok stats)
  (Hic : resolve (columns df) "cluster" = Ok ic)
  (Hc : In c ["age"; "spend"; "recency"; "frequency"])
  (Hi : resolve (columns df) c = Ok i)
  (Hmember : In r0 (rows df) /\ get ic r0 = Int z)
  (Hnull : forall r, In r (rows df) -> get ic r = Int z -> as_double (get i r) = None) :
  let run := generate_segment_profiles df rdir jid dir w in
  exists e,
    fst run = Raise e /\ exn_class e = "TypeError" /\
    result_files (snd run) = result_files w.
Proof.
  cbv zeta.
  unfold generate_segment_profiles, bind, lift, log_progress.
  rewrite Hopen, Hstats.
  destruct (collect_clusters stats [] 0) as [acc | e] eqn:Hacc.
  - exfalso. apply collect_clusters_means in Hacc.
    unfold cluster_stats_of in Hstats. rewrite Hic in Hstats. simpl in Hstats.
    do 4 obind_inv Hstats. inversion Hstats; subst stats. clear Hstats.
    destruct Hmember as (Hin0 & Hz).
    assert (Hkey : In (Int z) (distinct_keys [] (column_values ic df))).
    { destruct (distinct_keys_covers z (column_values ic df) []) as [Hs | Hk];
        [| discriminate | assumption].
      unfold column_values. rewrite <- Hz. now apply in_map. }
    rewrite Forall_forall in Hacc.
    specialize (Hacc _ (in_map _ _ _ Hkey)). cbn beta iota zeta delta
      [r_avg_age r_avg_spend r_avg_recency r_avg_frequency] in Hacc.
    assert (Hnone : agg_avg
                      (map (get i)
                         (filter (fun r => cell_eqb (get ic r) (Int z)) (rows df)))
                    = None).
    { apply agg_avg_None. intros cl Hcl. apply in_map_iff in Hcl.
      destruct Hcl as (r & <- & Hr). apply filter_In in Hr. destruct Hr as (Hr & Heq).
      apply cell_eqb_Int_r in Heq. now apply Hnull. }
    destruct Hacc as (Ha & Hs & Hr & Hf).
    simpl in Hc. destruct Hc as [<- | [<- | [<- | [<- | []]]]].
    + rewrite Hi in E. inversion E; subst. contradiction.
    + rewrite Hi in E0. inversion E0; subst. contradiction.
    + rewrite Hi in E1. inversion E1; subst. contradiction.
    + rewrite Hi in E2. inversion E2; subst. contradiction.
  - exists e. simpl. split; [reflexivity | split; [| reflexivity]].
    exact (collect_clusters_Raise _ _ _ _ Hacc).
Qed.

End MissingMeans.

(** X21, on two clustered customers of whom the second has no age. *)
Lemma profile_needs_the_means_of_every_cluster_witness :
  let run :=
    generate_segment_profiles (platform := Reference.pyspark)
      Reference.clustered_null_age "results" "job_1" "status" Reference.empty_world in
  exists e,
    fst run = Raise e /\ exn_class e = "TypeError" /\
    result_files (snd run) = result_files Reference.empty_world.
Proof.
  refine (profile_needs_the_means_of_every_cluster (platform := Reference.pyspark)
            Reference.clustered_null_age "results" "job_1" "status"
            Reference.empty_world _ 4%nat "age" 0%nat 1
            [Null; Num 2000; Num 2; Num 20; Int 1] eq_refl _ eq_refl _ eq_refl _ _).
  - evaluate_lhs.
  - simpl. tauto.
  - split; [simpl; tauto | reflexivity].
  - intros r [<- | [<- | []]]; [discriminate | reflexivity].
Defined.

(* ===================================================================== *)
(** ** Feature engineering after preprocessing *)
(* ===================================================================== *)

Lemma positions_from_app_other name n cols : forall k,
  n <> name -> positions_from k name (cols ++ [n]) = positions_from k name cols.
Proof.
  induction cols as [| c cols IH]; intros k Hne; simpl.
  - destruct (String.eqb n name) eqn:Hn; [| reflexivity].
    apply String.eqb_eq in Hn. contradiction.
  - rewrite (IH (S k) Hne). reflexivity.
Qed.

Lemma resolve_app_other name n cols :
  n <> name -> resolve (cols ++ [n]) name = resolve cols name.
Proof. intros Hne. unfold resolve. now rewrite positions_from_app_other. Qed.

Section FeaturesAfterPreprocessing.

Context {platform : Platform}.

Lemma ensure_double_total names : forall df,
  (forall n, In n names -> exists i, resolve (columns df) n = Ok i) ->
  exists df', ensure_double names df = Ok df' /\ columns df' = columns df.
Proof.
  induction names as [| n names IH]; intros df Hres; simpl.
  - now exists df.
  - destruct (Hres n (or_introl eq_refl)) as (i & Hi).
    assert (Hm : Py.mem n (columns df) = true)
      by (apply mem_In; exact (resolve_Ok_In _ _ _ Hi)).
    rewrite Hm. unfold withColumn at 1. simpl. rewrite Hi. simpl. rewrite Hm. simpl.
    match goal with
    | |- exists df', ensure_double names ?d = _ /\ _ =>
        destruct (IH d) as (df' & Hd & Hc)
    end.
    + simpl. intros m Hin. apply Hres. now right.
    + exists df'. split; [assumption | exact Hc].
Qed.

Lemma withColumn_ratio_total name a b df :
  (exists i, resolve (columns df) a = Ok i) ->
  (exists i, resolve (columns df) b = Ok i) ->
  exists df',
    withColumn name (c_div (col a) (c_add (col b) (lit 1))) df = Ok df' /\
    columns df' = if Py.mem name (columns df) then columns df
                  else columns df ++ [name].
Proof.
  intros (ia & Ha) (ib & Hb). unfold withColumn. simpl. rewrite Ha, Hb. simpl.
  destruct (Py.mem name (columns df)); eexists; split; reflexivity.
Qed.

(** X22.  Feature engineering cannot fail on a table that preprocessing has
    let through: when the status file is writable it returns, for every
    table [clean_table] returns, whether or not that table brings columns
    named [age_group], [rf_ratio] or [spend_per_purchase]. *)
Theorem feature_engineering_returns_after_preprocessing df0 df jid dir w
  (Hopen : open_w dir (jid +++ ".json") = None)
  (Hclean : clean_table df0 = Ok df) :
  exists df' w',
    feature_engineering df jid dir w = (Ok df', w') /\
    List.length (rows df') = List.length (rows df).
Proof.
  apply clean_table_Ok in Hclean. destruct Hclean as (Hcols & _ & Hres & _).
  rewrite <- Hcols in Hres.
  destruct (ensure_double_total ["age"; "spend"; "recency"; "frequency"] df Hres)
    as (d1 & H1 & Hc1).
  assert (Hres1 : forall n, In n required -> exists i, resolve (columns d1) n = Ok i)
    by (rewrite Hc1; exact Hres).
  assert (H2 : exists d2,
             (if negb (Py.mem "age_group" (columns d1))
              then withColumn "age_group"
                     (c_mul (cast (c_div (col "age") (lit 10)) IntegerType) (lit 10)) d1
              else Ok d1) = Ok d2 /\
             (forall n, In n required -> exists i, resolve (columns d2) n = Ok i)).
  { destruct (Py.mem "age_group" (columns d1)) eqn:Hag; simpl.
    - now exists d1.
    - destruct (Hres1 "age") as (ia & Ha); [simpl; tauto |].
      unfold withColumn. simpl. rewrite Ha. simpl. rewrite Hag.
      eexists. split; [reflexivity |]. simpl. intros n Hn.
      rewrite resolve_app_other; [now apply Hres1 |].
      simpl in Hn. intros <-. intuition discriminate. }
  destruct H2 as (d2 & H2 & Hres2).
  destruct (withColumn_ratio_total "rf_ratio" "frequency" "recency" d2)
    as (d3 & H3 & Hc3); [apply Hres2; simpl; tauto | apply Hres2; simpl; tauto |].
  assert (Hres3 : forall n, In n required -> exists i, resolve (columns d3) n = Ok i).
  { intros n Hn. rewrite Hc3. destruct (Py.mem "rf_ratio" (columns d2));
      [now apply Hres2 |].
    rewrite resolve_app_other; [now apply Hres2 |].
    simpl in Hn. intros <-. intuition discriminate. }
  destruct (withColumn_ratio_total "spend_per_purchase" "spend" "frequency" d3)
    as (d4 & H4 & Hc4); [apply Hres3; simpl; tauto | apply Hres3; simpl; tauto |].
  exists d4. eexists.
  unfold feature_engineering, bind, lift, log_progress, ret.
  rewrite Hopen, H1, H2, H3, H4. split; [reflexivity |].
  apply ensure_double_Ok in H1. destruct H1 as (_ & Hl1).
  apply withColumn_Ok in H3. destruct H3 as (_ & Hl3 & _).
  apply withColumn_Ok in H4. destruct H4 as (_ & Hl4 & _).
  rewrite Hl4, Hl3, <- Hl1.
  destruct (negb (Py.mem "age_group" (columns d1))).
  - apply withColumn_Ok in H2. tauto.
  - now inversion H2.
Qed.

End FeaturesAfterPreprocessing.

(** X22, on the two customers of the scenario. *)
Lemma feature_engineering_returns_after_preprocessing_witness :
  exists df df' w',
    clean_table (platform := Reference.pyspark) Reference.customers = Ok df /\
    feature_engineering (platform := Reference.pyspark) df "job_1" "status"
      Reference.empty_world = (Ok df', w') /\
    List.length (rows df') = List.length (rows df).
Proof.
  eexists.
  destruct (feature_engineering_returns_after_preprocessing
              (platform := Reference.pyspark)
              Reference.customers _ "job_1" "status" Reference.empty_world
              eq_refl ltac:(evaluate_lhs)) as (df' & w' & Hrun & Hlen).
  exists df', w'. split; [evaluate_lhs | split; [exact Hrun | exact Hlen]].
Defined.

(* ===================================================================== *)
(** ** The score of the profile *)
(* ===================================================================== *)

